(** * Multi-tenant todo API: graph store, request handlers, and their properties

    A shallow embedding of the Express/Neo4j backend:
    - [middleware/auth.js]      ([requireAuth], [requireAdmin]),
    - [middleware/validate.js]  ([validate] with the zod schemas of each route),
    - [routes/tenant/index.js]  (tenant lookup and provisioning),
    - [routes/user/index.js]    (user creation and login),
    - the todo routes and [routes/categories/index.js],
    - [scripts/seed.js] and [tests/globalSetup.js],
    - [middleware/tenant.js].

    The Neo4j database is a labelled property graph; every [session.run] is one
    auto-commit query and is modelled as one function on the graph. The [catch]
    branches of the handlers are reached where a query fails in this model: a
    nested object written as a property, or [records[0]] of an empty result.
    [middleware/tenant.js] only sets [req.tenantId], which no route reads; it
    is modelled on its own. Strings are byte strings, so the length bounds of the schemas
    agree with JavaScript's on ASCII input. *)

From stdpp Require Import base strings gmap list sorting pretty.
From Stdlib Require Import ZArith Ascii.

Local Open Scope string_scope.

(** ** JSON values

    Request bodies are JSON objects and node properties are maps from keys to
    values. [VObj] stands for a nested JSON object: a legal JSON value and a
    legal query parameter, but not a legal property value. JSON arrays and
    non-integral numbers do not occur in any route and are left out. *)

Inductive value : Type :=
  | VNull
  | VBool (b : bool)
  | VNum (z : Z)
  | VStr (s : string)
  | VObj.

Global Instance value_eq_dec : EqDecision value.
Proof. solve_decision. Defined.

(** JavaScript truthiness, as used by [x || null] and [if (x)]. A key that is
    absent reads as [undefined]. *)
Definition truthy (v : option value) : bool :=
  match v with
  | Some (VBool b) => b
  | Some (VNum z) => negb (z =? 0)%Z
  | Some (VStr s) => negb (String.eqb s "")
  | Some VObj => true
  | Some VNull | None => false
  end.

(** [x || null] when [x] is passed on as a query parameter. *)
Definition or_null (v : option value) : value :=
  if truthy v then default VNull v else VNull.

(** ** The property graph *)

Inductive label : Type := Tenant | User | InviteKey | Category | Todo.

Inductive reltype : Type :=
  HAS_USER | BELONGS_TO | CREATED_BY | HAS_CATEGORY | INVITED | INVITED_TENANT.

Global Instance label_eq_dec : EqDecision label.
Proof. solve_decision. Defined.

Global Instance reltype_eq_dec : EqDecision reltype.
Proof. solve_decision. Defined.

(** A node has one label and a property map; a property set to null is
    absent. Nodes are keyed by their internal identity, relationships are
    directed and typed, and [drawn] counts the calls to [randomUUID()] made so
    far. *)
Record node : Type := Node { label_of : label; props : gmap string value }.

Global Instance node_eq_dec : EqDecision node.
Proof. solve_decision. Defined.

Record rel : Type := Rel { rtype : reltype; rsrc : nat; rdst : nat }.

Global Instance rel_eq_dec : EqDecision rel.
Proof. solve_decision. Defined.

Record store : Type := Store {
  nodes : gmap nat node;
  rels : list rel;
  drawn : nat
}.

Definition empty_store : store := Store ∅ [] 0.

(** ** Cypher fragments used by the routes *)

Module Cypher.

(** [n.k], null when the property is absent. *)
Definition prop (k : string) (nd : node) : value := default VNull (props nd !! k).

(** The node pattern [(n:L {k1: v1, ...})]. *)
Definition node_is (l : label) (kvs : list (string * value)) (nd : node) : bool :=
  bool_decide (label_of nd = l)
  && forallb (λ kv, bool_decide (props nd !! kv.1 = Some kv.2)) kvs.

(** [MATCH (n:L {...})]: the identities of the matching nodes. *)
Definition match_nodes (l : label) (kvs : list (string * value)) (s : store) : list nat :=
  List.filter (λ x, from_option (node_is l kvs) false (nodes s !! x))
              (map_to_list (nodes s)).*1.

(** [MATCH (a)-[:ty]->(b)] with node patterns [pa] and [pb]: one row per
    relationship. *)
Definition hop (ty : reltype) (pa pb : node → bool) (s : store) : list (nat * nat) :=
  omap (λ r,
    if bool_decide (rtype r = ty) then
      a ← nodes s !! rsrc r;
      b ← nodes s !! rdst r;
      if pa a && pb b then Some (rsrc r, rdst r) else None
    else None) (rels s).

(** [MATCH (t:Tenant {id: $tenantId})-[:HAS_USER]->(u:User {id: $userId})]. *)
Definition membership (tenantId userId : string) (s : store) : list (nat * nat) :=
  hop HAS_USER (node_is Tenant [("id", VStr tenantId)])
               (node_is User [("id", VStr userId)]) s.

(** [MATCH (t:Tenant {id: $tenantId})<-[:BELONGS_TO]-(x)-[:CREATED_BY]->(u:User {id: $userId})]
    where [px] is the pattern of the middle node; one row per path. *)
Definition owned (px : node → bool) (tenantId userId : string) (s : store) : list nat :=
  flat_map (λ e1,
      map fst (List.filter (λ e2, Nat.eqb e2.1 e1.1)
                 (hop CREATED_BY (λ _, true) (node_is User [("id", VStr userId)]) s)))
    (hop BELONGS_TO px (node_is Tenant [("id", VStr tenantId)]) s).

(** [MATCH (t:Tenant {id: $tenantId})<-[:BELONGS_TO]-(x)]. *)
Definition in_tenant (px : node → bool) (tenantId : string) (s : store) : list nat :=
  map fst (hop BELONGS_TO px (node_is Tenant [("id", VStr tenantId)]) s).

(** [SET n += $map]: keys of the map are written, a null removes the key,
    every other property is kept. *)
Definition plus_eq (p m : gmap string value) : gmap string value :=
  merge (λ old new,
           match new with
           | Some VNull => None
           | Some v => Some v
           | None => old
           end) p m.

(** A nested object cannot be stored as a property: the query fails. *)
Definition storable (m : gmap string value) : bool :=
  forallb (λ kv, negb (bool_decide (kv.2 = VObj))) (map_to_list m).

(** Apply [f] to the properties of the nodes in [xs]. *)
Definition set_props (xs : list nat) (f : gmap string value → gmap string value)
    (s : store) : store :=
  Store (foldr (λ x ns, alter (λ nd, Node (label_of nd) (f (props nd))) x ns) (nodes s) xs)
        (rels s) (drawn s).

(** [CREATE (a)-[:ty]->(b)]. *)
Definition create_rel (ty : reltype) (a b : nat) (s : store) : store :=
  Store (nodes s) (rels s ++ [Rel ty a b]) (drawn s).

(** [MERGE (a)-[:ty]->(b)]: created unless such a relationship exists. *)
Definition merge_rel (ty : reltype) (a b : nat) (s : store) : store :=
  if bool_decide (Rel ty a b ∈ rels s) then s else create_rel ty a b s.

(** [DETACH DELETE n] for every row in [xs]. *)
Definition detach_delete (xs : list nat) (s : store) : store :=
  Store (foldr delete (nodes s) xs)
        (List.filter (λ r, negb (bool_decide (rsrc r ∈ xs) || bool_decide (rdst r ∈ xs))) (rels s))
        (drawn s).

(** The identity given to the next created node. *)
Definition new_node (s : store) : nat := fresh (dom (nodes s)).

(** [CREATE (n:L {...})]; null-valued entries are not stored. *)
Definition create_node (l : label) (p : gmap string value) (s : store) : nat * store :=
  (new_node s, Store (<[new_node s := Node l (plus_eq ∅ p)]> (nodes s)) (rels s) (drawn s)).

(** Orderability of values in [ORDER BY], ascending: maps, then strings, then
    booleans, then numbers, null last. *)
Definition rank (v : value) : nat :=
  match v with VObj => 0 | VStr _ => 1 | VBool _ => 2 | VNum _ => 3 | VNull => 4 end.

Definition value_leb (a b : value) : bool :=
  match a, b with
  | VStr x, VStr y => String.leb x y
  | VBool x, VBool y => implb x y
  | VNum x, VNum y => (x <=? y)%Z
  | _, _ => Nat.leb (rank a) (rank b)
  end.

(** [ORDER BY n.k DESC] over rows of node identities. *)
Definition desc_by (k : string) (s : store) (x y : nat) : Prop :=
  Is_true (value_leb (from_option (prop k) VNull (nodes s !! y))
                     (from_option (prop k) VNull (nodes s !! x))).

Global Instance desc_by_dec k s x y : Decision (desc_by k s x y).
Proof. unfold desc_by. apply _. Defined.

Definition order_by_desc (k : string) (s : store) (xs : list nat) : list nat :=
  merge_sort (desc_by k s) xs.

End Cypher.

(** ** Requests, responses and the outside world *)

(** The verified payload of a session token. *)
Record claims : Type := Claims { userId : string; tenantId : string; role : string }.

(** What a handler reads from [req]: the [Authorization] header, the [:id]
    path parameter and the parsed JSON body. *)
Record request : Type := Request {
  authorization : option string;
  param_id : string;
  body : gmap string value
}.

(** [new Date().toISOString()] and [datetime().epochMillis] at handling time. *)
Record clock : Type := Clock { now : string; epochMillis : Z }.

(** The JSON documents sent back. *)
Inductive payload : Type :=
  | Message (success : bool) (message : string)
  | ZodIssues
  | Failure (error : string)
  | TodoBody (todo : gmap string value)
  | TodosBody (todos : list (gmap string value))
  | CategoryBody (category : gmap string value)
  | CategoriesBody (categories : list (gmap string value))
  | UserBody (user : gmap string value)
  | TenantBody (tenant user : gmap string value)
  | LookupBody (tenant_id : value) (redirectTo : string)
  | LoginBody (token : string) (user : gmap string value).

Record response : Type := Response { status : nat; sent : payload }.

(** Trusted primitives that live outside the repository: the JWT library, the
    zod e-mail format, bcrypt, and Cypher's [randomUUID()] (its [n]-th draw). *)
Record World : Type := {
  jwt_verify : string → option claims;
  jwt_sign : claims → string;
  zod_email : string → bool;
  hashPassword : string → string;
  comparePassword : string → string → bool;
  randomUUID : nat → string
}.

(** A middleware either answers the request or lets it through. *)
Definition guard (A : Type) : Type := response + A.

Definition and_then {A B : Type} (g : guard A) (k : A → guard B) : guard B :=
  match g with inl r => inl r | inr a => k a end.

Notation "x <- g ;; k" := (and_then g (λ x, k))
  (at level 100, g at next level, right associativity).

(** Run the handler once every middleware has let the request through. *)
Definition serve {A : Type} (g : guard A) (h : A → store → response * store)
    (s : store) : response * store :=
  match g with inl r => (r, s) | inr a => h a s end.

(** ** middleware/auth.js *)

(** [authHeader.split(" ")[1]] for a header that starts with ["Bearer "]. *)
Fixpoint until_space (s : string) : string :=
  match s with
  | EmptyString => EmptyString
  | String c r => if Ascii.eqb c " "%char then EmptyString else String c (until_space r)
  end.

Definition bearer_token (h : string) : string :=
  until_space (String.substring 7 (String.length h - 7) h).

Definition requireAuth (W : World) (req : request) : guard claims :=
  match authorization req with
  | None => inl (Response 401 (Message false "Unauthorized: Missing token"))
  | Some h =>
      if negb (String.prefix "Bearer " h) then
        inl (Response 401 (Message false "Unauthorized: Missing token"))
      else
        match jwt_verify W (bearer_token h) with
        | Some c => inr c
        | None => inl (Response 401 (Message false "Unauthorized: Invalid token"))
        end
  end.

Definition requireAdmin (c : claims) : guard unit :=
  if negb (String.eqb (role c) "admin") then
    inl (Response 403 (Message false "Forbidden: Admin access required"))
  else inr tt.

(** ** middleware/validate.js and the zod schemas

    [schema.parse(req.body)] only decides whether the request goes on: its
    result is dropped and the handler keeps reading [req.body]. Object schemas
    accept unknown keys. *)

Definition validate (schema : gmap string value → bool) (req : request) : guard unit :=
  if schema (body req) then inr tt else inl (Response 400 ZodIssues).

Module Zod.

Definition str (lo : nat) (hi : option nat) (v : value) : bool :=
  match v with
  | VStr s => Nat.leb lo (String.length s)
              && from_option (Nat.leb (String.length s)) true hi
  | _ => false
  end.

Definition boolean (v : value) : bool :=
  match v with VBool _ => true | _ => false end.

Definition enum (options : list string) (v : value) : bool :=
  match v with VStr s => existsb (String.eqb s) options | _ => false end.

Definition nullable (chk : value → bool) (v : value) : bool :=
  match v with VNull => true | _ => chk v end.

Definition required (chk : value → bool) (o : option value) : bool :=
  from_option chk false o.

Definition optional (chk : value → bool) (o : option value) : bool :=
  from_option chk true o.

Definition between (lo hi c : Ascii.ascii) : bool :=
  Nat.leb (Ascii.nat_of_ascii lo) (Ascii.nat_of_ascii c)
  && Nat.leb (Ascii.nat_of_ascii c) (Ascii.nat_of_ascii hi).

(** [/^[a-z0-9-]+$/] *)
Definition slug_re (v : value) : bool :=
  match v with
  | VStr s =>
      negb (String.eqb s "")
      && forallb (λ c, between "a" "z" c || between "0" "9" c || Ascii.eqb c "-"%char)
                 (String.list_ascii_of_string s)
  | _ => false
  end.

(** [/^#[0-9A-Fa-f]{6}$/] *)
Definition color_re (v : value) : bool :=
  match v with
  | VStr (String "#" r) =>
      Nat.eqb (String.length r) 6
      && forallb (λ c, between "0" "9" c || between "A" "F" c || between "a" "f" c)
                 (String.list_ascii_of_string r)
  | _ => false
  end.

Definition email (W : World) (v : value) : bool :=
  match v with VStr s => zod_email W s | _ => false end.

End Zod.

(** ** Helpers shared by the todo and category routes *)

Definition props_at (x : nat) (s : store) : gmap string value :=
  from_option props ∅ (nodes s !! x).

(** One row of
    [CREATE (n:L {id: randomUUID(), ...}) CREATE (n)-[:BELONGS_TO]->(t) CREATE (n)-[:CREATED_BY]->(u)]
    for the matched row [(u, t)]. *)
Definition create_owned_row (W : World) (l : label) (p : string → gmap string value)
    (s : store) (row : nat * nat) : nat * store :=
  let uuid := randomUUID W (drawn s) in
  let created := Cypher.create_node l (p uuid) (Store (nodes s) (rels s) (S (drawn s))) in
  (created.1,
   Cypher.create_rel CREATED_BY created.1 row.1
     (Cypher.create_rel BELONGS_TO created.1 row.2 created.2)).

Fixpoint create_owned (W : World) (l : label) (p : string → gmap string value)
    (rows : list (nat * nat)) (s : store) : list nat * store :=
  match rows with
  | [] => ([], s)
  | row :: rest =>
      let one := create_owned_row W l p s row in
      let more := create_owned W l p rest one.2 in
      (one.1 :: more.1, more.2)
  end.

(** [MATCH (u:User {id: $userId}) MATCH (t:Tenant {id: $tenantId})]. *)
Definition user_tenant_rows (c : claims) (s : store) : list (nat * nat) :=
  list_prod (Cypher.match_nodes User [("id", VStr (userId c))] s)
            (Cypher.match_nodes Tenant [("id", VStr (tenantId c))] s).

(** [MATCH (todo:Todo {id: $todoId}) MATCH (c:Category {id: $categoryId})
     MERGE (todo)-[:HAS_CATEGORY]->(c)]. *)
Definition link_category (todoId categoryId : value) (s : store) : store :=
  foldl (λ acc row, Cypher.merge_rel HAS_CATEGORY row.1 row.2 acc) s
        (list_prod (Cypher.match_nodes Todo [("id", todoId)] s)
                   (Cypher.match_nodes Category [("id", categoryId)] s)).

(** [MATCH (todo:Todo {id: $id})-[r:HAS_CATEGORY]->() DELETE r]. *)
Definition unlink_category (id : string) (s : store) : store :=
  Store (nodes s)
        (List.filter (λ r,
           negb (bool_decide (rtype r = HAS_CATEGORY)
                 && from_option (Cypher.node_is Todo [("id", VStr id)]) false (nodes s !! rsrc r)))
           (rels s))
        (drawn s).

(** ** The todo routes *)

Module TodoRoutes.

Definition createTodoSchema (b : gmap string value) : bool :=
  Zod.required (Zod.str 1 None) (b !! "title")
  && Zod.optional (Zod.str 0 None) (b !! "description")
  && Zod.required Zod.boolean (b !! "is_completed")
  && Zod.optional (Zod.nullable (Zod.str 0 None)) (b !! "due_date")
  && Zod.required (Zod.enum ["low"; "medium"; "high"]) (b !! "priority")
  && Zod.optional (Zod.nullable (Zod.str 0 None)) (b !! "category_id").

Definition updateTodoSchema (b : gmap string value) : bool :=
  Zod.optional (Zod.str 1 None) (b !! "title")
  && Zod.optional (Zod.str 0 None) (b !! "description")
  && Zod.optional Zod.boolean (b !! "is_completed")
  && Zod.optional (Zod.nullable (Zod.str 0 None)) (b !! "due_date")
  && Zod.optional (Zod.enum ["low"; "medium"; "high"]) (b !! "priority")
  && Zod.optional (Zod.nullable (Zod.str 0 None)) (b !! "category_id").

(** The property map of the [CREATE (todo:Todo {...})] clause. *)
Definition new_todo (clk : clock) (c : claims) (b : gmap string value) (uuid : string)
    : gmap string value :=
  list_to_map [
    ("id", VStr uuid);
    ("title", default VNull (b !! "title"));
    ("description", or_null (b !! "description"));
    ("is_completed", default VNull (b !! "is_completed"));
    ("due_date", or_null (b !! "due_date"));
    ("priority", default VNull (b !! "priority"));
    ("completed_at", if truthy (b !! "is_completed") then VStr (now clk) else VNull);
    ("created_at", VStr (now clk));
    ("updated_at", VStr (now clk));
    ("user_id", VStr (userId c));
    ("tenant_id", VStr (tenantId c));
    ("category_id", or_null (b !! "category_id"))
  ].

(** POST /api/todos, after [requireAuth] and [validate(createTodoSchema)]. *)
Definition create_handler (W : World) (clk : clock) (req : request) (c : claims)
    (s : store) : response * store :=
  if bool_decide (Cypher.membership (tenantId c) (userId c) s = []) then
    (Response 403 (Message false "User does not belong to this tenant"), s)
  else
    let created := create_owned W Todo (new_todo clk c (body req)) (user_tenant_rows c s) s in
    match created.1 with
    | [] => (Response 500 (Failure "Cannot read properties of undefined"), created.2)
    | x :: _ =>
        let createdTodo := props_at x created.2 in
        let s2 :=
          if truthy (body req !! "category_id") then
            link_category (Cypher.prop "id" (Node Todo createdTodo))
                          (default VNull (body req !! "category_id")) created.2
          else created.2 in
        (Response 201 (TodoBody createdTodo), s2)
    end.

Definition create (W : World) (clk : clock) (req : request) (s : store) : response * store :=
  serve (c <- requireAuth W req ;; _ <- validate createTodoSchema req ;; inr c)
        (create_handler W clk req) s.

(** GET /api/todos *)
Definition list_handler (c : claims) (s : store) : response * store :=
  let rows := Cypher.owned (Cypher.node_is Todo []) (tenantId c) (userId c) s in
  (Response 200 (TodosBody (map (λ x, props_at x s) (Cypher.order_by_desc "created_at" s rows))), s).

Definition list_all (W : World) (req : request) (s : store) : response * store :=
  serve (requireAuth W req) list_handler s.

(** GET /api/todos/:id *)
Definition get_handler (req : request) (c : claims) (s : store) : response * store :=
  match Cypher.owned (Cypher.node_is Todo [("id", VStr (param_id req))])
                     (tenantId c) (userId c) s with
  | [] => (Response 404 (Message false "Todo not found"), s)
  | x :: _ => (Response 200 (TodoBody (props_at x s)), s)
  end.

Definition get (W : World) (req : request) (s : store) : response * store :=
  serve (requireAuth W req) (get_handler req) s.

(** [updateMap] of the PUT handler: the raw body, [updated_at], and
    [completed_at] when [is_completed] is a boolean. *)
Definition updateMap (clk : clock) (updates : gmap string value) : gmap string value :=
  let m := <["updated_at" := VStr (now clk)]> updates in
  if bool_decide (updates !! "is_completed" = Some (VBool true)) then
    <["completed_at" := VStr (now clk)]> m
  else if bool_decide (updates !! "is_completed" = Some (VBool false)) then
    <["completed_at" := VNull]> m
  else m.

(** PUT /api/todos/:id, after [requireAuth] and [validate(updateTodoSchema)]. *)
Definition update_handler (clk : clock) (req : request) (c : claims)
    (s : store) : response * store :=
  let updates := body req in
  let rows := Cypher.owned (Cypher.node_is Todo [("id", VStr (param_id req))])
                           (tenantId c) (userId c) s in
  match rows with
  | [] => (Response 404 (Message false "Todo not found or unauthorized"), s)
  | x :: _ =>
      if negb (Cypher.storable (updateMap clk updates)) then
        (Response 500 (Failure "Property values can only be of primitive types or arrays thereof"), s)
      else
        let s1 := Cypher.set_props rows (λ p, Cypher.plus_eq p (updateMap clk updates)) s in
        let s2 :=
          if bool_decide (is_Some (updates !! "category_id")) then
            let s' := unlink_category (param_id req) s1 in
            if truthy (updates !! "category_id") then
              link_category (VStr (param_id req)) (default VNull (updates !! "category_id")) s'
            else s'
          else s1 in
        (Response 200 (TodoBody (props_at x s1)), s2)
  end.

Definition update (W : World) (clk : clock) (req : request) (s : store) : response * store :=
  serve (c <- requireAuth W req ;; _ <- validate updateTodoSchema req ;; inr c)
        (update_handler clk req) s.

(** DELETE /api/todos/:id, after [requireAuth] and [requireAdmin]. *)
Definition remove_handler (req : request) (c : claims) (s : store) : response * store :=
  let rows := Cypher.in_tenant (Cypher.node_is Todo [("id", VStr (param_id req))]) (tenantId c) s in
  if Nat.eqb (length rows) 0 then
    (Response 404 (Message false "Todo not found"), Cypher.detach_delete rows s)
  else
    (Response 200 (Message true "Todo deleted"), Cypher.detach_delete rows s).

Definition remove (W : World) (req : request) (s : store) : response * store :=
  serve (c <- requireAuth W req ;; _ <- requireAdmin c ;; inr c) (remove_handler req) s.

End TodoRoutes.

(** ** routes/categories/index.js *)

Module CategoryRoutes.

Definition createCategorySchema (b : gmap string value) : bool :=
  Zod.required (Zod.str 1 (Some 100)) (b !! "name")
  && Zod.required Zod.color_re (b !! "color")
  && Zod.optional (Zod.str 0 None) (b !! "icon").

Definition updateCategorySchema (b : gmap string value) : bool :=
  Zod.optional (Zod.str 1 (Some 100)) (b !! "name")
  && Zod.optional Zod.color_re (b !! "color")
  && Zod.optional (Zod.str 0 None) (b !! "icon").

Definition new_category (clk : clock) (c : claims) (b : gmap string value) (uuid : string)
    : gmap string value :=
  list_to_map [
    ("id", VStr uuid);
    ("name", default VNull (b !! "name"));
    ("color", default VNull (b !! "color"));
    ("icon", or_null (b !! "icon"));
    ("created_at", VStr (now clk));
    ("user_id", VStr (userId c));
    ("tenant_id", VStr (tenantId c))
  ].

(** POST /api/categories *)
Definition create_handler (W : World) (clk : clock) (req : request) (c : claims)
    (s : store) : response * store :=
  if bool_decide (Cypher.membership (tenantId c) (userId c) s = []) then
    (Response 403 (Message false "User does not belong to this tenant"), s)
  else
    let created := create_owned W Category (new_category clk c (body req)) (user_tenant_rows c s) s in
    match created.1 with
    | [] => (Response 500 (Failure "Cannot read properties of undefined"), created.2)
    | x :: _ => (Response 201 (CategoryBody (props_at x created.2)), created.2)
    end.

Definition create (W : World) (clk : clock) (req : request) (s : store) : response * store :=
  serve (c <- requireAuth W req ;; _ <- validate createCategorySchema req ;; inr c)
        (create_handler W clk req) s.

(** GET /api/categories *)
Definition list_handler (c : claims) (s : store) : response * store :=
  let rows := Cypher.owned (Cypher.node_is Category []) (tenantId c) (userId c) s in
  (Response 200 (CategoriesBody (map (λ x, props_at x s)
                                     (Cypher.order_by_desc "created_at" s rows))), s).

Definition list_all (W : World) (req : request) (s : store) : response * store :=
  serve (requireAuth W req) list_handler s.

(** GET /api/categories/:id *)
Definition get_handler (req : request) (c : claims) (s : store) : response * store :=
  match Cypher.owned (Cypher.node_is Category [("id", VStr (param_id req))])
                     (tenantId c) (userId c) s with
  | [] => (Response 404 (Message false "Category not found"), s)
  | x :: _ => (Response 200 (CategoryBody (props_at x s)), s)
  end.

Definition get (W : World) (req : request) (s : store) : response * store :=
  serve (requireAuth W req) (get_handler req) s.

(** PUT /api/categories/:id: [SET category += $updates] with the raw body. *)
Definition update_handler (req : request) (c : claims) (s : store) : response * store :=
  let rows := Cypher.owned (Cypher.node_is Category [("id", VStr (param_id req))])
                           (tenantId c) (userId c) s in
  match rows with
  | [] => (Response 404 (Message false "Category not found or unauthorized"), s)
  | x :: _ =>
      if negb (Cypher.storable (body req)) then
        (Response 500 (Failure "Property values can only be of primitive types or arrays thereof"), s)
      else
        let s1 := Cypher.set_props rows (λ p, Cypher.plus_eq p (body req)) s in
        (Response 200 (CategoryBody (props_at x s1)), s1)
  end.

Definition update (W : World) (req : request) (s : store) : response * store :=
  serve (c <- requireAuth W req ;; _ <- validate updateCategorySchema req ;; inr c)
        (update_handler req) s.

(** [MATCH (todo:Todo {category_id: $id}) SET todo.category_id = null]. *)
Definition clear_references (id : string) (s : store) : store :=
  Cypher.set_props (Cypher.match_nodes Todo [("category_id", VStr id)] s)
                   (λ p, Cypher.plus_eq p {["category_id" := VNull]}) s.

(** DELETE /api/categories/:id: the sweep over the todos, then the scoped
    delete. *)
Definition remove_handler (req : request) (c : claims) (s : store) : response * store :=
  let s1 := clear_references (param_id req) s in
  let rows := Cypher.owned (Cypher.node_is Category [("id", VStr (param_id req))])
                           (tenantId c) (userId c) s1 in
  if Nat.eqb (length rows) 0 then
    (Response 404 (Message false "Category not found"), Cypher.detach_delete rows s1)
  else
    (Response 200 (Message true "Category deleted"), Cypher.detach_delete rows s1).

Definition remove (W : World) (req : request) (s : store) : response * store :=
  serve (requireAuth W req) (remove_handler req) s.

End CategoryRoutes.

(** ** routes/tenant/index.js *)

Definition field (b : gmap string value) (k : string) : value := default VNull (b !! k).

Definition as_string (v : value) : string :=
  match v with VStr s => s | _ => "" end.

(** A property in a template literal, [`${node.k}`]: JavaScript's string
    conversion of what the driver hands over. An absent property reads as
    [undefined]; an integer prints its decimal digits. *)
Definition template (v : option value) : string :=
  match v with
  | None => "undefined"
  | Some VNull => "null"
  | Some (VBool b) => if b then "true" else "false"
  | Some (VNum z) => pretty z
  | Some (VStr s) => s
  | Some VObj => "[object Object]"
  end.

(** [split($email, '@')[0]] *)
Fixpoint before_at (s : string) : string :=
  match s with
  | EmptyString => EmptyString
  | String c r => if Ascii.eqb c "@"%char then EmptyString else String c (before_at r)
  end.

(** Keep the listed keys of a property map, as in
    [{ id: tenant.id, name: tenant.name, slug: tenant.slug }]. *)
Definition pick (keys : list string) (p : gmap string value) : gmap string value :=
  list_to_map (omap (λ k, (k,.) <$> p !! k) keys).

Module TenantRoutes.

Definition lookupSchema (b : gmap string value) : bool :=
  Zod.required (Zod.str 1 (Some 100)) (b !! "tenantName").

Definition createSchema (W : World) (b : gmap string value) : bool :=
  Zod.required (Zod.str 1 (Some 100)) (b !! "name")
  && Zod.required (λ v, Zod.str 1 (Some 100) v && Zod.slug_re v) (b !! "slug")
  && Zod.required (Zod.email W) (b !! "email")
  && Zod.required (Zod.str 1 None) (b !! "fullName")
  && Zod.required (Zod.str 8 None) (b !! "password")
  && Zod.required (Zod.str 1 None) (b !! "inviteKey").

(** POST /api/tenant/lookup. In the answer a [tenantId] of [VNull] stands for
    a key that is left out of the JSON document. *)
Definition lookup_handler (req : request) (s : store) : response * store :=
  let tenantName := field (body req) "tenantName" in
  let rows :=
    List.filter (λ x, from_option (λ nd,
                   bool_decide (label_of nd = Tenant)
                   && (bool_decide (props nd !! "name" = Some tenantName)
                       || bool_decide (props nd !! "slug" = Some tenantName))
                   && bool_decide (props nd !! "isActive" = Some (VBool true)))
                 false (nodes s !! x))
                (map_to_list (nodes s)).*1 in
  match rows with
  | [] => (Response 404 (Message false "Tenant not found"), s)
  | x :: _ =>
      let tenant := props_at x s in
      (Response 200 (LookupBody (Cypher.prop "id" (Node Tenant tenant))
                                ("/login?tenant=" +:+ template (tenant !! "id"))), s)
  end.

Definition lookup (req : request) (s : store) : response * store :=
  serve (validate lookupSchema req) (λ _, lookup_handler req) s.

(** The property maps of [CREATE (t:Tenant {...})] and [CREATE (u:User {...})]
    in the creation query, and its [SET i.isUsed = true, i.usedAt = ..., i.usedBy = u.id]. *)
Definition new_tenant (b : gmap string value) (tid : string) : gmap string value :=
  list_to_map [("id", VStr tid); ("name", field b "name");
               ("slug", field b "slug"); ("isActive", VBool true)].

Definition new_admin (clk : clock) (b : gmap string value) (hashed tid uid : string)
    : gmap string value :=
  list_to_map [("id", VStr uid); ("tenant_id", VStr tid);
               ("username", VStr (before_at (as_string (field b "email"))));
               ("email", field b "email");
               ("full_name", field b "fullName");
               ("password", VStr hashed);
               ("role", VStr "admin");
               ("created_at", VNum (epochMillis clk))].

Definition mark_used (clk : clock) (uid : string) (p : gmap string value)
    : gmap string value :=
  <["usedBy" := VStr uid]>
    (<["usedAt" := VNum (epochMillis clk)]> (<["isUsed" := VBool true]> p)).

(** One row of the creation query, for the matched invite key node [i]. *)
Definition provision_row (W : World) (clk : clock) (b : gmap string value)
    (hashed : string) (s : store) (i : nat) : (nat * nat) * store :=
  let tid := randomUUID W (drawn s) in
  let uid := randomUUID W (S (drawn s)) in
  let t := Cypher.create_node Tenant (new_tenant b tid)
             (Store (nodes s) (rels s) (S (S (drawn s)))) in
  let u := Cypher.create_node User (new_admin clk b hashed tid uid) t.2 in
  let linked :=
    Cypher.create_rel INVITED_TENANT i t.1
      (Cypher.create_rel INVITED i u.1
        (Cypher.create_rel HAS_USER t.1 u.1 u.2)) in
  ((t.1, u.1), Cypher.set_props [i] (mark_used clk uid) linked).

Fixpoint provision (W : World) (clk : clock) (b : gmap string value) (hashed : string)
    (keys : list nat) (s : store) : list (nat * nat) * store :=
  match keys with
  | [] => ([], s)
  | i :: rest =>
      let one := provision_row W clk b hashed s i in
      let more := provision W clk b hashed rest one.2 in
      (one.1 :: more.1, more.2)
  end.

(** POST /api/tenant/create, after [validate(createSchema)]. *)
Definition create_handler (W : World) (clk : clock) (req : request)
    (s : store) : response * store :=
  let b := body req in
  let dupCheck :=
    (Cypher.match_nodes Tenant [("slug", field b "slug")] s
     ++ Cypher.match_nodes User [("email", field b "email")] s)%list in
  if negb (Nat.eqb (length dupCheck) 0) then
    (Response 400 (Message false "Tenant slug or email already exists"), s)
  else
    let keyCheck :=
      Cypher.match_nodes InviteKey [("key", field b "inviteKey"); ("isUsed", VBool false)] s in
    if Nat.eqb (length keyCheck) 0 then
      (Response 400 (Message false "Invalid or already used invite key"), s)
    else
      let hashedPassword := hashPassword W (as_string (field b "password")) in
      let result :=
        provision W clk b hashedPassword
                  (Cypher.match_nodes InviteKey [("key", field b "inviteKey")] s) s in
      match result.1 with
      | [] => (Response 500 (Failure "Cannot read properties of undefined"), result.2)
      | (t, u) :: _ =>
          (Response 201 (TenantBody (pick ["id"; "name"; "slug"] (props_at t result.2))
                                    (pick ["id"; "email"; "role"] (props_at u result.2))),
           result.2)
      end.

Definition create (W : World) (clk : clock) (req : request) (s : store) : response * store :=
  serve (validate (createSchema W) req) (λ _, create_handler W clk req) s.

End TenantRoutes.

(** ** routes/user/index.js *)

Module UserRoutes.

Definition createUserSchema (W : World) (b : gmap string value) : bool :=
  Zod.required (Zod.email W) (b !! "email")
  && Zod.required (Zod.str 1 None) (b !! "fullName")
  && Zod.required (Zod.str 8 None) (b !! "password")
  && Zod.required (Zod.enum ["admin"; "member"]) (b !! "role").

Definition loginSchema (W : World) (b : gmap string value) : bool :=
  Zod.required (Zod.str 1 None) (b !! "tenantId")
  && Zod.required (Zod.email W) (b !! "email")
  && Zod.required (Zod.str 1 None) (b !! "password").

(** One row of the user creation query, for the matched tenant node [t]. *)
Definition add_user_row (W : World) (clk : clock) (b : gmap string value)
    (hashed : string) (s : store) (t : nat) : nat * store :=
  let uid := randomUUID W (drawn s) in
  let u := Cypher.create_node User
             (list_to_map [("id", VStr uid);
                           ("tenant_id", Cypher.prop "id" (Node Tenant (props_at t s)));
                           ("username", VStr (before_at (as_string (field b "email"))));
                           ("email", field b "email");
                           ("full_name", field b "fullName");
                           ("password", VStr hashed);
                           ("role", field b "role");
                           ("created_at", VNum (epochMillis clk))])
             (Store (nodes s) (rels s) (S (drawn s))) in
  (u.1, Cypher.create_rel HAS_USER t u.1 u.2).

Fixpoint add_users (W : World) (clk : clock) (b : gmap string value) (hashed : string)
    (tenants : list nat) (s : store) : list nat * store :=
  match tenants with
  | [] => ([], s)
  | t :: rest =>
      let one := add_user_row W clk b hashed s t in
      let more := add_users W clk b hashed rest one.2 in
      (one.1 :: more.1, more.2)
  end.

(** POST /api/user/create, after [requireAuth], [requireAdmin] and
    [validate(createUserSchema)]. *)
Definition create_handler (W : World) (clk : clock) (req : request) (c : claims)
    (s : store) : response * store :=
  let b := body req in
  if negb (Nat.eqb (length (Cypher.match_nodes User [("email", field b "email")] s)) 0) then
    (Response 400 (Message false "Email already exists"), s)
  else
    let hashedPassword := hashPassword W (as_string (field b "password")) in
    let result :=
      add_users W clk b hashedPassword
                (Cypher.match_nodes Tenant [("id", VStr (tenantId c))] s) s in
    match result.1 with
    | [] => (Response 404 (Message false "Tenant not found"), result.2)
    | u :: _ => (Response 201 (UserBody (delete "password" (props_at u result.2))), result.2)
    end.

Definition create (W : World) (clk : clock) (req : request) (s : store) : response * store :=
  serve (c <- requireAuth W req ;; _ <- requireAdmin c ;;
         _ <- validate (createUserSchema W) req ;; inr c)
        (create_handler W clk req) s.

(** POST /api/user/login *)
Definition login_handler (W : World) (req : request) (s : store) : response * store :=
  let b := body req in
  match Cypher.hop HAS_USER (Cypher.node_is Tenant [("id", field b "tenantId")])
                            (Cypher.node_is User [("email", field b "email")]) s with
  | [] => (Response 404 (Message false "User not found"), s)
  | (_, u) :: _ =>
      let user := props_at u s in
      if negb (truthy (user !! "password")) then
        (Response 401 (Message false "Invalid credentials"), s)
      else if negb (comparePassword W (as_string (field b "password"))
                                      (as_string (field user "password"))) then
        (Response 401 (Message false "Invalid credentials"), s)
      else
        let token := jwt_sign W (Claims (as_string (field user "id"))
                                        (as_string (field user "tenant_id"))
                                        (as_string (field user "role"))) in
        (Response 200 (LoginBody token (delete "password" user)), s)
  end.

Definition login (W : World) (req : request) (s : store) : response * store :=
  serve (validate (loginSchema W) req) (λ _, login_handler W req) s.

End UserRoutes.

(** ** scripts/seed.js *)

Module Seed.

Definition inviteKeys : list string :=
  ["chronos-beta"; "test-key-1"; "test-key-2"; "test-key-3"].

(** [MERGE (i:InviteKey {key: $key}) ON CREATE SET i.isUsed = false
     ON MATCH SET i.isUsed = false]. *)
Definition merge_key (key : string) (s : store) : store :=
  match Cypher.match_nodes InviteKey [("key", VStr key)] s with
  | [] => (Cypher.create_node InviteKey
             (list_to_map [("key", VStr key); ("isUsed", VBool false)]) s).2
  | found => Cypher.set_props found (λ p, <["isUsed" := VBool false]> p) s
  end.

(** [CREATE CONSTRAINT invite_key IF NOT EXISTS FOR (i:InviteKey) REQUIRE i.key IS UNIQUE]
    can be put in place, or is in place: no two invite key nodes carry the
    same key. *)
Definition key_is_unique (s : store) : Prop :=
  map_Forall (λ x nx,
    map_Forall (λ y ny,
        label_of nx = InviteKey → label_of ny = InviteKey →
        is_Some (props nx !! "key") → props nx !! "key" = props ny !! "key" → x = y)
      (nodes s))
    (nodes s).

Global Instance key_is_unique_dec s : Decision (key_is_unique s).
Proof. unfold key_is_unique. apply _. Defined.

(** The script runs the constraint query first and then one MERGE per key,
    all inside one [try]: when the constraint query fails, the [catch] logs
    the error and no MERGE is run. *)
Definition seed (s : store) : store :=
  if decide (key_is_unique s) then foldl (λ acc key, merge_key key acc) s inviteKeys
  else s.

End Seed.

(** ** tests/globalSetup.js: [MATCH (n) DETACH DELETE n], then the seed *)

Definition globalSetup (s : store) : store :=
  Seed.seed (Cypher.detach_delete (map_to_list (nodes s)).*1 s).

(** ** middleware/tenant.js

    Runs on every request ahead of the routes and records a tenant identifier
    in [req.tenantId]. [decode] stands for [jwt.decode] followed by
    [payload?.tenantId]: the [tenantId] member of the unverified payload,
    absent when the token does not parse or carries none. *)

Record incoming : Type := Incoming {
  req_path : string;
  x_tenant_id : option string;
  authorization_header : option string
}.

(** [x || "tenantA"] *)
Definition or_tenantA (v : option value) : value :=
  if truthy v then default VNull v else VStr "tenantA".

Definition tenantMiddleware (decode : string → option value) (req : incoming) : value :=
  if String.eqb (req_path req) "/login" then or_tenantA (VStr <$> x_tenant_id req)
  else
    match authorization_header req with
    | Some h =>
        if String.prefix "Bearer " h
        then or_tenantA (decode (String.substring 7 (String.length h - 7) h))
        else VStr "tenantA"
    | None => VStr "tenantA"
    end.

(** ** The API as a whole *)

Inductive endpoint : Type :=
  | POST_tenant_lookup | POST_tenant_create
  | POST_user_create | POST_user_login
  | POST_todos | GET_todos | GET_todo | PUT_todo | DELETE_todo
  | POST_categories | GET_categories | GET_category | PUT_category | DELETE_category.

Global Instance endpoint_eq_dec : EqDecision endpoint.
Proof. solve_decision. Defined.

Definition api (W : World) (clk : clock) (e : endpoint) (req : request)
    (s : store) : response * store :=
  match e with
  | POST_tenant_lookup => TenantRoutes.lookup req s
  | POST_tenant_create => TenantRoutes.create W clk req s
  | POST_user_create => UserRoutes.create W clk req s
  | POST_user_login => UserRoutes.login W req s
  | POST_todos => TodoRoutes.create W clk req s
  | GET_todos => TodoRoutes.list_all W req s
  | GET_todo => TodoRoutes.get W req s
  | PUT_todo => TodoRoutes.update W clk req s
  | DELETE_todo => TodoRoutes.remove W req s
  | POST_categories => CategoryRoutes.create W clk req s
  | GET_categories => CategoryRoutes.list_all W req s
  | GET_category => CategoryRoutes.get W req s
  | PUT_category => CategoryRoutes.update W req s
  | DELETE_category => CategoryRoutes.remove W req s
  end.

(** ** Notions used in the statements *)

(** A HAS_USER link between a tenant node and a user node carrying the given
    identifiers. *)
Definition member (s : store) (tenant_id user_id : string) : Prop :=
  ∃ t u nt nu,
    Rel HAS_USER t u ∈ rels s
    ∧ nodes s !! t = Some nt ∧ nodes s !! u = Some nu
    ∧ Cypher.node_is Tenant [("id", VStr tenant_id)] nt = true
    ∧ Cypher.node_is User [("id", VStr user_id)] nu = true.

(** Node [x] is a todo whose [category_id] property is [id]. *)
Definition references (s : store) (x : nat) (id : string) : Prop :=
  ∃ nd, nodes s !! x = Some nd ∧ label_of nd = Todo
        ∧ props nd !! "category_id" = Some (VStr id).

(** Node [x] is still a todo, with the same properties as [nd] except that
    [category_id] is null. *)
Definition cleared (s : store) (x : nat) (nd : node) : Prop :=
  nodes s !! x = Some (Node Todo (delete "category_id" (props nd))).

(** Node [x] is an invite key marked as used. *)
Definition used (s : store) (x : nat) : Prop :=
  ∃ nd, nodes s !! x = Some nd ∧ label_of nd = InviteKey
        ∧ props nd !! "isUsed" = Some (VBool true).

(** Every node of [s] that satisfies [P] is found unchanged in [s']. *)
Definition untouched (P : node → Prop) (s s' : store) : Prop :=
  ∀ x nd, nodes s !! x = Some nd → P nd → nodes s' !! x = Some nd.

(** Invite key node [i], tenant node [t] and admin user node [u] form one
    complete provisioning in [s], none of [t], [u] existing in [s0]: the
    tenant, its admin, the three links, and the key marked as used by [u]. *)
Definition provisioned (clk : clock) (b : gmap string value) (hashed : string)
    (s0 s : store) (i t u : nat) : Prop :=
  ∃ tid uid ki,
    nodes s0 !! t = None ∧ nodes s0 !! u = None ∧ nodes s0 !! i = Some ki
    ∧ label_of ki = InviteKey
    ∧ nodes s !! t = Some (Node Tenant (Cypher.plus_eq ∅ (TenantRoutes.new_tenant b tid)))
    ∧ nodes s !! u
      = Some (Node User (Cypher.plus_eq ∅ (TenantRoutes.new_admin clk b hashed tid uid)))
    ∧ nodes s !! i = Some (Node (label_of ki) (TenantRoutes.mark_used clk uid (props ki)))
    ∧ Rel HAS_USER t u ∈ rels s ∧ Rel INVITED i u ∈ rels s
    ∧ Rel INVITED_TENANT i t ∈ rels s.

(** Some invite key node carries [key] and is not used yet. *)
Definition unused_key (s : store) (key : value) : Prop :=
  ∃ x nd, nodes s !! x = Some nd ∧ label_of nd = InviteKey
          ∧ props nd !! "key" = Some key ∧ props nd !! "isUsed" = Some (VBool false).

(** Some tenant has the slug of the body or some user has its e-mail. *)
Definition slug_or_email_taken (s : store) (b : gmap string value) : Prop :=
  ∃ x nd, nodes s !! x = Some nd
          ∧ ((label_of nd = Tenant ∧ props nd !! "slug" = Some (field b "slug"))
             ∨ (label_of nd = User ∧ props nd !! "email" = Some (field b "email"))).

(** The provisioning is committed as a whole between [s] and [s']: at least
    one complete provisioning exists, every node that is new is the tenant or
    the admin of a complete one, every node that changed is the invite key of
    a complete one, every new link belongs to a complete one, and nothing that
    was there is lost. *)
Definition all_committed (clk : clock) (b : gmap string value) (hashed : string)
    (s s' : store) : Prop :=
  (∃ i t u, provisioned clk b hashed s s' i t u)
  ∧ (∀ x nd, nodes s' !! x = Some nd → nodes s !! x = None →
             ∃ i t u, provisioned clk b hashed s s' i t u ∧ (x = t ∨ x = u))
  ∧ (∀ x nd, nodes s !! x = Some nd → nodes s' !! x ≠ Some nd →
             ∃ t u, provisioned clk b hashed s s' x t u)
  ∧ (∀ r, r ∈ rels s' →
          r ∈ rels s
          ∨ ∃ i t u, provisioned clk b hashed s s' i t u
                     ∧ r ∈ [Rel HAS_USER t u; Rel INVITED i u; Rel INVITED_TENANT i t])
  ∧ (∀ r, r ∈ rels s → r ∈ rels s').




(** Two different invite key nodes carry the same key. *)
Definition duplicate_key (s : store) : Prop :=
  ∃ x y nx ny,
    x ≠ y ∧ nodes s !! x = Some nx ∧ nodes s !! y = Some ny
    ∧ label_of nx = InviteKey ∧ label_of ny = InviteKey
    ∧ is_Some (props nx !! "key") ∧ props nx !! "key" = props ny !! "key".

(** The body carries no key outside the update schema of the todo routes. *)
Definition todo_keys : list string :=
  ["title"; "description"; "is_completed"; "due_date"; "priority"; "category_id"].

Definition only_todo_keys (b : gmap string value) : bool :=
  forallb (λ kv, existsb (String.eqb kv.1) todo_keys) (map_to_list b).

(** Node [y] is a category carrying the identifier [id]. *)
Definition category_with_id (s : store) (y : nat) (id : value) : Prop :=
  ∃ ny, nodes s !! y = Some ny ∧ label_of ny = Category ∧ props ny !! "id" = Some id.

(** The BELONGS_TO links of node [x] lead to nodes whose [id] is the
    [tenant_id] stored on [x]: the stored tenant agrees with the owning
    relationship. *)
Definition belongs_consistent (s : store) (x : nat) : Prop :=
  Forall (λ r, rtype r = BELONGS_TO ∧ rsrc r = x →
               from_option (λ nt, props nt !! "id") None (nodes s !! rdst r)
               = from_option (λ nd, props nd !! "tenant_id") None (nodes s !! x))
         (rels s).

(** No todo other than [x] carries the identifier [id]. *)
Definition sole_bearer (s : store) (x : nat) (id : string) : Prop :=
  map_Forall (λ y ny, label_of ny = Todo → props ny !! "id" = Some (VStr id) → y = x)
             (nodes s).

(** The property map of the [CREATE (u:User {...})] clause of the user
    creation query, for the [id] value [tid] of the matched tenant. *)
Definition new_user (clk : clock) (b : gmap string value) (hashed : string)
    (tid : value) (uid : string) : gmap string value :=
  list_to_map [("id", VStr uid); ("tenant_id", tid);
               ("username", VStr (before_at (as_string (field b "email"))));
               ("email", field b "email");
               ("full_name", field b "fullName");
               ("password", VStr hashed);
               ("role", field b "role");
               ("created_at", VNum (epochMillis clk))].

(** Every relationship joins two nodes of the store. *)
Definition graph_closed (s : store) : Prop :=
  Forall (λ r, is_Some (nodes s !! rsrc r) ∧ is_Some (nodes s !! rdst r)) (rels s).

(** Some active tenant has [v] as its name or as its slug. *)
Definition active_tenant_named (s : store) (v : value) : Prop :=
  ∃ x nd, nodes s !! x = Some nd ∧ label_of nd = Tenant
          ∧ (props nd !! "name" = Some v ∨ props nd !! "slug" = Some v)
          ∧ props nd !! "isActive" = Some (VBool true).

(** Some user node carries the e-mail [v]. *)
Definition email_taken (s : store) (v : value) : Prop :=
  ∃ x nd, nodes s !! x = Some nd ∧ label_of nd = User ∧ props nd !! "email" = Some v.

(** Some tenant node carries the identifier [id]. *)
Definition tenant_exists (s : store) (id : string) : Prop :=
  ∃ x nd, nodes s !! x = Some nd ∧ label_of nd = Tenant ∧ props nd !! "id" = Some (VStr id).

(** The string has no space in it. *)
Definition no_space (tok : string) : bool :=
  forallb (λ c, negb (Ascii.eqb c " "%char)) (String.list_ascii_of_string tok).

(** ** A concrete deployment, used to exercise the statements *)

Module Demo.

Definition tokens : list (string * claims) := [
  ("alice", Claims "uuid-1" "uuid-0" "admin");
  ("bob", Claims "uuid-3" "uuid-2" "admin");
  ("carol", Claims "uuid-4" "uuid-0" "member");
  ("forged", Claims "uuid-3" "uuid-0" "member")
].

Definition world : World := {|
  jwt_verify tok := snd <$> List.find (λ e, String.eqb e.1 tok) tokens;
  jwt_sign c := userId c +:+ "." +:+ tenantId c +:+ "." +:+ role c;
  zod_email e := negb (String.eqb (before_at e) e);
  hashPassword pw := "bcrypt:" +:+ pw;
  comparePassword pw h := String.eqb ("bcrypt:" +:+ pw) h;
  randomUUID n := "uuid-" +:+ pretty n
|}.

Definition clk : clock := Clock "2026-01-01T00:00:00.000Z" 1767225600000.

Definition later : clock := Clock "2026-01-02T00:00:00.000Z" 1767312000000.

Definition obj (l : list (string * value)) : gmap string value := list_to_map l.

Definition bearer (tok : string) : option string := Some ("Bearer " +:+ tok).

Definition seeded : store := Seed.seed empty_store.

Definition acme_request : request :=
  Request None ""
    (obj [("name", VStr "Acme"); ("slug", VStr "acme"); ("email", VStr "a@acme.com");
          ("fullName", VStr "A"); ("password", VStr "password123");
          ("inviteKey", VStr "chronos-beta")]).

Definition beta_request : request :=
  Request None ""
    (obj [("name", VStr "Beta"); ("slug", VStr "beta"); ("email", VStr "b@beta.com");
          ("fullName", VStr "B"); ("password", VStr "password123");
          ("inviteKey", VStr "test-key-1")]).

Definition carol_request : request :=
  Request (bearer "alice") ""
    (obj [("email", VStr "carol@acme.com"); ("fullName", VStr "Carol");
          ("password", VStr "password123"); ("role", VStr "member")]).

(** Seeded database, then tenants Acme (admin alice, uuid-1 in uuid-0) and
    Beta (admin bob, uuid-3 in uuid-2), then member carol (uuid-4) in Acme. *)
Definition with_acme : store := (TenantRoutes.create world clk acme_request seeded).2.

Definition with_beta : store := (TenantRoutes.create world clk beta_request with_acme).2.

Definition base : store := (UserRoutes.create world clk carol_request with_beta).2.

Definition todo_request (tok title : string) (extra : list (string * value)) : request :=
  Request (bearer tok) ""
    (obj ([("title", VStr title); ("is_completed", VBool false); ("priority", VStr "low")]
          ++ extra)).

Definition category_request (tok name : string) : request :=
  Request (bearer tok) "" (obj [("name", VStr name); ("color", VStr "#3B82F6")]).

(** Alice's category (uuid-5), then one todo each of alice (uuid-6), bob
    (uuid-7, in tenant Beta) and carol (uuid-8), all naming that category. *)
Definition with_category : store :=
  (CategoryRoutes.create world clk (category_request "alice" "Work") base).2.

Definition with_todos : store :=
  let s1 := (TodoRoutes.create world clk
               (todo_request "alice" "a1" [("category_id", VStr "uuid-5")]) with_category).2 in
  let s2 := (TodoRoutes.create world clk
               (todo_request "bob" "b1" [("category_id", VStr "uuid-5")]) s1).2 in
  (TodoRoutes.create world clk
     (todo_request "carol" "c1" [("category_id", VStr "uuid-5")]) s2).2.

(** Bob's todo, node 11, as stored by [with_todos]. *)
Definition bobs_todo : node :=
  Node Todo (obj [("id", VStr "uuid-7"); ("title", VStr "b1");
                  ("is_completed", VBool false); ("priority", VStr "low");
                  ("created_at", VStr "2026-01-01T00:00:00.000Z");
                  ("updated_at", VStr "2026-01-01T00:00:00.000Z");
                  ("user_id", VStr "uuid-3"); ("tenant_id", VStr "uuid-2");
                  ("category_id", VStr "uuid-5")]).

(** Bob's own todo (uuid-6, node 10) next to alice's category of tenant Acme
    (uuid-5, node 9). *)
Definition with_plain : store :=
  (TodoRoutes.create world clk (todo_request "bob" "plain" []) with_category).2.

Definition bob : claims := Claims "uuid-3" "uuid-2" "admin".

Definition alices_category : node :=
  Node Category (obj [("id", VStr "uuid-5"); ("name", VStr "Work");
                      ("color", VStr "#3B82F6");
                      ("created_at", VStr "2026-01-01T00:00:00.000Z");
                      ("user_id", VStr "uuid-1"); ("tenant_id", VStr "uuid-0")]).

(** A second attempt at the invite key that Acme consumed, and an attempt with
    an unknown key that also repeats Acme's slug. *)
Definition reuse_request : request :=
  Request None ""
    (obj [("name", VStr "Gamma"); ("slug", VStr "gamma"); ("email", VStr "g@gamma.com");
          ("fullName", VStr "G"); ("password", VStr "password123");
          ("inviteKey", VStr "chronos-beta")]).

Definition taken_slug_request : request :=
  Request None ""
    (obj [("name", VStr "Acme again"); ("slug", VStr "acme"); ("email", VStr "z@zeta.com");
          ("fullName", VStr "Z"); ("password", VStr "password123");
          ("inviteKey", VStr "invalid-key")]).

(** Alice's update of her own open todo (uuid-6, node 10) whose body carries
    a [completed_at] of its own and no [is_completed]. *)
Definition stamp_request : request :=
  Request (bearer "alice") "uuid-6"
    (obj [("completed_at", VStr "2020-02-02T00:00:00.000Z")]).

(** Alice rewrites the [id] of her own todo (uuid-6, node 10) to the [id] of
    bob's todo of tenant Beta (uuid-7, node 11). *)
Definition after_id_rewrite : store :=
  (TodoRoutes.update world later
     (Request (bearer "alice") "uuid-6" (obj [("id", VStr "uuid-7")])) with_todos).2.

(** Alice's update of her own todo (uuid-6, node 10, linked to category
    node 9) whose body names a category that does not exist and also carries
    an [id]. *)
Definition relink_request : request :=
  Request (bearer "alice") "uuid-6"
    (obj [("category_id", VStr "uuid-404"); ("id", VStr "zzz")]).

(** A database in which two invite key nodes carry the same, used, key. *)
Definition duplicated : store :=
  Store (list_to_map
           [(0, Node InviteKey (obj [("key", VStr "chronos-beta"); ("isUsed", VBool true)]));
            (1, Node InviteKey (obj [("key", VStr "chronos-beta"); ("isUsed", VBool true)]))])
        [] 0.

End Demo.

(** ** Sentences of the specification that the handlers do not satisfy as worded *)

(** Every authenticated create request of a non-member is answered 403. The
    membership check is reached only after the body passed the schema: an
    authenticated non-member whose body is rejected by [validate] gets the 400
    of the validation middleware instead. *)
Definition membership_gate_for_every_request : Prop :=
  ∀ W clk req s c,
    requireAuth W req = inr c →
    ¬ member s (tenantId c) (userId c) →
    status (TodoRoutes.create W clk req s).1 = 403.

(** Whenever the invite key of the request names no unused key, the answer is
    400 with the invite-key message. The duplicate check comes first and
    answers with its own message. *)
Definition bad_key_always_reported : Prop :=
  ∀ W clk req s,
    ¬ unused_key s (field (body req) "inviteKey") →
    (TenantRoutes.create W clk req s).1
      = Response 400 (Message false "Invalid or already used invite key").

(** Whenever the caller's token names another tenant than the one stored on
    the todo with the requested identifier, the PUT answers 404. A body that
    the schema rejects is answered 400 by the validation middleware before the
    todo is looked up. *)
Definition foreign_update_always_not_found : Prop :=
  ∀ W clk req s c x nd T2,
    requireAuth W req = inr c →
    nodes s !! x = Some nd → label_of nd = Todo →
    props nd !! "id" = Some (VStr (param_id req)) →
    props nd !! "tenant_id" = Some (VStr T2) → T2 ≠ tenantId c →
    status (TodoRoutes.update W clk req s).1 = 404.

(** * Properties *)

(** ** The Cypher fragments *)

Section CypherFacts.

Implicit Types (s : store) (p m : gmap string value) (x : nat).

Lemma lookup_plus_eq p m k :
  Cypher.plus_eq p m !! k =
    match m !! k with
    | Some VNull => None
    | Some v => Some v
    | None => p !! k
    end.
Proof.
  unfold Cypher.plus_eq. rewrite lookup_merge.
  destruct (p !! k), (m !! k) as [[]|]; reflexivity.
Qed.

Lemma plus_eq_idemp p m : Cypher.plus_eq (Cypher.plus_eq p m) m = Cypher.plus_eq p m.
Proof.
  apply map_eq. intros k. rewrite !lookup_plus_eq.
  destruct (m !! k) as [[]|]; reflexivity.
Qed.

Lemma plus_eq_clear p k : Cypher.plus_eq p {[k := VNull]} = delete k p.
Proof.
  apply map_eq. intros j. rewrite lookup_plus_eq.
  destruct (decide (k = j)) as [->|Hne].
  - by rewrite lookup_singleton_eq, lookup_delete_eq.
  - by rewrite lookup_singleton_ne, lookup_delete_ne.
Qed.

Lemma elem_of_match_nodes l kvs s x :
  x ∈ Cypher.match_nodes l kvs s ↔
  ∃ nd, nodes s !! x = Some nd ∧ Cypher.node_is l kvs nd = true.
Proof.
  unfold Cypher.match_nodes. rewrite list_elem_of_In, filter_In, <- list_elem_of_In.
  split.
  - intros [_ H]. destruct (nodes s !! x) as [nd|]; [eauto | discriminate].
  - intros (nd & Hx & H). split.
    + apply list_elem_of_fmap. exists (x, nd). split; [done|].
      by apply elem_of_map_to_list.
    + by rewrite Hx.
Qed.

Lemma NoDup_match_nodes l kvs s : NoDup (Cypher.match_nodes l kvs s).
Proof.
  unfold Cypher.match_nodes. apply NoDup_ListNoDup, List.NoDup_filter, NoDup_ListNoDup.
  apply NoDup_fst_map_to_list.
Qed.

Lemma elem_of_hop ty pa pb s a b :
  (a, b) ∈ Cypher.hop ty pa pb s ↔
  ∃ na nb, Rel ty a b ∈ rels s ∧ nodes s !! a = Some na ∧ nodes s !! b = Some nb
           ∧ pa na = true ∧ pb nb = true.
Proof.
  unfold Cypher.hop. rewrite list_elem_of_omap. split.
  - intros ([ty' a' b'] & Hin & H). simpl in H.
    case_bool_decide as Hty; [|discriminate]. subst ty'.
    destruct (nodes s !! a') as [na|] eqn:Ha; [|discriminate]. simpl in H.
    destruct (nodes s !! b') as [nb|] eqn:Hb; [|discriminate]. simpl in H.
    destruct (pa na) eqn:Hpa, (pb nb) eqn:Hpb; simplify_eq/=.
    exists na, nb. done.
  - intros (na & nb & Hin & Ha & Hb & Hpa & Hpb).
    exists (Rel ty a b). split; [done|]. simpl.
    rewrite bool_decide_true by done. rewrite Ha, Hb. simpl. by rewrite Hpa, Hpb.
Qed.

Lemma elem_of_owned px T U s x :
  x ∈ Cypher.owned px T U s ↔
  ∃ t u nx nt nu,
    nodes s !! x = Some nx ∧ px nx = true
    ∧ Rel BELONGS_TO x t ∈ rels s ∧ nodes s !! t = Some nt
    ∧ Cypher.node_is Tenant [("id", VStr T)] nt = true
    ∧ Rel CREATED_BY x u ∈ rels s ∧ nodes s !! u = Some nu
    ∧ Cypher.node_is User [("id", VStr U)] nu = true.
Proof.
  unfold Cypher.owned. rewrite list_elem_of_In, in_flat_map. split.
  - intros ([x1 t] & H1 & H2).
    apply list_elem_of_In, elem_of_hop in H1 as (nx & nt & Hr1 & Hx & Ht & Hpx & Hpt).
    apply in_map_iff in H2 as ([x2 u] & Heq & H2). simpl in Heq. subst x2.
    apply filter_In in H2 as [H2 Hsame]. simpl in Hsame.
    apply Nat.eqb_eq in Hsame. subst x1.
    apply list_elem_of_In, elem_of_hop in H2 as (nx' & nu & Hr2 & Hx' & Hu & _ & Hpu).
    exists t, u, nx, nt, nu. done.
  - intros (t & u & nx & nt & nu & Hx & Hpx & Hr1 & Ht & Hpt & Hr2 & Hu & Hpu).
    exists (x, t). split.
    + apply list_elem_of_In, elem_of_hop. exists nx, nt. done.
    + apply in_map_iff. exists (x, u). split; [done|].
      apply filter_In. split; [|by apply Nat.eqb_eq].
      apply list_elem_of_In, elem_of_hop. exists nx, nu. done.
Qed.

Lemma elem_of_in_tenant px T s x :
  x ∈ Cypher.in_tenant px T s ↔
  ∃ t nx nt,
    nodes s !! x = Some nx ∧ px nx = true
    ∧ Rel BELONGS_TO x t ∈ rels s ∧ nodes s !! t = Some nt
    ∧ Cypher.node_is Tenant [("id", VStr T)] nt = true.
Proof.
  unfold Cypher.in_tenant. rewrite list_elem_of_fmap. split.
  - intros ([x' t] & -> & H). apply elem_of_hop in H as (nx & nt & ? & ? & ? & ? & ?).
    exists t, nx, nt. done.
  - intros (t & nx & nt & ? & ? & ? & ? & ?). exists (x, t). split; [done|].
    apply elem_of_hop. exists nx, nt. done.
Qed.

Lemma node_is_label l kvs nd : Cypher.node_is l kvs nd = true → label_of nd = l.
Proof.
  unfold Cypher.node_is. intros H. apply andb_true_iff in H as [H _].
  by apply bool_decide_eq_true in H.
Qed.

Lemma node_is_prop l k v nd :
  Cypher.node_is l [(k, v)] nd = true ↔ label_of nd = l ∧ props nd !! k = Some v.
Proof.
  unfold Cypher.node_is. simpl. rewrite !andb_true_iff, !bool_decide_eq_true. tauto.
Qed.

End CypherFacts.

Section StoreFacts.

Implicit Types (s : store) (p m : gmap string value) (x : nat).

Lemma lookup_set_props_notin xs f s x :
  x ∉ xs → nodes (Cypher.set_props xs f s) !! x = nodes s !! x.
Proof.
  unfold Cypher.set_props. simpl. induction xs as [|a xs IH]; intros Hx; [done|].
  apply not_elem_of_cons in Hx as [Hne Hx]. simpl.
  rewrite lookup_alter_ne by done. by apply IH.
Qed.

Lemma lookup_set_props_in xs f s x :
  (∀ p, f (f p) = f p) → x ∈ xs →
  nodes (Cypher.set_props xs f s) !! x
    = (λ nd, Node (label_of nd) (f (props nd))) <$> nodes s !! x.
Proof.
  intros Hf. unfold Cypher.set_props. simpl. induction xs as [|a xs IH]; intros Hx.
  { by apply elem_of_nil in Hx. }
  simpl. destruct (decide (a = x)) as [->|Hne].
  - rewrite lookup_alter_eq. destruct (decide (x ∈ xs)) as [Hin|Hout].
    + rewrite IH by done. destruct (nodes s !! x) as [nd|]; simpl; [|done].
      by rewrite Hf.
    + pose proof (lookup_set_props_notin xs f s x Hout) as Hsame.
      unfold Cypher.set_props in Hsame. simpl in Hsame. by rewrite Hsame.
  - rewrite lookup_alter_ne by done. apply IH.
    apply elem_of_cons in Hx as [->|Hx]; done.
Qed.

Lemma detach_delete_nil s : Cypher.detach_delete [] s = s.
Proof.
  unfold Cypher.detach_delete. destruct s as [ns rs d]. simpl. f_equal.
  induction rs as [|r rs IH]; [done|]. cbn [List.filter]. by rewrite IH.
Qed.

Lemma lookup_detach_delete_notin xs s x :
  x ∉ xs → nodes (Cypher.detach_delete xs s) !! x = nodes s !! x.
Proof. intros Hx. simpl. by apply lookup_foldr_delete_not_elem_of. Qed.

Lemma membership_nil s T U : Cypher.membership T U s = [] ↔ ¬ member s T U.
Proof.
  unfold Cypher.membership, member. split.
  - intros Hnil (t & u & nt & nu & Hr & Ht & Hu & Hpt & Hpu).
    assert ((t, u) ∈ Cypher.hop HAS_USER (Cypher.node_is Tenant [("id", VStr T)])
                       (Cypher.node_is User [("id", VStr U)]) s) as Hin.
    { apply elem_of_hop. exists nt, nu. done. }
    rewrite Hnil in Hin. by apply elem_of_nil in Hin.
  - intros Hno. destruct (Cypher.hop _ _ _ s) as [|[t u] l] eqn:Hh; [done|].
    exfalso. apply Hno.
    assert ((t, u) ∈ Cypher.hop HAS_USER (Cypher.node_is Tenant [("id", VStr T)])
                       (Cypher.node_is User [("id", VStr U)]) s) as Hin.
    { rewrite Hh. apply elem_of_cons. by left. }
    apply elem_of_hop in Hin as (nt & nu & ? & ? & ? & ? & ?).
    exists t, u, nt, nu. done.
Qed.

End StoreFacts.

(** ** Middleware *)

Lemma requireAuth_rejects W req r : requireAuth W req = inl r → status r = 401.
Proof.
  unfold requireAuth. intros H.
  destruct (authorization req) as [h|]; [|by simplify_eq].
  destruct (negb (String.prefix "Bearer " h)); [by simplify_eq|].
  destruct (jwt_verify W (bearer_token h)); by simplify_eq.
Qed.

Lemma requireAdmin_member c :
  role c = "member" →
  requireAdmin c = inl (Response 403 (Message false "Forbidden: Admin access required")).
Proof. intros Hrole. unfold requireAdmin. by rewrite Hrole. Qed.

(** C7. A request that carries a valid token whose role claim is ["member"] is
    answered 403 (hence never 200) by DELETE /api/todos/:id and by
    POST /api/user/create, whatever the store, the targeted todo and the body;
    the store is left as it was. *)
Theorem member_role_is_forbidden W clk req s c :
  requireAuth W req = inr c →
  role c = "member" →
  (status (TodoRoutes.remove W req s).1 = 403
   ∧ status (TodoRoutes.remove W req s).1 ≠ 200
   ∧ (TodoRoutes.remove W req s).2 = s)
  ∧ (status (UserRoutes.create W clk req s).1 = 403
     ∧ status (UserRoutes.create W clk req s).1 ≠ 200
     ∧ (UserRoutes.create W clk req s).2 = s).
Proof.
  intros Hauth Hrole.
  unfold TodoRoutes.remove, UserRoutes.create.
  rewrite Hauth. cbn [and_then].
  rewrite (requireAdmin_member c Hrole). cbn [and_then serve fst snd status].
  repeat split; (reflexivity || discriminate).
Qed.

Lemma member_role_is_forbidden_witness :
  requireAuth Demo.world (Request (Demo.bearer "carol") "uuid-8" ∅)
    = inr (Claims "uuid-4" "uuid-0" "member")
  ∧ status (TodoRoutes.remove Demo.world
              (Request (Demo.bearer "carol") "uuid-8" ∅) Demo.with_todos).1 = 403
  ∧ status (UserRoutes.create Demo.world Demo.clk
              (Request (Demo.bearer "carol") "uuid-8" ∅) Demo.with_todos).1 = 403.
Proof.
  assert (requireAuth Demo.world (Request (Demo.bearer "carol") "uuid-8" ∅)
          = inr (Claims "uuid-4" "uuid-0" "member")) as Hauth by reflexivity.
  split; [exact Hauth|].
  pose proof (member_role_is_forbidden Demo.world Demo.clk
                (Request (Demo.bearer "carol") "uuid-8" ∅) Demo.with_todos
                (Claims "uuid-4" "uuid-0" "member") Hauth eq_refl) as [(H1 & _) (H2 & _)].
  split; assumption.
Defined.

(** ** Membership check of the create routes *)

Lemma membership_gate_for_every_request_fails : ¬ membership_gate_for_every_request.
Proof.
  intros H.
  specialize (H Demo.world Demo.clk (Request (Demo.bearer "forged") "" ∅) Demo.base
                (Claims "uuid-3" "uuid-0" "member") eq_refl).
  assert (status (TodoRoutes.create Demo.world Demo.clk
                    (Request (Demo.bearer "forged") "" ∅) Demo.base).1 = 400) as H400
    by (vm_compute; reflexivity).
  rewrite H400 in H. 
  assert (400 = 403 → False) as Hne by discriminate. apply Hne, H.
  apply membership_nil. vm_compute. reflexivity.
Qed.

(** C2 (amended). For every authenticated todo-create or category-create
    request whose body passes the route's schema, if no HAS_USER link joins a
    tenant node carrying the token's tenantId to a user node carrying the
    token's userId, the answer is 403 with message "User does not belong to
    this tenant" and the store is unchanged: nothing is created. *)
Theorem create_requires_membership W clk req s c :
  requireAuth W req = inr c →
  ¬ member s (tenantId c) (userId c) →
  (TodoRoutes.createTodoSchema (body req) = true →
   TodoRoutes.create W clk req s
     = (Response 403 (Message false "User does not belong to this tenant"), s))
  ∧ (CategoryRoutes.createCategorySchema (body req) = true →
     CategoryRoutes.create W clk req s
       = (Response 403 (Message false "User does not belong to this tenant"), s)).
Proof.
  intros Hauth Hno. apply membership_nil in Hno.
  split; intros Hschema.
  - unfold TodoRoutes.create, validate. rewrite Hauth, Hschema. cbn [and_then serve].
    unfold TodoRoutes.create_handler. rewrite Hno. reflexivity.
  - unfold CategoryRoutes.create, validate. rewrite Hauth, Hschema. cbn [and_then serve].
    unfold CategoryRoutes.create_handler. rewrite Hno. reflexivity.
Qed.

Lemma create_requires_membership_witness :
  requireAuth Demo.world (Demo.todo_request "forged" "Cross tenant" [])
    = inr (Claims "uuid-3" "uuid-0" "member")
  ∧ ¬ member Demo.base "uuid-0" "uuid-3"
  ∧ TodoRoutes.create Demo.world Demo.clk
      (Demo.todo_request "forged" "Cross tenant" []) Demo.base
    = (Response 403 (Message false "User does not belong to this tenant"), Demo.base).
Proof.
  assert (¬ member Demo.base "uuid-0" "uuid-3") as Hno.
  { apply membership_nil. vm_compute. reflexivity. }
  split; [reflexivity|]. split; [exact Hno|].
  apply (create_requires_membership Demo.world Demo.clk
           (Demo.todo_request "forged" "Cross tenant" []) Demo.base
           (Claims "uuid-3" "uuid-0" "member") eq_refl Hno).
  vm_compute. reflexivity.
Defined.

(** ** Category deletion *)

Section CategoryDelete.

Implicit Types (s : store) (x : nat).

(** The sweep clears every todo that names the category, whoever owns it. *)
Lemma clear_references_hit id s x nd :
  nodes s !! x = Some nd → label_of nd = Todo →
  props nd !! "category_id" = Some (VStr id) →
  cleared (CategoryRoutes.clear_references id s) x nd.
Proof.
  intros Hx Hl Hc. unfold cleared, CategoryRoutes.clear_references.
  rewrite lookup_set_props_in.
  - rewrite Hx. simpl. by rewrite Hl, plus_eq_clear.
  - intros p. apply plus_eq_idemp.
  - apply elem_of_match_nodes. exists nd. split; [done|]. by apply node_is_prop.
Qed.

(** Nodes that are not todos naming the category are left alone. *)
Lemma clear_references_miss id s x :
  (∀ nd, nodes s !! x = Some nd →
         ¬ (label_of nd = Todo ∧ props nd !! "category_id" = Some (VStr id))) →
  nodes (CategoryRoutes.clear_references id s) !! x = nodes s !! x.
Proof.
  intros Hmiss. unfold CategoryRoutes.clear_references.
  apply lookup_set_props_notin. intros Hin.
  apply elem_of_match_nodes in Hin as (nd & Hx & Hp).
  apply (Hmiss nd Hx). by apply node_is_prop.
Qed.

(** After the sweep no todo names the category any more. *)
Lemma clear_references_none id s x : ¬ references (CategoryRoutes.clear_references id s) x id.
Proof.
  intros (nd' & Hx' & Hl' & Hc').
  destruct (nodes s !! x) as [nd|] eqn:Hx.
  - destruct (decide (label_of nd = Todo ∧ props nd !! "category_id" = Some (VStr id)))
      as [[Hl Hc]|Hno].
    + pose proof (clear_references_hit id s x nd Hx Hl Hc) as Hcl.
      unfold cleared in Hcl. rewrite Hcl in Hx'. simplify_eq. simpl in Hc'.
      by rewrite lookup_delete_eq in Hc'.
    + rewrite clear_references_miss in Hx'.
      * rewrite Hx in Hx'. simplify_eq. by apply Hno.
      * intros nd0 Hnd0. by simplify_eq.
  - rewrite clear_references_miss in Hx'; [congruence|].
    intros nd0 Hnd0. congruence.
Qed.

(** The scoped delete only ever matches category nodes, so todos survive it. *)
Lemma category_rows_not_todo id T U s x nd :
  nodes s !! x = Some nd → label_of nd = Todo →
  x ∉ Cypher.owned (Cypher.node_is Category [("id", VStr id)]) T U s.
Proof.
  intros Hx Hl Hin. apply elem_of_owned in Hin as (t & u & nx & nt & nu & Hx' & Hp & _).
  apply node_is_label in Hp. simplify_eq. congruence.
Qed.

(** What the DELETE handler leaves of a todo that named the category. *)
Lemma delete_handler_clears req c s x nd :
  nodes s !! x = Some nd → label_of nd = Todo →
  props nd !! "category_id" = Some (VStr (param_id req)) →
  cleared (CategoryRoutes.remove_handler req c s).2 x nd.
Proof.
  intros Hx Hl Hc.
  pose proof (clear_references_hit (param_id req) s x nd Hx Hl Hc) as Hcl.
  unfold cleared in *. unfold CategoryRoutes.remove_handler.
  set (s1 := CategoryRoutes.clear_references (param_id req) s) in *.
  set (rows := Cypher.owned _ _ _ s1).
  assert (x ∉ rows) as Hout.
  { eapply category_rows_not_todo; [exact Hcl|done]. }
  destruct (Nat.eqb (length rows) 0); cbn [snd];
    by rewrite lookup_detach_delete_notin.
Qed.

(** A category delete that matches nothing leaves exactly the swept store. *)
Lemma delete_handler_not_found req c s :
  status (CategoryRoutes.remove_handler req c s).1 = 404 →
  (CategoryRoutes.remove_handler req c s).2
    = CategoryRoutes.clear_references (param_id req) s.
Proof.
  unfold CategoryRoutes.remove_handler.
  set (s1 := CategoryRoutes.clear_references (param_id req) s).
  destruct (Cypher.owned _ _ _ s1) as [|y ys]; simpl; [|discriminate].
  intros _. apply detach_delete_nil.
Qed.

Lemma delete_handler_no_reference req c s x :
  ¬ references (CategoryRoutes.remove_handler req c s).2 x (param_id req).
Proof.
  intros (nd & Hx & Hl & Hc).
  apply (clear_references_none (param_id req) s x).
  exists nd. split; [|done].
  unfold CategoryRoutes.remove_handler in Hx.
  set (s1 := CategoryRoutes.clear_references (param_id req) s) in *.
  set (rows := Cypher.owned _ _ _ s1) in *.
  assert (nodes (Cypher.detach_delete rows s1) !! x = Some nd) as Hx'.
  { destruct (Nat.eqb (length rows) 0); exact Hx. }
  simpl in Hx'. apply lookup_foldr_delete_Some in Hx'. tauto.
Qed.

(** C5. After a successful category delete, every todo whose [category_id] was
    the deleted identifier before the call, in whatever tenant and whoever
    owns it, is still there with its other properties intact and with
    [category_id] null; no todo names the deleted identifier any more. The
    sweep matches by [category_id] alone. *)
Theorem category_delete_cascade W req s :
  status (CategoryRoutes.remove W req s).1 = 200 →
  (∀ x nd, nodes s !! x = Some nd → label_of nd = Todo →
           props nd !! "category_id" = Some (VStr (param_id req)) →
           cleared (CategoryRoutes.remove W req s).2 x nd)
  ∧ (∀ x, ¬ references (CategoryRoutes.remove W req s).2 x (param_id req)).
Proof.
  unfold CategoryRoutes.remove, serve. intros Hok.
  destruct (requireAuth W req) as [r|c] eqn:Hauth.
  { apply requireAuth_rejects in Hauth. simpl in Hok. congruence. }
  split.
  - intros x nd. apply delete_handler_clears.
  - intros x. apply delete_handler_no_reference.
Qed.

(** C9. A category delete that answers 404 has nevertheless run the sweep:
    every todo that named the requested identifier has lost its [category_id],
    so the store differs from the one before the failed request as soon as one
    todo named it. *)
Theorem category_delete_not_found_still_clears W req s :
  status (CategoryRoutes.remove W req s).1 = 404 →
  (∀ x nd, nodes s !! x = Some nd → label_of nd = Todo →
           props nd !! "category_id" = Some (VStr (param_id req)) →
           cleared (CategoryRoutes.remove W req s).2 x nd)
  ∧ ((∃ x, references s x (param_id req)) → (CategoryRoutes.remove W req s).2 ≠ s).
Proof.
  unfold CategoryRoutes.remove, serve. intros Hnf.
  destruct (requireAuth W req) as [r|c] eqn:Hauth.
  { apply requireAuth_rejects in Hauth. simpl in Hnf. congruence. }
  split.
  - intros x nd. apply delete_handler_clears.
  - intros (x & nd & Hx & Hl & Hc) Heq.
    pose proof (delete_handler_clears req c s x nd Hx Hl Hc) as Hcl.
    unfold cleared in Hcl. rewrite Heq, Hx in Hcl. simplify_eq.
    destruct nd as [l p]. simpl in *. simplify_eq.
    assert (delete "category_id" p !! "category_id" = Some (VStr (param_id req))) as Habs
      by congruence.
    by rewrite lookup_delete_eq in Habs.
Qed.

End CategoryDelete.

Lemma category_delete_cascade_witness :
  status (CategoryRoutes.remove Demo.world
            (Request (Demo.bearer "alice") "uuid-5" ∅) Demo.with_todos).1 = 200
  ∧ nodes Demo.with_todos !! 11 = Some Demo.bobs_todo
  ∧ cleared (CategoryRoutes.remove Demo.world
               (Request (Demo.bearer "alice") "uuid-5" ∅) Demo.with_todos).2
            11 Demo.bobs_todo.
Proof.
  assert (status (CategoryRoutes.remove Demo.world
            (Request (Demo.bearer "alice") "uuid-5" ∅) Demo.with_todos).1 = 200) as Hok
    by (vm_compute; reflexivity).
  assert (nodes Demo.with_todos !! 11 = Some Demo.bobs_todo) as Hx
    by (vm_compute; reflexivity).
  split; [exact Hok|]. split; [exact Hx|].
  exact (proj1 (category_delete_cascade Demo.world
                  (Request (Demo.bearer "alice") "uuid-5" ∅) Demo.with_todos Hok)
               11 Demo.bobs_todo Hx eq_refl eq_refl).
Defined.

Lemma category_delete_not_found_still_clears_witness :
  status (CategoryRoutes.remove Demo.world
            (Request (Demo.bearer "bob") "uuid-5" ∅) Demo.with_todos).1 = 404
  ∧ nodes Demo.with_todos !! 11 = Some Demo.bobs_todo
  ∧ cleared (CategoryRoutes.remove Demo.world
               (Request (Demo.bearer "bob") "uuid-5" ∅) Demo.with_todos).2
            11 Demo.bobs_todo.
Proof.
  assert (status (CategoryRoutes.remove Demo.world
            (Request (Demo.bearer "bob") "uuid-5" ∅) Demo.with_todos).1 = 404) as Hnf
    by (vm_compute; reflexivity).
  assert (nodes Demo.with_todos !! 11 = Some Demo.bobs_todo) as Hx
    by (vm_compute; reflexivity).
  split; [exact Hnf|]. split; [exact Hx|].
  exact (proj1 (category_delete_not_found_still_clears Demo.world
                  (Request (Demo.bearer "bob") "uuid-5" ∅) Demo.with_todos Hnf)
               11 Demo.bobs_todo Hx eq_refl eq_refl).
Defined.

(** ** Category links of todos *)

Lemma membership_member s T U : Cypher.membership T U s ≠ [] → member s T U.
Proof.
  unfold Cypher.membership, member. intros Hne.
  destruct (Cypher.hop _ _ _ s) as [|[t u] l] eqn:Hh; [done|].
  assert ((t, u) ∈ Cypher.hop HAS_USER (Cypher.node_is Tenant [("id", VStr T)])
                     (Cypher.node_is User [("id", VStr U)]) s) as Hin.
  { rewrite Hh. apply elem_of_cons. by left. }
  apply elem_of_hop in Hin as (nt & nu & ? & ? & ? & ? & ?).
  exists t, u, nt, nu. done.
Qed.

(** C10. The category-link queries match the category by [id] alone. In the
    store [Demo.with_plain], bob is a member of tenant uuid-2 while the
    category uuid-5 belongs to tenant uuid-0; his todo-create request naming
    that category answers 201, and his todo-update request answers 200; both
    leave a todo of tenant uuid-2 whose [category_id] is the foreign category
    and a HAS_CATEGORY link from that todo to the foreign category node. *)
Theorem cross_tenant_category_link :
  ∃ (s : store) (c : claims) (create_req update_req : request) (cat : nat) (cn : node),
    requireAuth Demo.world create_req = inr c
    ∧ requireAuth Demo.world update_req = inr c
    ∧ member s (tenantId c) (userId c)
    ∧ nodes s !! cat = Some cn ∧ label_of cn = Category
    ∧ props cn !! "id" = Some (VStr "uuid-5")
    ∧ props cn !! "tenant_id" = Some (VStr "uuid-0")
    ∧ (∃ t nt, Rel BELONGS_TO cat t ∈ rels s ∧ nodes s !! t = Some nt
               ∧ label_of nt = Tenant ∧ props nt !! "id" = Some (VStr "uuid-0"))
    ∧ tenantId c ≠ "uuid-0"
    ∧ (let r := TodoRoutes.create Demo.world Demo.later create_req s in
       status r.1 = 201
       ∧ ∃ x nd, nodes s !! x = None ∧ nodes r.2 !! x = Some nd ∧ label_of nd = Todo
                 ∧ sent r.1 = TodoBody (props nd)
                 ∧ props nd !! "tenant_id" = Some (VStr (tenantId c))
                 ∧ props nd !! "category_id" = Some (VStr "uuid-5")
                 ∧ Rel HAS_CATEGORY x cat ∈ rels r.2)
    ∧ (let r := TodoRoutes.update Demo.world Demo.later update_req s in
       status r.1 = 200
       ∧ ∃ x nd, nodes r.2 !! x = Some nd ∧ label_of nd = Todo
                 ∧ sent r.1 = TodoBody (props nd)
                 ∧ props nd !! "tenant_id" = Some (VStr (tenantId c))
                 ∧ props nd !! "category_id" = Some (VStr "uuid-5")
                 ∧ (Rel HAS_CATEGORY x cat ∉ rels s)
                 ∧ Rel HAS_CATEGORY x cat ∈ rels r.2).
Proof.
  exists Demo.with_plain, Demo.bob,
    (Demo.todo_request "bob" "b2" [("category_id", VStr "uuid-5")]),
    (Request (Demo.bearer "bob") "uuid-6" (Demo.obj [("category_id", VStr "uuid-5")])),
    9, Demo.alices_category.
  split; [reflexivity|]. split; [reflexivity|].
  split. { apply membership_member. vm_compute. discriminate. }
  split; [vm_compute; reflexivity|]. split; [reflexivity|].
  split; [reflexivity|]. split; [reflexivity|].
  split.
  { exists 4, (Node Tenant (Demo.obj [("id", VStr "uuid-0"); ("name", VStr "Acme");
                                      ("slug", VStr "acme"); ("isActive", VBool true)])).
    split; [apply (bool_decide_unpack _); vm_compute; exact I|].
    split; [vm_compute; reflexivity|]. split; reflexivity. }
  split; [discriminate|].
  split.
  - split; [vm_compute; reflexivity|].
    exists 11, (Node Todo (Demo.obj [
      ("id", VStr "uuid-7"); ("title", VStr "b2"); ("is_completed", VBool false);
      ("priority", VStr "low"); ("created_at", VStr "2026-01-02T00:00:00.000Z");
      ("updated_at", VStr "2026-01-02T00:00:00.000Z"); ("user_id", VStr "uuid-3");
      ("tenant_id", VStr "uuid-2"); ("category_id", VStr "uuid-5")])).
    split; [vm_compute; reflexivity|]. split; [vm_compute; reflexivity|].
    split; [reflexivity|]. split; [vm_compute; reflexivity|].
    split; [reflexivity|]. split; [reflexivity|].
    apply (bool_decide_unpack _). vm_compute. exact I.
  - split; [vm_compute; reflexivity|].
    exists 10, (Node Todo (Demo.obj [
      ("id", VStr "uuid-6"); ("title", VStr "plain"); ("is_completed", VBool false);
      ("priority", VStr "low"); ("created_at", VStr "2026-01-01T00:00:00.000Z");
      ("updated_at", VStr "2026-01-02T00:00:00.000Z"); ("user_id", VStr "uuid-3");
      ("tenant_id", VStr "uuid-2"); ("category_id", VStr "uuid-5")])).
    split; [vm_compute; reflexivity|]. split; [reflexivity|].
    split; [vm_compute; reflexivity|].
    split; [reflexivity|]. split; [reflexivity|].
    split.
    + apply (bool_decide_unpack _). vm_compute. exact I.
    + apply (bool_decide_unpack _). vm_compute. exact I.
Qed.

(** ** Which nodes a query can touch *)

Section Frames.

Implicit Types (s : store) (x : nat) (P : node → Prop).

Lemma untouched_refl P s : untouched P s s.
Proof. by intros x nd Hx _. Qed.

Lemma untouched_trans P s1 s2 s3 :
  untouched P s1 s2 → untouched P s2 s3 → untouched P s1 s3.
Proof. intros H12 H23 x nd Hx HP. eapply H23; [|done]. by eapply H12. Qed.

Lemma untouched_same_nodes P s s' : nodes s' = nodes s → untouched P s s'.
Proof. intros Heq x nd Hx _. by rewrite Heq. Qed.

Lemma new_node_fresh s : nodes s !! Cypher.new_node s = None.
Proof. apply not_elem_of_dom. unfold Cypher.new_node. apply is_fresh. Qed.

Lemma lookup_create_node_old l p s x nd :
  nodes s !! x = Some nd → nodes (Cypher.create_node l p s).2 !! x = Some nd.
Proof.
  intros Hx. simpl. rewrite lookup_insert_ne; [done|].
  intros Heq. rewrite <- Heq, new_node_fresh in Hx. discriminate.
Qed.

Lemma lookup_create_node_new l p s :
  nodes (Cypher.create_node l p s).2 !! (Cypher.create_node l p s).1
    = Some (Node l (Cypher.plus_eq ∅ p)).
Proof. simpl. apply lookup_insert_eq. Qed.

Lemma nodes_merge_rel ty a b s : nodes (Cypher.merge_rel ty a b s) = nodes s.
Proof. unfold Cypher.merge_rel. by case_bool_decide. Qed.

Lemma nodes_link_category a b s : nodes (link_category a b s) = nodes s.
Proof.
  unfold link_category. generalize (list_prod (Cypher.match_nodes Todo [("id", a)] s)
                                              (Cypher.match_nodes Category [("id", b)] s)).
  intros rows. revert s. induction rows as [|row rows IH]; intros s; [done|].
  simpl. rewrite IH. apply nodes_merge_rel.
Qed.

Lemma create_owned_row_old W l p s row x nd :
  nodes s !! x = Some nd → nodes (create_owned_row W l p s row).2 !! x = Some nd.
Proof.
  intros Hx. unfold create_owned_row. cbn [snd Cypher.create_rel nodes].
  apply (lookup_create_node_old l _ (Store (nodes s) (rels s) (S (drawn s)))). exact Hx.
Qed.

Lemma create_owned_old W l p rows s x nd :
  nodes s !! x = Some nd → nodes (create_owned W l p rows s).2 !! x = Some nd.
Proof.
  revert s. induction rows as [|row rows IH]; intros s Hx; [done|].
  cbn [create_owned snd]. apply IH. by apply create_owned_row_old.
Qed.

Lemma set_props_untouched P xs f s :
  (∀ x nd, x ∈ xs → nodes s !! x = Some nd → ¬ P nd) →
  untouched P s (Cypher.set_props xs f s).
Proof.
  intros Hrows x nd Hx HP. rewrite lookup_set_props_notin; [done|].
  intros Hin. by apply (Hrows x nd).
Qed.

Lemma detach_delete_untouched P xs s :
  (∀ x nd, x ∈ xs → nodes s !! x = Some nd → ¬ P nd) →
  untouched P s (Cypher.detach_delete xs s).
Proof.
  intros Hrows x nd Hx HP. rewrite lookup_detach_delete_notin; [done|].
  intros Hin. by apply (Hrows x nd).
Qed.

Lemma owned_rows_label l kvs T U s x nd :
  x ∈ Cypher.owned (Cypher.node_is l kvs) T U s → nodes s !! x = Some nd → label_of nd = l.
Proof.
  intros Hin Hx. apply elem_of_owned in Hin as (t & u & nx & nt & nu & Hx' & Hp & _).
  apply node_is_label in Hp. by simplify_eq.
Qed.

Lemma in_tenant_rows_label l kvs T s x nd :
  x ∈ Cypher.in_tenant (Cypher.node_is l kvs) T s → nodes s !! x = Some nd → label_of nd = l.
Proof.
  intros Hin Hx. apply elem_of_in_tenant in Hin as (t & nx & nt & Hx' & Hp & _).
  apply node_is_label in Hp. by simplify_eq.
Qed.

Lemma match_nodes_label l kvs s x nd :
  x ∈ Cypher.match_nodes l kvs s → nodes s !! x = Some nd → label_of nd = l.
Proof.
  intros Hin Hx. apply elem_of_match_nodes in Hin as (nd' & Hx' & Hp).
  apply node_is_label in Hp. by simplify_eq.
Qed.

End Frames.

(** ** Invite keys *)

Section InviteKeys.

Implicit Types (s : store) (x : nat).

Let is_key (nd : node) : Prop := label_of nd = InviteKey.

Lemma serve_untouched {A} P (g : guard A) h s :
  (∀ a, untouched P s (h a s).2) → untouched P s (serve g h s).2.
Proof. intros Hh. destruct g as [r|a]; simpl; [apply untouched_refl | apply Hh]. Qed.

Lemma add_users_old W clk b hashed ts s x nd :
  nodes s !! x = Some nd → nodes (UserRoutes.add_users W clk b hashed ts s).2 !! x = Some nd.
Proof.
  revert s. induction ts as [|t ts IH]; intros s Hx; [done|].
  cbn [UserRoutes.add_users snd]. apply IH.
  unfold UserRoutes.add_user_row. cbn [snd Cypher.create_rel nodes].
  apply (lookup_create_node_old User _ (Store (nodes s) (rels s) (S (drawn s)))). exact Hx.
Qed.

Lemma todo_create_keys W clk req s : untouched is_key s (TodoRoutes.create W clk req s).2.
Proof.
  apply serve_untouched. intros c. unfold TodoRoutes.create_handler.
  case_bool_decide; [apply untouched_refl|].
  set (created := create_owned _ _ _ _ s).
  assert (untouched is_key s created.2) as Hc.
  { intros x nd Hx _. by apply create_owned_old. }
  destruct created.1 as [|y ys]; cbn [snd]; [exact Hc|].
  destruct (truthy _); [|exact Hc].
  eapply untouched_trans; [exact Hc|]. apply untouched_same_nodes, nodes_link_category.
Qed.

Lemma todo_update_keys W clk req s : untouched is_key s (TodoRoutes.update W clk req s).2.
Proof.
  apply serve_untouched. intros c. unfold TodoRoutes.update_handler.
  set (rows := Cypher.owned _ _ _ s).
  assert (∀ x nd, x ∈ rows → nodes s !! x = Some nd → ¬ is_key nd) as Hrows.
  { intros x nd Hin Hx Hk. unfold is_key in Hk.
    pose proof (owned_rows_label _ _ _ _ _ _ _ Hin Hx). congruence. }
  destruct rows as [|y ys] eqn:Hr; [apply untouched_refl|].
  destruct (negb _); [apply untouched_refl|]. cbn [snd].
  eapply untouched_trans; [by apply set_props_untouched|].
  case_bool_decide; [|apply untouched_refl].
  destruct (truthy _).
  - apply untouched_same_nodes. by rewrite nodes_link_category.
  - by apply untouched_same_nodes.
Qed.

Lemma todo_remove_keys W req s : untouched is_key s (TodoRoutes.remove W req s).2.
Proof.
  apply serve_untouched. intros c. unfold TodoRoutes.remove_handler.
  set (rows := Cypher.in_tenant _ _ s).
  assert (untouched is_key s (Cypher.detach_delete rows s)) as Hd.
  { apply detach_delete_untouched. intros x nd Hin Hx Hk. unfold is_key in Hk.
    pose proof (in_tenant_rows_label _ _ _ _ _ _ Hin Hx). congruence. }
  by destruct (Nat.eqb _ _).
Qed.

Lemma category_create_keys W clk req s :
  untouched is_key s (CategoryRoutes.create W clk req s).2.
Proof.
  apply serve_untouched. intros c. unfold CategoryRoutes.create_handler.
  case_bool_decide; [apply untouched_refl|].
  set (created := create_owned _ _ _ _ s).
  assert (untouched is_key s created.2) as Hc.
  { intros x nd Hx _. by apply create_owned_old. }
  by destruct created.1.
Qed.

Lemma category_update_keys W req s : untouched is_key s (CategoryRoutes.update W req s).2.
Proof.
  apply serve_untouched. intros c. unfold CategoryRoutes.update_handler.
  set (rows := Cypher.owned _ _ _ s).
  assert (∀ x nd, x ∈ rows → nodes s !! x = Some nd → ¬ is_key nd) as Hrows.
  { intros x nd Hin Hx Hk. unfold is_key in Hk.
    pose proof (owned_rows_label _ _ _ _ _ _ _ Hin Hx). congruence. }
  destruct rows as [|y ys] eqn:Hr; [apply untouched_refl|].
  destruct (negb _); [apply untouched_refl|]. cbn [snd].
  by apply set_props_untouched.
Qed.

Lemma category_remove_keys W req s : untouched is_key s (CategoryRoutes.remove W req s).2.
Proof.
  apply serve_untouched. intros c. unfold CategoryRoutes.remove_handler.
  set (s1 := CategoryRoutes.clear_references _ s).
  assert (untouched is_key s s1) as H1.
  { apply set_props_untouched. intros x nd Hin Hx Hk. unfold is_key in Hk.
    pose proof (match_nodes_label _ _ _ _ _ Hin Hx). congruence. }
  set (rows := Cypher.owned _ _ _ s1).
  assert (untouched is_key s1 (Cypher.detach_delete rows s1)) as Hd.
  { apply detach_delete_untouched. intros x nd Hin Hx Hk. unfold is_key in Hk.
    pose proof (owned_rows_label _ _ _ _ _ _ _ Hin Hx). congruence. }
  destruct (Nat.eqb _ _); cbn [snd]; by eapply untouched_trans.
Qed.

Lemma user_create_keys W clk req s : untouched is_key s (UserRoutes.create W clk req s).2.
Proof.
  apply serve_untouched. intros c. unfold UserRoutes.create_handler.
  destruct (negb _); [apply untouched_refl|].
  set (result := UserRoutes.add_users _ _ _ _ _ s).
  assert (untouched is_key s result.2) as Hc.
  { intros x nd Hx _. by apply add_users_old. }
  by destruct result.1.
Qed.

Lemma user_login_same W req s : (UserRoutes.login W req s).2 = s.
Proof.
  unfold UserRoutes.login, serve. destruct (validate _ req); [done|].
  unfold UserRoutes.login_handler.
  destruct (Cypher.hop _ _ _ s) as [|[t0 u0] l]; [done|].
  destruct (negb _); [done|]. by destruct (negb _).
Qed.

Lemma tenant_lookup_same req s : (TenantRoutes.lookup req s).2 = s.
Proof.
  unfold TenantRoutes.lookup, serve. destruct (validate _ req); [done|].
  unfold TenantRoutes.lookup_handler. by destruct (List.filter _ _).
Qed.

Lemma todo_list_same W req s : (TodoRoutes.list_all W req s).2 = s.
Proof. unfold TodoRoutes.list_all, serve. by destruct (requireAuth W req). Qed.

Lemma todo_get_same W req s : (TodoRoutes.get W req s).2 = s.
Proof.
  unfold TodoRoutes.get, serve. destruct (requireAuth W req); [done|].
  unfold TodoRoutes.get_handler. by destruct (Cypher.owned _ _ _ s).
Qed.

Lemma category_list_same W req s : (CategoryRoutes.list_all W req s).2 = s.
Proof. unfold CategoryRoutes.list_all, serve. by destruct (requireAuth W req). Qed.

Lemma category_get_same W req s : (CategoryRoutes.get W req s).2 = s.
Proof.
  unfold CategoryRoutes.get, serve. destruct (requireAuth W req); [done|].
  unfold CategoryRoutes.get_handler. by destruct (Cypher.owned _ _ _ s).
Qed.

(** Every endpoint other than tenant creation leaves the invite keys alone. *)
Lemma invite_keys_untouched W clk e req s :
  e ≠ POST_tenant_create → untouched is_key s (api W clk e req s).2.
Proof.
  intros He. destruct e; simpl; try done.
  - rewrite tenant_lookup_same. apply untouched_refl.
  - apply user_create_keys.
  - rewrite user_login_same. apply untouched_refl.
  - apply todo_create_keys.
  - rewrite todo_list_same. apply untouched_refl.
  - rewrite todo_get_same. apply untouched_refl.
  - apply todo_update_keys.
  - apply todo_remove_keys.
  - apply category_create_keys.
  - rewrite category_list_same. apply untouched_refl.
  - rewrite category_get_same. apply untouched_refl.
  - apply category_update_keys.
  - apply category_remove_keys.
Qed.

End InviteKeys.

(** ** Tenant provisioning *)

Lemma Forall2_impl_elem {A B} (P Q : A → B → Prop) (l : list A) (k : list B) :
  Forall2 P l k → (∀ x y, x ∈ l → P x y → Q x y) → Forall2 Q l k.
Proof.
  induction 1 as [|x y l k Hxy _ IH]; intros Himpl; constructor.
  - apply Himpl; [by left|done].
  - apply IH. intros x' y' Hin. apply Himpl. by right.
Qed.

Section Provisioning.

Context (W : World) (clk : clock) (b : gmap string value) (hashed : string).

Implicit Types (s : store) (x i t u : nat).

Lemma provision_row_spec s i ki :
  nodes s !! i = Some ki → label_of ki = InviteKey →
  let r := TenantRoutes.provision_row W clk b hashed s i in
  provisioned clk b hashed s r.2 i r.1.1 r.1.2
  ∧ (∀ x, x ≠ r.1.1 → x ≠ r.1.2 → x ≠ i → nodes r.2 !! x = nodes s !! x)
  ∧ rels r.2 = (rels s ++ [Rel HAS_USER r.1.1 r.1.2; Rel INVITED i r.1.2;
                           Rel INVITED_TENANT i r.1.1])%list.
Proof.
  intros Hi Hlabel. unfold TenantRoutes.provision_row.
  set (tid := randomUUID W (drawn s)).
  set (uid := randomUUID W (S (drawn s))).
  set (s0 := Store (nodes s) (rels s) (S (S (drawn s)))).
  set (t := Cypher.new_node s0).
  set (s1 := (Cypher.create_node Tenant (TenantRoutes.new_tenant b tid) s0).2).
  set (u := Cypher.new_node s1).
  cbn zeta. cbn [fst snd Cypher.create_node].
  fold t. fold s1. fold u.
  assert (nodes s !! t = None) as Ht by apply (new_node_fresh s0).
  assert (nodes s1 !! u = None) as Hu1 by apply new_node_fresh.
  assert (nodes s1 !! t = Some (Node Tenant (Cypher.plus_eq ∅ (TenantRoutes.new_tenant b tid))))
    as Ht1 by apply lookup_insert_eq.
  assert (t ≠ u) as Htu by congruence.
  assert (nodes s !! u = None) as Hu.
  { destruct (nodes s !! u) as [nd|] eqn:E; [|done].
    pose proof (lookup_create_node_old Tenant (TenantRoutes.new_tenant b tid) s0 u nd E).
    unfold s1 in Hu1. congruence. }
  assert (i ≠ t) as Hit by congruence.
  assert (i ≠ u) as Hiu by congruence.
  split; [|split].
  - exists tid, uid, ki. split; [done|]. split; [done|]. split; [done|]. split; [done|].
    cbn [Cypher.set_props Cypher.create_rel nodes rels foldr].
    rewrite !lookup_alter_ne by done.
    assert (nodes s1 !! i = Some ki) as Hi1.
    { apply (lookup_create_node_old Tenant _ s0). exact Hi. }
    split; [by rewrite lookup_insert_ne|].
    split; [by rewrite lookup_insert_eq|].
    split.
    { rewrite lookup_alter_eq, lookup_insert_ne by done. by rewrite Hi1. }
    rewrite !elem_of_app, !list_elem_of_singleton. tauto.
  - intros x Hxt Hxu Hxi.
    cbn [Cypher.set_props Cypher.create_rel nodes rels foldr].
    rewrite lookup_alter_ne by congruence.
    rewrite lookup_insert_ne by congruence.
    unfold s1. cbn [Cypher.create_node snd nodes]. fold t.
    by rewrite lookup_insert_ne by congruence.
  - cbn [Cypher.set_props Cypher.create_rel nodes rels foldr].
    change (rels s0) with (rels s). by rewrite <- !app_assoc.
Qed.

(** The store only grows along a row. *)
Lemma provision_row_dom s i x :
  is_Some (nodes s !! x) → is_Some (nodes (TenantRoutes.provision_row W clk b hashed s i).2 !! x).
Proof.
  intros Hx. unfold TenantRoutes.provision_row.
  cbn [snd Cypher.set_props Cypher.create_rel Cypher.create_node nodes foldr].
  apply lookup_alter_is_Some. rewrite !lookup_insert_is_Some'. auto.
Qed.

Lemma provision_spec keys s :
  NoDup keys →
  (∀ i, i ∈ keys → ∃ ki, nodes s !! i = Some ki ∧ label_of ki = InviteKey) →
  let res := TenantRoutes.provision W clk b hashed keys s in
  (∀ x, x ∉ keys → is_Some (nodes s !! x) → nodes res.2 !! x = nodes s !! x)
  ∧ (∀ x, is_Some (nodes s !! x) → is_Some (nodes res.2 !! x))
  ∧ (∀ r, r ∈ rels s → r ∈ rels res.2)
  ∧ Forall2 (λ i tu, provisioned clk b hashed s res.2 i tu.1 tu.2) keys res.1
  ∧ (∀ x, is_Some (nodes res.2 !! x) →
          is_Some (nodes s !! x) ∨ ∃ tu, tu ∈ res.1 ∧ (x = tu.1 ∨ x = tu.2))
  ∧ (∀ r, r ∈ rels res.2 →
          r ∈ rels s
          ∨ ∃ i tu, i ∈ keys ∧ tu ∈ res.1 ∧ provisioned clk b hashed s res.2 i tu.1 tu.2
                    ∧ r ∈ [Rel HAS_USER tu.1 tu.2; Rel INVITED i tu.2;
                           Rel INVITED_TENANT i tu.1]).
Proof.
  revert s. induction keys as [|i keys IH]; intros s Hnd Hdom.
  { cbn. repeat split; auto. }
  apply NoDup_cons in Hnd as [Hi_notin Hnd].
  destruct (Hdom i) as (ki & Hi & Hki); [by left|].
  cbn [TenantRoutes.provision fst snd]. cbn zeta.
  pose proof (provision_row_spec s i ki Hi Hki) as Hrow. cbn zeta in Hrow.
  set (row := TenantRoutes.provision_row W clk b hashed s i) in *.
  destruct Hrow as (Hprov & Hframe & Hrels).
  destruct Hprov
    as (tid & uid & ki' & Ht0 & Hu0 & Hi0 & _ & Ht1 & Hu1 & Hi1 & Hr1 & Hr2 & Hr3).
  assert (ki' = ki) as -> by congruence.
  assert (∀ j, j ∈ keys → ∃ kj, nodes row.2 !! j = Some kj ∧ label_of kj = InviteKey)
    as Hdom1.
  { intros j Hj. destruct (Hdom j) as (kj & Hj1 & Hj2); [by right|].
    exists kj. split; [|done]. rewrite Hframe; [done| | |]; intros ->.
    - congruence.
    - congruence.
    - done. }
  specialize (IH row.2 Hnd Hdom1). cbn zeta in IH.
  set (res := TenantRoutes.provision W clk b hashed keys row.2) in *.
  destruct IH as (IHframe & IHdom & IHrels & IHall & IHnew & IHrel).
  assert (row.1.1 ∉ keys) as Htk.
  { intros Hin. destruct (Hdom row.1.1) as (? & ? & _); [by right|congruence]. }
  assert (row.1.2 ∉ keys) as Huk.
  { intros Hin. destruct (Hdom row.1.2) as (? & ? & _); [by right|congruence]. }
  assert (row.1.1 ≠ i) as Hti by congruence.
  assert (row.1.2 ≠ i) as Hui by congruence.
  assert (provisioned clk b hashed s res.2 i row.1.1 row.1.2) as Hhead.
  { exists tid, uid, ki. split; [done|]. split; [done|]. split; [done|]. split; [done|].
    rewrite !IHframe by (done || by eexists).
    split; [done|]. split; [done|]. split; [done|]. auto. }
  assert (∀ j tu, j ∈ keys → provisioned clk b hashed row.2 res.2 j tu.1 tu.2 →
                  provisioned clk b hashed s res.2 j tu.1 tu.2) as Hlift.
  { intros j tu Hj (tid' & uid' & kj & Ha & Hb & Hc & Hd).
    exists tid', uid', kj.
    assert (j ≠ i) as Hji by (intros ->; done).
    destruct (Hdom j) as (kj0 & Hkj0 & _); [by right|].
    assert (j ≠ row.1.1) as Hjt by congruence.
    assert (j ≠ row.1.2) as Hju by congruence.
    split; [|split; [|split]]; [| |by rewrite <- (Hframe j)|done].
    - destruct (nodes s !! tu.1) eqn:E; [|done].
      destruct (provision_row_dom s i tu.1) as [? ?]; [by eexists|]. fold row in H. congruence.
    - destruct (nodes s !! tu.2) eqn:E; [|done].
      destruct (provision_row_dom s i tu.2) as [? ?]; [by eexists|]. fold row in H. congruence. }
  split; [|split; [|split; [|split; [|split]]]].
  - intros x Hx Hsome. apply not_elem_of_cons in Hx as [Hxi Hx].
    assert (x ≠ row.1.1) as Hxt by (intros ->; destruct Hsome; congruence).
    assert (x ≠ row.1.2) as Hxu by (intros ->; destruct Hsome; congruence).
    rewrite IHframe; [by apply Hframe|done|]. rewrite Hframe by done. done.
  - intros x Hx. by apply IHdom, provision_row_dom.
  - intros r Hr. apply IHrels. rewrite Hrels. apply elem_of_app. by left.
  - apply Forall2_cons. split; [exact Hhead|].
    eapply Forall2_impl_elem; [exact IHall|]. intros j tu Hj Hp. by apply Hlift.
  - intros x Hx. destruct (IHnew x Hx) as [Hold|(tu & Htu & Hor)].
    + destruct (decide (x = row.1.1)) as [->|Hxt].
      { right. exists row.1. split; [by left|by left]. }
      destruct (decide (x = row.1.2)) as [->|Hxu].
      { right. exists row.1. split; [by left|by right]. }
      destruct (decide (x = i)) as [->|Hxi]; [left; by eexists|].
      left. by rewrite <- Hframe.
    + right. exists tu. split; [by right|done].
  - intros r Hr. destruct (IHrel r Hr) as [Hold|(j & tu & Hj & Htu & Hp & Hin)].
    + rewrite Hrels in Hold. apply elem_of_app in Hold as [Hold|Hnew]; [by left|].
      right. exists i, row.1. split; [by left|]. split; [by left|]. done.
    + right. exists j, tu. split; [by right|]. split; [by right|]. split; [|done].
      by apply Hlift.
Qed.

End Provisioning.

Section TenantCreate.

Implicit Types (s : store) (x : nat).

Lemma key_check_nil s key :
  Cypher.match_nodes InviteKey [("key", key); ("isUsed", VBool false)] s = []
  ↔ ¬ unused_key s key.
Proof.
  split.
  - intros Hnil (x & nd & Hx & Hl & Hk & Hu).
    assert (x ∈ Cypher.match_nodes InviteKey [("key", key); ("isUsed", VBool false)] s) as Hin.
    { apply elem_of_match_nodes. exists nd. split; [done|].
      unfold Cypher.node_is. simpl. by rewrite !bool_decide_true. }
    rewrite Hnil in Hin. by apply elem_of_nil in Hin.
  - intros Hno. apply elem_of_nil_inv. intros x Hin.
    apply elem_of_match_nodes in Hin as (nd & Hx & Hp). apply Hno.
    unfold Cypher.node_is in Hp. simpl in Hp.
    rewrite !andb_true_iff, !bool_decide_eq_true in Hp.
    exists x, nd. tauto.
Qed.

Lemma dup_check_nil s b :
  (Cypher.match_nodes Tenant [("slug", field b "slug")] s
   ++ Cypher.match_nodes User [("email", field b "email")] s)%list = []
  ↔ ¬ slug_or_email_taken s b.
Proof.
  split.
  - intros Hnil (x & nd & Hx & Hor).
    apply app_eq_nil in Hnil as [Hn1 Hn2].
    destruct Hor as [[Hl Hp]|[Hl Hp]].
    + assert (x ∈ Cypher.match_nodes Tenant [("slug", field b "slug")] s) as Hin.
      { apply elem_of_match_nodes. exists nd. split; [done|]. by apply node_is_prop. }
      rewrite Hn1 in Hin. by apply elem_of_nil in Hin.
    + assert (x ∈ Cypher.match_nodes User [("email", field b "email")] s) as Hin.
      { apply elem_of_match_nodes. exists nd. split; [done|]. by apply node_is_prop. }
      rewrite Hn2 in Hin. by apply elem_of_nil in Hin.
  - intros Hno. apply elem_of_nil_inv. intros x Hin. apply Hno.
    apply elem_of_app in Hin as [Hin|Hin];
      apply elem_of_match_nodes in Hin as (nd & Hx & Hp);
      apply node_is_prop in Hp; exists x, nd; tauto.
Qed.

(** What the creation handler does: either it refuses and leaves the store as
    it was, or it answers 201 and everything is committed. *)
Lemma create_handler_cases W clk req s :
  let r := TenantRoutes.create_handler W clk req s in
  (r.2 = s ∧ status r.1 = 400)
  ∨ (status r.1 = 201
     ∧ unused_key s (field (body req) "inviteKey")
     ∧ all_committed clk (body req)
         (hashPassword W (as_string (field (body req) "password"))) s r.2).
Proof.
  cbn zeta. unfold TenantRoutes.create_handler.
  destruct (negb _); [by left|].
  set (b := body req). set (hashed := hashPassword W _).
  set (keyCheck := Cypher.match_nodes InviteKey
                     [("key", field b "inviteKey"); ("isUsed", VBool false)] s).
  destruct (Nat.eqb (length keyCheck) 0) eqn:Hkey; [by left|]. right.
  set (keys := Cypher.match_nodes InviteKey [("key", field b "inviteKey")] s).
  assert (unused_key s (field b "inviteKey")) as Hunused.
  { destruct keyCheck as [|x l] eqn:Hm; [done|].
    assert (x ∈ keyCheck) as Hin.
    { rewrite Hm. by left. }
    unfold keyCheck in Hin.
    apply elem_of_match_nodes in Hin as (nd & Hx & Hp).
    unfold Cypher.node_is in Hp. simpl in Hp.
    rewrite !andb_true_iff, !bool_decide_eq_true in Hp.
    exists x, nd. tauto. }
  assert (∃ i0, i0 ∈ keys) as [i0 Hi0].
  { destruct Hunused as (x & nd & Hx & Hl & Hk & _). exists x.
    apply elem_of_match_nodes. exists nd. split; [done|]. by apply node_is_prop. }
  pose proof (provision_spec W clk b hashed keys s (NoDup_match_nodes _ _ _)) as Hspec.
  cbn zeta in Hspec.
  destruct Hspec as (Hframe & Hdom & Hrels & Hall & Hnew & Hrel).
  { intros i Hi. apply elem_of_match_nodes in Hi as (nd & Hx & Hp).
    exists nd. split; [done|]. by eapply node_is_label. }
  set (res := TenantRoutes.provision W clk b hashed keys s) in *.
  assert (∀ i, i ∈ keys → ∃ tu, tu ∈ res.1 ∧ provisioned clk b hashed s res.2 i tu.1 tu.2)
    as Hkeys.
  { intros i Hi. apply list_elem_of_lookup in Hi as [k Hk].
    destruct (Forall2_lookup_l _ _ _ _ _ Hall Hk) as (tu & Htu & Hp).
    exists tu. split; [|done]. by eapply list_elem_of_lookup_2. }
  assert (∀ tu, tu ∈ res.1 → ∃ i, i ∈ keys ∧ provisioned clk b hashed s res.2 i tu.1 tu.2)
    as Hpairs.
  { intros tu Htu. apply list_elem_of_lookup in Htu as [k Hk].
    destruct (Forall2_lookup_r _ _ _ _ _ Hall Hk) as (i & Hi & Hp).
    exists i. split; [|done]. by eapply list_elem_of_lookup_2. }
  assert (all_committed clk b hashed s res.2) as Hcommitted.
  { split; [|split; [|split; [|split]]].
    - destruct (Hkeys i0 Hi0) as (tu & _ & Hp). by exists i0, tu.1, tu.2.
    - intros x nd Hx Hnone. destruct (Hnew x) as [[? ?]|(tu & Htu & Hor)];
        [by eexists|congruence|].
      destruct (Hpairs tu Htu) as (i & _ & Hp). by exists i, tu.1, tu.2.
    - intros x nd Hx Hch. destruct (decide (x ∈ keys)) as [Hin|Hout].
      + destruct (Hkeys x Hin) as (tu & _ & Hp). by exists tu.1, tu.2.
      + exfalso. apply Hch. rewrite Hframe; [done|done|by eexists].
    - intros r Hr. destruct (Hrel r Hr) as [?|(i & tu & _ & _ & Hp & Hin)]; [by left|].
      right. by exists i, tu.1, tu.2.
    - exact Hrels. }
  destruct res.1 as [|[t u] l] eqn:Hres.
  { destruct (Hkeys i0 Hi0) as (tu & Htu & _). by apply elem_of_nil in Htu. }
  cbn [fst snd status]. done.
Qed.

Lemma create_cases W clk req s :
  let r := TenantRoutes.create W clk req s in
  (r.2 = s ∧ status r.1 = 400)
  ∨ (status r.1 = 201
     ∧ unused_key s (field (body req) "inviteKey")
     ∧ all_committed clk (body req)
         (hashPassword W (as_string (field (body req) "password"))) s r.2).
Proof.
  cbn zeta. unfold TenantRoutes.create, serve, validate.
  destruct (TenantRoutes.createSchema W (body req)); [|by left].
  apply create_handler_cases.
Qed.

End TenantCreate.

Lemma mark_used_isUsed clk uid p :
  TenantRoutes.mark_used clk uid p !! "isUsed" = Some (VBool true).
Proof.
  unfold TenantRoutes.mark_used.
  rewrite !lookup_insert_ne by discriminate. apply lookup_insert_eq.
Qed.

Lemma untouched_used s s' x :
  untouched (λ nd, label_of nd = InviteKey) s s' → used s x → used s' x.
Proof. intros Hun (nd & Hx & Hl & Hu). exists nd. split; [by apply Hun|done]. Qed.

Lemma tenant_create_keeps_used W clk req s x :
  used s x → used (TenantRoutes.create W clk req s).2 x.
Proof.
  intros (nd & Hx & Hl & Hu).
  destruct (create_cases W clk req s) as [[-> _]|(_ & _ & Hall)].
  { by exists nd. }
  destruct Hall as (_ & _ & Hchanged & _).
  set (s' := (TenantRoutes.create W clk req s).2) in *.
  destruct (decide (nodes s' !! x = Some nd)) as [Hsame|Hdiff].
  { by exists nd. }
  destruct (Hchanged x nd Hx Hdiff)
    as (t & u & tid & uid & ki & _ & _ & Hki & _ & _ & _ & Hx' & _).
  assert (ki = nd) as -> by congruence.
  eexists. split; [exact Hx'|]. split; [done|]. apply mark_used_isUsed.
Qed.

Lemma bad_key_always_reported_fails : ¬ bad_key_always_reported.
Proof.
  intros H.
  specialize (H Demo.world Demo.later Demo.taken_slug_request Demo.base).
  assert ((TenantRoutes.create Demo.world Demo.later Demo.taken_slug_request Demo.base).1
          = Response 400 (Message false "Tenant slug or email already exists")) as Hdup
    by (vm_compute; reflexivity).
  rewrite Hdup in H.
  assert (¬ unused_key Demo.base (field (body Demo.taken_slug_request) "inviteKey")) as Hbad.
  { apply key_check_nil. vm_compute. reflexivity. }
  specialize (H Hbad). discriminate H.
Qed.

(** C3 (amended). No request handler of the API turns a used invite key back:
    an invite key whose [isUsed] is true before a request is still an invite
    key with [isUsed] true after it. And a tenant-create request whose
    inviteKey names no invite key with [isUsed = false] is refused with 400
    and leaves the store as it was, so no tenant and no user is created; the
    message is "Invalid or already used invite key" when the body passes the
    schema and neither the slug nor the e-mail is taken (validation and the
    duplicate check answer first, with their own 400). *)
Theorem invite_key_single_use W clk :
  (∀ e req s x, used s x → used (api W clk e req s).2 x)
  ∧ (∀ req s,
       ¬ unused_key s (field (body req) "inviteKey") →
       let r := TenantRoutes.create W clk req s in
       r.2 = s ∧ status r.1 = 400
       ∧ (TenantRoutes.createSchema W (body req) = true →
          ¬ slug_or_email_taken s (body req) →
          sent r.1 = Message false "Invalid or already used invite key")).
Proof.
  split.
  - intros e req s x Hused.
    destruct (decide (e = POST_tenant_create)) as [->|He].
    + simpl. by apply tenant_create_keeps_used.
    + eapply untouched_used; [|done]. by apply invite_keys_untouched.
  - intros req s Hbad. cbn zeta.
    destruct (create_cases W clk req s) as [[Hs Hst]|(_ & Hunused & _)]; [|done].
    split; [done|]. split; [done|].
    intros Hschema Hfree.
    unfold TenantRoutes.create, serve, validate. rewrite Hschema.
    unfold TenantRoutes.create_handler.
    apply dup_check_nil in Hfree. rewrite Hfree.
    apply key_check_nil in Hbad. rewrite Hbad. reflexivity.
Qed.

Lemma invite_key_single_use_witness :
  used Demo.base 0
  ∧ ¬ unused_key Demo.base (field (body Demo.reuse_request) "inviteKey")
  ∧ used (api Demo.world Demo.later POST_tenant_create Demo.reuse_request Demo.base).2 0
  ∧ (TenantRoutes.create Demo.world Demo.later Demo.reuse_request Demo.base).2 = Demo.base
  ∧ sent (TenantRoutes.create Demo.world Demo.later Demo.reuse_request Demo.base).1
    = Message false "Invalid or already used invite key".
Proof.
  assert (used Demo.base 0) as Hused.
  { eexists. split; [vm_compute; reflexivity|]. split; reflexivity. }
  assert (¬ unused_key Demo.base (field (body Demo.reuse_request) "inviteKey")) as Hbad.
  { apply key_check_nil. vm_compute. reflexivity. }
  assert (¬ slug_or_email_taken Demo.base (body Demo.reuse_request)) as Hfree.
  { apply dup_check_nil. vm_compute. reflexivity. }
  destruct (invite_key_single_use Demo.world Demo.later) as [Hkeep Hrefuse].
  destruct (Hrefuse Demo.reuse_request Demo.base Hbad) as (Hsame & _ & Hmsg).
  split; [exact Hused|]. split; [exact Hbad|].
  split; [exact (Hkeep POST_tenant_create Demo.reuse_request Demo.base 0 Hused)|].
  split; [exact Hsame|].
  apply Hmsg; [vm_compute; reflexivity | exact Hfree].
Defined.

(** The seed script is not a request handler: run again on a database in use,
    its [ON MATCH SET i.isUsed = false] makes the four seeded keys unused. *)
Remark seed_resets_used_keys :
  used Demo.base 0 ∧ unused_key (Seed.seed Demo.base) (VStr "chronos-beta").
Proof.
  split.
  - eexists. split; [vm_compute; reflexivity|]. split; reflexivity.
  - exists 0. eexists. split; [vm_compute; reflexivity|]. repeat split; reflexivity.
Qed.

(** ** Completion timestamps *)

Section Completion.

Implicit Types (s : store) (b p : gmap string value).

(** What [SET todo += $updateMap] leaves in [completed_at]. *)
Lemma updateMap_completed_at clk b p :
  Cypher.plus_eq p (TodoRoutes.updateMap clk b) !! "completed_at" =
    match b !! "is_completed" with
    | Some (VBool true) => Some (VStr (now clk))
    | Some (VBool false) => None
    | _ => match b !! "completed_at" with
           | Some VNull => None
           | Some v => Some v
           | None => p !! "completed_at"
           end
    end.
Proof.
  rewrite lookup_plus_eq. unfold TodoRoutes.updateMap.
  destruct (b !! "is_completed") as [[| [] | | |]|] eqn:Hc; simpl;
    rewrite ?lookup_insert_eq; try reflexivity;
    rewrite lookup_insert_ne by discriminate;
    destruct (b !! "completed_at") as [[]|]; reflexivity.
Qed.

(** What it leaves in [is_completed], for a body that passed the schema. *)
Lemma updateMap_is_completed clk b p :
  Zod.optional Zod.boolean (b !! "is_completed") = true →
  Cypher.plus_eq p (TodoRoutes.updateMap clk b) !! "is_completed" =
    match b !! "is_completed" with
    | Some v => Some v
    | None => p !! "is_completed"
    end.
Proof.
  intros Hschema. rewrite lookup_plus_eq. unfold TodoRoutes.updateMap.
  destruct (b !! "is_completed") as [[| [] | | |]|] eqn:Hc; simpl in *; try discriminate;
    rewrite !lookup_insert_ne by discriminate; rewrite Hc; reflexivity.
Qed.

(** When the body sets [is_completed], or does not carry a [completed_at] of
    its own, the update keeps the two properties in step. *)
Lemma update_keeps_completion_in_step clk b p :
  Zod.optional Zod.boolean (b !! "is_completed") = true →
  is_Some (b !! "is_completed") ∨ b !! "completed_at" = None →
  (p !! "is_completed" = Some (VBool true) ↔ is_Some (p !! "completed_at")) →
  let p' := Cypher.plus_eq p (TodoRoutes.updateMap clk b) in
  p' !! "is_completed" = Some (VBool true) ↔ is_Some (p' !! "completed_at").
Proof.
  intros Hschema Hbody Hinv. cbn zeta.
  rewrite updateMap_completed_at, updateMap_is_completed by done.
  destruct (b !! "is_completed") as [[| [] | | |]|] eqn:Hc; simpl in *; try discriminate.
  - split; [by eexists|done].
  - split; [discriminate|]. intros [? ?]. discriminate.
  - destruct Hbody as [[? ?]|Hno]; [discriminate|]. rewrite Hno. exact Hinv.
Qed.

(** The todo written by the create query has [completed_at = now] exactly when
    the body's [is_completed] is true, and no [completed_at] otherwise. *)
Lemma new_todo_completion clk c b uuid :
  Zod.required Zod.boolean (b !! "is_completed") = true →
  let p := Cypher.plus_eq ∅ (TodoRoutes.new_todo clk c b uuid) in
  p !! "is_completed" = b !! "is_completed"
  ∧ p !! "completed_at"
    = (if bool_decide (b !! "is_completed" = Some (VBool true))
       then Some (VStr (now clk)) else None)
  ∧ (p !! "is_completed" = Some (VBool true) ↔ is_Some (p !! "completed_at")).
Proof.
  intros Hschema. cbn zeta.
  destruct (b !! "is_completed") as [[| [] | | |]|] eqn:Hc; simpl in Hschema; try discriminate.
  - assert (Cypher.plus_eq ∅ (TodoRoutes.new_todo clk c b uuid) !! "is_completed"
            = Some (VBool true)) as E1.
    { rewrite lookup_plus_eq. unfold TodoRoutes.new_todo. simpl.
      rewrite !lookup_insert_ne by discriminate. rewrite lookup_insert_eq, Hc. reflexivity. }
    assert (Cypher.plus_eq ∅ (TodoRoutes.new_todo clk c b uuid) !! "completed_at"
            = Some (VStr (now clk))) as E2.
    { rewrite lookup_plus_eq. unfold TodoRoutes.new_todo. simpl.
      rewrite !lookup_insert_ne by discriminate. rewrite lookup_insert_eq, Hc. reflexivity. }
    rewrite E1, E2. split; [done|]. split; [done|]. split; [by eexists|done].
  - assert (Cypher.plus_eq ∅ (TodoRoutes.new_todo clk c b uuid) !! "is_completed"
            = Some (VBool false)) as E1.
    { rewrite lookup_plus_eq. unfold TodoRoutes.new_todo. simpl.
      rewrite !lookup_insert_ne by discriminate. rewrite lookup_insert_eq, Hc. reflexivity. }
    assert (Cypher.plus_eq ∅ (TodoRoutes.new_todo clk c b uuid) !! "completed_at"
            = None) as E2.
    { rewrite lookup_plus_eq. unfold TodoRoutes.new_todo. simpl.
      rewrite !lookup_insert_ne by discriminate. rewrite lookup_insert_eq, Hc. reflexivity. }
    rewrite E1, E2. split; [done|]. split; [done|].
    split; [discriminate|]. intros [? ?]. discriminate.
Qed.

Lemma create_owned_new W l (mk : string → gmap string value) rows s x :
  x ∈ (create_owned W l mk rows s).1 →
  nodes s !! x = None
  ∧ ∃ uuid, nodes (create_owned W l mk rows s).2 !! x
            = Some (Node l (Cypher.plus_eq ∅ (mk uuid))).
Proof.
  revert s. induction rows as [|row rows IH]; intros s Hin.
  { by apply elem_of_nil in Hin. }
  cbn [create_owned fst snd] in *.
  set (one := create_owned_row W l mk s row) in *.
  assert (nodes s !! one.1 = None) as Hfresh.
  { apply (new_node_fresh (Store (nodes s) (rels s) (S (drawn s)))). }
  assert (nodes one.2 !! one.1
          = Some (Node l (Cypher.plus_eq ∅ (mk (randomUUID W (drawn s)))))) as Hnew.
  { unfold one, create_owned_row. cbn [fst snd Cypher.create_rel nodes].
    apply lookup_create_node_new. }
  apply elem_of_cons in Hin as [->|Hin].
  - split; [done|]. eexists. by apply create_owned_old.
  - destruct (IH one.2 Hin) as [Hnone Hsome]. split; [|done].
    destruct (nodes s !! x) as [nd|] eqn:Hx; [|done].
    pose proof (create_owned_row_old W l mk s row x nd Hx) as Hold.
    fold one in Hold. congruence.
Qed.

(** A created todo is answered with 201 and carries the properties of the
    create query. *)
Lemma todo_create_handler_created W clk req c s :
  status (TodoRoutes.create_handler W clk req c s).1 = 201 →
  ∃ x uuid,
    nodes s !! x = None
    ∧ nodes (TodoRoutes.create_handler W clk req c s).2 !! x
      = Some (Node Todo (Cypher.plus_eq ∅ (TodoRoutes.new_todo clk c (body req) uuid)))
    ∧ sent (TodoRoutes.create_handler W clk req c s).1
      = TodoBody (Cypher.plus_eq ∅ (TodoRoutes.new_todo clk c (body req) uuid)).
Proof.
  unfold TodoRoutes.create_handler. case_bool_decide; [discriminate|].
  set (created := create_owned W Todo _ _ s).
  destruct created.1 as [|x xs] eqn:Hc; [discriminate|]. intros _.
  destruct (create_owned_new W Todo (TodoRoutes.new_todo clk c (body req))
              (user_tenant_rows c s) s x) as [Hnone [uuid Hsome]].
  { fold created. rewrite Hc. by left. }
  fold created in Hsome.
  exists x, uuid. split; [done|]. cbn [fst snd sent].
  unfold props_at. rewrite Hsome. cbn [from_option props]. split; [|done].
  destruct (truthy _); [|done]. by rewrite nodes_link_category.
Qed.

(** POST /api/todos: the todo answered with 201 has [completed_at = now]
    exactly when the body's [is_completed] is true, and none otherwise. *)
Lemma created_todo_completion_in_step W clk req s :
  status (TodoRoutes.create W clk req s).1 = 201 →
  ∃ p, sent (TodoRoutes.create W clk req s).1 = TodoBody p
       ∧ p !! "is_completed" = body req !! "is_completed"
       ∧ p !! "completed_at"
         = (if bool_decide (body req !! "is_completed" = Some (VBool true))
            then Some (VStr (now clk)) else None)
       ∧ (p !! "is_completed" = Some (VBool true) ↔ is_Some (p !! "completed_at")).
Proof.
  unfold TodoRoutes.create, serve, validate.
  destruct (requireAuth W req) as [r|c] eqn:Hauth.
  { apply requireAuth_rejects in Hauth. simpl. congruence. }
  cbn [and_then].
  destruct (TodoRoutes.createTodoSchema (body req)) eqn:Hschema; [|discriminate].
  intros Hok.
  destruct (todo_create_handler_created W clk req c s Hok) as (x & uuid & _ & _ & Hsent).
  eexists. split; [exact Hsent|].
  apply new_todo_completion.
  unfold TodoRoutes.createTodoSchema in Hschema. rewrite !andb_true_iff in Hschema. tauto.
Qed.

End Completion.

(** C6, at a failing input. The PUT handler merges the raw body into the todo,
    so a body that carries [completed_at] and no [is_completed] changes the
    timestamp: alice's open todo keeps [is_completed = false] and ends with a
    non-null [completed_at]. The POST handler reads the fields it knows by
    name and is not affected. *)
Theorem raw_update_breaks_completion :
  let r := TodoRoutes.update Demo.world Demo.later Demo.stamp_request Demo.with_todos in
  TodoRoutes.updateTodoSchema (body Demo.stamp_request) = true
  ∧ body Demo.stamp_request !! "is_completed" = None
  ∧ props_at 10 Demo.with_todos !! "is_completed" = Some (VBool false)
  ∧ props_at 10 Demo.with_todos !! "completed_at" = None
  ∧ status r.1 = 200
  ∧ sent r.1 = TodoBody (props_at 10 r.2)
  ∧ props_at 10 r.2 !! "is_completed" = Some (VBool false)
  ∧ props_at 10 r.2 !! "completed_at" = Some (VStr "2020-02-02T00:00:00.000Z").
Proof.
  cbn zeta.
  split; [vm_compute; reflexivity|]. split; [vm_compute; reflexivity|].
  split; [vm_compute; reflexivity|]. split; [vm_compute; reflexivity|].
  split; [vm_compute; reflexivity|]. split; [vm_compute; reflexivity|].
  split; vm_compute; reflexivity.
Qed.

(** ** Category links on update *)

Section Relink.

Implicit Types (s : store) (x y : nat) (b : gmap string value).

Lemma elem_of_rels_merge ty a c s r :
  r ∈ rels (Cypher.merge_rel ty a c s) ↔ r ∈ rels s ∨ r = Rel ty a c.
Proof.
  unfold Cypher.merge_rel. case_bool_decide as Hin; simpl.
  - split; [by left|]. intros [?| ->]; done.
  - rewrite elem_of_app, list_elem_of_singleton. done.
Qed.

Lemma elem_of_rels_foldl_merge ty (rows : list (nat * nat)) s r :
  r ∈ rels (foldl (λ acc row, Cypher.merge_rel ty row.1 row.2 acc) s rows)
  ↔ r ∈ rels s ∨ ∃ row, row ∈ rows ∧ r = Rel ty row.1 row.2.
Proof.
  revert s. induction rows as [|row rows IH]; intros s; simpl.
  - split; [by left|]. intros [?|(row & Hin & _)]; [done|]. by apply elem_of_nil in Hin.
  - rewrite IH, elem_of_rels_merge. split.
    + intros [[?| ->]|(row' & Hin & ->)]; [by left| |].
      * right. exists row. split; [by left|done].
      * right. exists row'. split; [by right|done].
    + intros [?|(row' & Hin & ->)]; [by left; left|].
      apply elem_of_cons in Hin as [->|Hin]; [by left; right|].
      right. by exists row'.
Qed.

Lemma elem_of_rels_link a c s r :
  r ∈ rels (link_category a c s)
  ↔ r ∈ rels s
    ∨ ∃ x y, r = Rel HAS_CATEGORY x y
             ∧ x ∈ Cypher.match_nodes Todo [("id", a)] s
             ∧ y ∈ Cypher.match_nodes Category [("id", c)] s.
Proof.
  unfold link_category. rewrite elem_of_rels_foldl_merge. split.
  - intros [?|([x y] & Hin & ->)]; [by left|]. right. exists x, y. split; [done|].
    apply list_elem_of_In, in_prod_iff in Hin. by rewrite !list_elem_of_In.
  - intros [?|(x & y & -> & Hx & Hy)]; [by left|]. right. exists (x, y). split; [|done].
    apply list_elem_of_In, in_prod_iff. by rewrite <- !list_elem_of_In.
Qed.

Lemma elem_of_rels_unlink id s r :
  r ∈ rels (unlink_category id s)
  ↔ r ∈ rels s
    ∧ ¬ (rtype r = HAS_CATEGORY
         ∧ ∃ nd, nodes s !! rsrc r = Some nd
                 ∧ Cypher.node_is Todo [("id", VStr id)] nd = true).
Proof.
  unfold unlink_category. simpl.
  rewrite list_elem_of_In, filter_In, <- list_elem_of_In.
  rewrite negb_true_iff, andb_false_iff, bool_decide_eq_false.
  split; intros [Hin Hcond]; (split; [done|]).
  - intros [Hty (nd & Hx & Hp)]. destruct Hcond as [?|Hc]; [done|].
    rewrite Hx in Hc. simpl in Hc. congruence.
  - destruct (decide (rtype r = HAS_CATEGORY)) as [Hty|?]; [|by left]. right.
    destruct (nodes s !! rsrc r) as [nd|] eqn:Hx; [|done]. simpl.
    destruct (Cypher.node_is Todo [("id", VStr id)] nd) eqn:Hp; [|done].
    exfalso. apply Hcond. split; [done|]. by exists nd.
Qed.

Lemma only_todo_keys_spec b k v :
  only_todo_keys b = true → b !! k = Some v → k ∈ todo_keys.
Proof.
  unfold only_todo_keys. rewrite forallb_forall. intros Hall Hk.
  specialize (Hall (k, v)). simpl in Hall.
  assert (existsb (String.eqb k) todo_keys = true) as Hex.
  { apply Hall, list_elem_of_In. by apply elem_of_map_to_list. }
  apply existsb_exists in Hex as (k' & Hin & Heq).
  apply String.eqb_eq in Heq. subst k'. by apply list_elem_of_In.
Qed.

(** A body inside the schema never carries a nested object, so the SET of the
    update query is accepted, and it does not touch the todo's [id]. *)
Lemma updateMap_in_schema clk b :
  TodoRoutes.updateTodoSchema b = true → only_todo_keys b = true →
  Cypher.storable (TodoRoutes.updateMap clk b) = true
  ∧ TodoRoutes.updateMap clk b !! "id" = None.
Proof.
  intros Hschema Honly.
  assert (∀ k, b !! k = Some VObj → False) as Hnoobj.
  { intros k Hk. pose proof (only_todo_keys_spec b k VObj Honly Hk) as Hin.
    unfold TodoRoutes.updateTodoSchema in Hschema.
    rewrite !andb_true_iff in Hschema.
    destruct Hschema as (((((H1 & H2) & H3) & H4) & H5) & H6).
    unfold todo_keys in Hin. rewrite !elem_of_cons in Hin.
    destruct Hin as [->|[->|[->|[->|[->|[->|Hin]]]]]];
      [rewrite Hk in H1|rewrite Hk in H2|rewrite Hk in H3
      |rewrite Hk in H4|rewrite Hk in H5|rewrite Hk in H6|by apply elem_of_nil in Hin];
      discriminate. }
  assert (b !! "id" = None) as Hid.
  { destruct (b !! "id") as [v|] eqn:Hk; [|done].
    pose proof (only_todo_keys_spec b "id" v Honly Hk) as Hin.
    unfold todo_keys in Hin. rewrite !elem_of_cons in Hin.
    destruct Hin as [?|[?|[?|[?|[?|[?|Hin]]]]]]; try discriminate.
    by apply elem_of_nil in Hin. }
  assert (∀ k v, TodoRoutes.updateMap clk b !! k = Some v → v ≠ VObj) as Hvals.
  { intros k v Hk ->. unfold TodoRoutes.updateMap in Hk.
    repeat case_bool_decide;
      repeat (apply lookup_insert_Some in Hk as [[_ ?]|[_ Hk]]; [discriminate|]);
      by eapply Hnoobj. }
  split.
  - unfold Cypher.storable. apply forallb_forall. intros [k v] Hin. simpl.
    apply list_elem_of_In, elem_of_map_to_list in Hin.
    apply negb_true_iff, bool_decide_eq_false. by eapply Hvals.
  - unfold TodoRoutes.updateMap.
    repeat case_bool_decide; by rewrite !lookup_insert_ne by discriminate.
Qed.

(** The SET of the update query, restricted to todo rows, leaves the
    categories as they are. *)
Lemma set_props_todo_rows_categories rows um s y v :
  (∀ x nd, x ∈ rows → nodes s !! x = Some nd → label_of nd = Todo) →
  category_with_id (Cypher.set_props rows (λ p, Cypher.plus_eq p um) s) y v
  ↔ category_with_id s y v.
Proof.
  intros Hrows. unfold category_with_id.
  destruct (decide (y ∈ rows)) as [Hin|Hout].
  - rewrite lookup_set_props_in; [|intros p; apply plus_eq_idemp|done].
    split.
    + intros (ny & Hy & Hl & _). destruct (nodes s !! y) as [nd|] eqn:Hnd; [|done].
      simpl in Hy. simplify_eq. simpl in Hl.
      rewrite (Hrows y nd Hin Hnd) in Hl. discriminate.
    + intros (ny & Hy & Hl & _). rewrite (Hrows y ny Hin Hy) in Hl. discriminate.
  - by rewrite lookup_set_props_notin.
Qed.

End Relink.

(** Relinking as long as the body stays inside the schema. For every
    authenticated todo update whose body passes the schema, carries no key
    outside it, contains [category_id], and finds the todo in the caller's
    scope: the answer is 200 with the updated todo, and afterwards the todo
    has a HAS_CATEGORY link to a node exactly when the given value is a
    non-empty string and that node is a category carrying it. So every earlier
    link is removed; a null (or empty) value creates no link; a value that no
    category carries creates no link either, silently. *)
Lemma update_relinks_category W clk req s c v x :
  requireAuth W req = inr c →
  TodoRoutes.updateTodoSchema (body req) = true →
  only_todo_keys (body req) = true →
  x ∈ Cypher.owned (Cypher.node_is Todo [("id", VStr (param_id req))])
                   (tenantId c) (userId c) s →
  body req !! "category_id" = Some v →
  let r := TodoRoutes.update W clk req s in
  status r.1 = 200
  ∧ (∃ x0, x0 ∈ Cypher.owned (Cypher.node_is Todo [("id", VStr (param_id req))])
                             (tenantId c) (userId c) s
           ∧ sent r.1 = TodoBody (props_at x0 r.2))
  ∧ (∀ y, Rel HAS_CATEGORY x y ∈ rels r.2
          ↔ truthy (Some v) = true ∧ category_with_id s y v).
Proof.
  intros Hauth Hschema Honly Hx Hv. cbn zeta.
  destruct (updateMap_in_schema clk (body req) Hschema Honly) as [Hstor Hnoid].
  unfold TodoRoutes.update, validate. rewrite Hauth, Hschema. cbn [and_then serve].
  unfold TodoRoutes.update_handler.
  set (rows := Cypher.owned _ _ _ s) in *.
  set (um := TodoRoutes.updateMap clk (body req)) in *.
  destruct rows as [|x0 rest] eqn:Hrows; [by apply elem_of_nil in Hx|].
  rewrite Hstor. cbn [negb].
  rewrite (bool_decide_true (is_Some _)) by (rewrite Hv; by eexists).
  rewrite Hv. cbn [default from_option].
  set (s1 := Cypher.set_props (x0 :: rest) (λ p, Cypher.plus_eq p um) s).
  set (s2 := unlink_category (param_id req) s1).
  assert (∀ z nd, z ∈ x0 :: rest → nodes s !! z = Some nd → label_of nd = Todo) as Hlab.
  { intros z nd Hz Hnd. rewrite <- Hrows in Hz. unfold rows in Hz.
    by eapply owned_rows_label. }
  assert (∃ nx1, nodes s1 !! x = Some nx1
                 ∧ Cypher.node_is Todo [("id", VStr (param_id req))] nx1 = true) as Hx1.
  { pose proof Hx as Hx'. rewrite <- Hrows in Hx'. unfold rows in Hx'.
    apply elem_of_owned in Hx' as (t & u & nx & nt & nu & Hnx & Hpx & _).
    apply node_is_prop in Hpx as [Hl Hid].
    eexists. split.
    - unfold s1. rewrite lookup_set_props_in; [|intros p; apply plus_eq_idemp|exact Hx].
      rewrite Hnx. reflexivity.
    - apply node_is_prop. simpl. split; [done|].
      rewrite lookup_plus_eq. fold um. by rewrite Hnoid. }
  destruct Hx1 as (nx1 & Hnx1 & Hpx1).
  assert (∀ y, Rel HAS_CATEGORY x y ∉ rels s2) as Hgone.
  { intros y Hin. apply elem_of_rels_unlink in Hin as [_ Hno]. apply Hno.
    split; [done|]. by exists nx1. }
  assert (nodes s2 = nodes s1) as Hn2 by reflexivity.
  split; [by destruct (truthy (Some v))|].
  split.
  { exists x0. split; [by left|].
    destruct (truthy (Some v)); cbn [fst snd sent]; unfold props_at;
      by rewrite ?nodes_link_category. }
  intros y. destruct (truthy (Some v)) eqn:Htruthy; cbn [snd].
  - rewrite elem_of_rels_link. split.
    + intros [Hin|(x' & y' & Heq & Hx' & Hy')]; [by apply Hgone in Hin|].
      injection Heq as Hxx Hyy. subst x' y'. split; [done|].
      apply elem_of_match_nodes in Hy' as (ny & Hny & Hpy).
      apply node_is_prop in Hpy as [Hl Hid].
      apply (set_props_todo_rows_categories (x0 :: rest) um s y v Hlab).
      exists ny. split; [exact Hny|done].
    + intros [_ Hcat]. right. exists x, y. split; [done|]. split.
      * apply elem_of_match_nodes. exists nx1. split; [exact Hnx1|done].
      * apply (set_props_todo_rows_categories (x0 :: rest) um s y v Hlab) in Hcat.
        destruct Hcat as (ny & Hny & Hl & Hid).
        apply elem_of_match_nodes. exists ny. split; [exact Hny|].
        by apply node_is_prop.
  - split; [intros Hin; by apply Hgone in Hin|]. intros [? _]. discriminate.
Qed.

Lemma update_relinks_category_witness :
  requireAuth Demo.world
    (Request (Demo.bearer "alice") "uuid-6" (Demo.obj [("category_id", VStr "uuid-404")]))
    = inr (Claims "uuid-1" "uuid-0" "admin")
  ∧ 10 ∈ Cypher.owned (Cypher.node_is Todo [("id", VStr "uuid-6")]) "uuid-0" "uuid-1"
                      Demo.with_todos
  ∧ Rel HAS_CATEGORY 10 9 ∈ rels Demo.with_todos
  ∧ status (TodoRoutes.update Demo.world Demo.later
              (Request (Demo.bearer "alice") "uuid-6"
                       (Demo.obj [("category_id", VStr "uuid-404")]))
              Demo.with_todos).1 = 200
  ∧ (Rel HAS_CATEGORY 10 9
       ∈ rels (TodoRoutes.update Demo.world Demo.later
                 (Request (Demo.bearer "alice") "uuid-6"
                          (Demo.obj [("category_id", VStr "uuid-404")]))
                 Demo.with_todos).2
     ↔ truthy (Some (VStr "uuid-404")) = true
       ∧ category_with_id Demo.with_todos 9 (VStr "uuid-404")).
Proof.
  assert (10 ∈ Cypher.owned (Cypher.node_is Todo [("id", VStr "uuid-6")]) "uuid-0" "uuid-1"
                            Demo.with_todos) as Hx.
  { apply (bool_decide_unpack _). vm_compute. exact I. }
  split; [reflexivity|]. split; [exact Hx|].
  split; [apply (bool_decide_unpack _); vm_compute; exact I|].
  destruct (update_relinks_category Demo.world Demo.later
              (Request (Demo.bearer "alice") "uuid-6"
                       (Demo.obj [("category_id", VStr "uuid-404")]))
              Demo.with_todos (Claims "uuid-1" "uuid-0" "admin") (VStr "uuid-404") 10
              eq_refl eq_refl eq_refl Hx eq_refl) as (Hok & _ & Hlinks).
  split; [exact Hok|]. exact (Hlinks 9).
Defined.

(** C8. The relink of PUT /api/todos/:id loses the todo when the body also
    carries an [id]. Alice updates her own todo uuid-6, which is linked to
    category node 9, with a body that passes the schema and names a category
    that does not exist: the merge of the raw body rewrites the todo's [id]
    first, the two link queries then look the todo up by the old [id] and
    find nothing, and the answer is 200 with [category_id] changed while the
    earlier HAS_CATEGORY link is still there. *)
Theorem raw_update_skips_relink :
  let req := Demo.relink_request in
  let r := TodoRoutes.update Demo.world Demo.later req Demo.with_todos in
  requireAuth Demo.world req = inr (Claims "uuid-1" "uuid-0" "admin")
  ∧ TodoRoutes.updateTodoSchema (body req) = true
  ∧ body req !! "category_id" = Some (VStr "uuid-404")
  ∧ Cypher.owned (Cypher.node_is Todo [("id", VStr (param_id req))])
                 "uuid-0" "uuid-1" Demo.with_todos = [10]
  ∧ Rel HAS_CATEGORY 10 9 ∈ rels Demo.with_todos
  ∧ (¬ ∃ y, category_with_id Demo.with_todos y (VStr "uuid-404"))
  ∧ status r.1 = 200
  ∧ sent r.1 = TodoBody (props_at 10 r.2)
  ∧ props_at 10 r.2 !! "category_id" = Some (VStr "uuid-404")
  ∧ Rel HAS_CATEGORY 10 9 ∈ rels r.2.
Proof.
  cbn zeta.
  split; [vm_compute; reflexivity|].
  split; [vm_compute; reflexivity|].
  split; [vm_compute; reflexivity|].
  split; [vm_compute; reflexivity|].
  split; [apply (bool_decide_unpack _); vm_compute; exact I|].
  split.
  { intros (y & ny & Hy & Hl & Hid).
    assert (map_Forall (λ _ n, ¬ (label_of n = Category
                                  ∧ props n !! "id" = Some (VStr "uuid-404")))
                       (nodes Demo.with_todos)) as Hall.
    { apply (bool_decide_unpack _). vm_compute. exact I. }
    apply (Hall y ny Hy). split; assumption. }
  split; [vm_compute; reflexivity|].
  split; [vm_compute; reflexivity|].
  split; [vm_compute; reflexivity|].
  apply (bool_decide_unpack _). vm_compute. exact I.
Qed.

(** ** Tenant isolation of the todo routes *)

Section Isolation.

Implicit Types (s : store) (x y : nat).

(** A todo whose owning link agrees with a stored tenant other than the
    caller's is matched by none of the scoped queries. *)
Lemma foreign_todo_not_owned px T1 U s x nd T2 :
  nodes s !! x = Some nd →
  props nd !! "tenant_id" = Some (VStr T2) → T2 ≠ T1 →
  belongs_consistent s x →
  x ∉ Cypher.owned px T1 U s.
Proof.
  intros Hx Htid Hne Hcons Hin.
  apply elem_of_owned in Hin as (t & u & nx & nt & nu & _ & _ & Hr & Ht & Hpt & _).
  apply node_is_prop in Hpt as [_ Hid].
  unfold belongs_consistent in Hcons. rewrite Forall_forall in Hcons.
  specialize (Hcons (Rel BELONGS_TO x t) Hr (conj eq_refl eq_refl)).
  simpl in Hcons. rewrite Ht, Hx in Hcons. simpl in Hcons. congruence.
Qed.

Lemma foreign_todo_no_rows T1 U s x nd T2 xid :
  nodes s !! x = Some nd →
  props nd !! "tenant_id" = Some (VStr T2) → T2 ≠ T1 →
  belongs_consistent s x → sole_bearer s x xid →
  Cypher.owned (Cypher.node_is Todo [("id", VStr xid)]) T1 U s = [].
Proof.
  intros Hx Htid Hne Hcons Hsole. apply elem_of_nil_inv. intros y Hin.
  assert (y = x) as ->.
  { apply elem_of_owned in Hin as (t & u & ny & nt & nu & Hy & Hpy & _).
    apply node_is_prop in Hpy as [Hl Hid]. by apply (Hsole y ny). }
  by eapply foreign_todo_not_owned.
Qed.

(** Whatever the store, the read routes answer only with todos that are
    linked to a tenant node carrying the token's tenantId and to a user node
    carrying the token's userId. *)
Lemma todo_reads_only_owned W req s c :
  requireAuth W req = inr c →
  (∀ l p, sent (TodoRoutes.list_all W req s).1 = TodosBody l → p ∈ l →
          ∃ x, x ∈ Cypher.owned (Cypher.node_is Todo []) (tenantId c) (userId c) s
               ∧ p = props_at x s)
  ∧ (∀ p, sent (TodoRoutes.get W req s).1 = TodoBody p →
          ∃ x, x ∈ Cypher.owned (Cypher.node_is Todo [("id", VStr (param_id req))])
                                (tenantId c) (userId c) s
               ∧ p = props_at x s).
Proof.
  intros Hauth. split.
  - unfold TodoRoutes.list_all, serve. rewrite Hauth. unfold TodoRoutes.list_handler.
    cbn [fst sent]. intros l p Hl Hp. injection Hl as <-.
    apply list_elem_of_fmap in Hp as (x & -> & Hx).
    unfold Cypher.order_by_desc in Hx. rewrite merge_sort_Permutation in Hx.
    by exists x.
  - unfold TodoRoutes.get, serve. rewrite Hauth. unfold TodoRoutes.get_handler.
    destruct (Cypher.owned _ _ _ s) as [|x xs] eqn:Hrows; cbn [fst sent]; [discriminate|].
    intros p Hp. injection Hp as <-. exists x. split; [by left|done].
Qed.

End Isolation.

Lemma foreign_update_always_not_found_fails : ¬ foreign_update_always_not_found.
Proof.
  intros H.
  specialize (H Demo.world Demo.later
                (Request (Demo.bearer "alice") "uuid-7" (Demo.obj [("title", VStr "")]))
                Demo.with_todos (Claims "uuid-1" "uuid-0" "admin") 11 Demo.bobs_todo "uuid-2"
                eq_refl).
  assert (status (TodoRoutes.update Demo.world Demo.later
                    (Request (Demo.bearer "alice") "uuid-7" (Demo.obj [("title", VStr "")]))
                    Demo.with_todos).1 = 400) as H400 by (vm_compute; reflexivity).
  rewrite H400 in H.
  assert (400 = 404 → False) as Hne by discriminate. apply Hne, H.
  - vm_compute. reflexivity.
  - reflexivity.
  - reflexivity.
  - reflexivity.
  - discriminate.
Qed.

(** C1 (amended). Take a store in which todo X carries [tenant_id] T2, its
    BELONGS_TO link leads to the tenant of that identifier, and no other todo
    carries X's [id]. For every authenticated caller whose token names a
    tenant T1 ≠ T2, whoever owns X: the todo list answered to the caller does
    not contain X; a GET on X's id is answered 404 "Todo not found"; a PUT on
    X's id is answered 404 "Todo not found or unauthorized" when its body
    passes the schema and 400 by the validation middleware otherwise. None of
    these answers carries a field of X and the store, X included, is left as
    it was. *)
Theorem tenant_isolation W clk req s c x nd T2 xid :
  requireAuth W req = inr c →
  nodes s !! x = Some nd → label_of nd = Todo →
  props nd !! "id" = Some (VStr xid) →
  props nd !! "tenant_id" = Some (VStr T2) → T2 ≠ tenantId c →
  belongs_consistent s x → sole_bearer s x xid →
  (∃ l, TodoRoutes.list_all W req s = (Response 200 (TodosBody l), s) ∧ props nd ∉ l)
  ∧ (param_id req = xid →
     TodoRoutes.get W req s = (Response 404 (Message false "Todo not found"), s)
     ∧ (TodoRoutes.updateTodoSchema (body req) = true →
        TodoRoutes.update W clk req s
          = (Response 404 (Message false "Todo not found or unauthorized"), s))
     ∧ (TodoRoutes.updateTodoSchema (body req) = false →
        TodoRoutes.update W clk req s = (Response 400 ZodIssues, s))).
Proof.
  intros Hauth Hx Hl Hid Htid Hne Hcons Hsole. split.
  - unfold TodoRoutes.list_all, serve. rewrite Hauth. unfold TodoRoutes.list_handler.
    eexists. split; [reflexivity|]. intros Hin.
    apply list_elem_of_fmap in Hin as (y & Hprops & Hy).
    unfold Cypher.order_by_desc in Hy. rewrite merge_sort_Permutation in Hy.
    assert (y = x) as ->.
    { apply elem_of_owned in Hy as (t & u & ny & nt & nu & Hny & Hpy & _).
      apply node_is_label in Hpy.
      unfold props_at in Hprops. rewrite Hny in Hprops. simpl in Hprops.
      apply (Hsole y ny Hny Hpy). by rewrite <- Hprops. }
    by eapply foreign_todo_not_owned.
  - intros Hparam.
    pose proof (foreign_todo_no_rows (tenantId c) (userId c) s x nd T2 xid
                  Hx Htid Hne Hcons Hsole) as Hrows.
    split; [|split].
    + unfold TodoRoutes.get, serve. rewrite Hauth. unfold TodoRoutes.get_handler.
      by rewrite Hparam, Hrows.
    + intros Hschema. unfold TodoRoutes.update, validate.
      rewrite Hauth, Hschema. cbn [and_then serve].
      unfold TodoRoutes.update_handler. by rewrite Hparam, Hrows.
    + intros Hschema. unfold TodoRoutes.update, validate.
      rewrite Hauth, Hschema. reflexivity.
Qed.

Lemma tenant_isolation_witness :
  requireAuth Demo.world (Request (Demo.bearer "alice") "uuid-7" ∅)
    = inr (Claims "uuid-1" "uuid-0" "admin")
  ∧ nodes Demo.with_todos !! 11 = Some Demo.bobs_todo
  ∧ belongs_consistent Demo.with_todos 11
  ∧ sole_bearer Demo.with_todos 11 "uuid-7"
  ∧ (∃ l, TodoRoutes.list_all Demo.world (Request (Demo.bearer "alice") "uuid-7" ∅)
            Demo.with_todos = (Response 200 (TodosBody l), Demo.with_todos)
          ∧ props Demo.bobs_todo ∉ l)
  ∧ TodoRoutes.get Demo.world (Request (Demo.bearer "alice") "uuid-7" ∅) Demo.with_todos
    = (Response 404 (Message false "Todo not found"), Demo.with_todos)
  ∧ TodoRoutes.update Demo.world Demo.later (Request (Demo.bearer "alice") "uuid-7" ∅)
      Demo.with_todos
    = (Response 404 (Message false "Todo not found or unauthorized"), Demo.with_todos).
Proof.
  assert (nodes Demo.with_todos !! 11 = Some Demo.bobs_todo) as Hx
    by (vm_compute; reflexivity).
  assert (belongs_consistent Demo.with_todos 11) as Hcons.
  { apply (bool_decide_unpack _). vm_compute. exact I. }
  assert (sole_bearer Demo.with_todos 11 "uuid-7") as Hsole.
  { apply (bool_decide_unpack _). vm_compute. exact I. }
  destruct (tenant_isolation Demo.world Demo.later
              (Request (Demo.bearer "alice") "uuid-7" ∅) Demo.with_todos
              (Claims "uuid-1" "uuid-0" "admin") 11 Demo.bobs_todo "uuid-2" "uuid-7"
              eq_refl Hx eq_refl eq_refl eq_refl) as (Hlist & Hone);
    [discriminate | exact Hcons | exact Hsole |].
  destruct (Hone eq_refl) as (Hget & Hput & _).
  split; [reflexivity|]. split; [exact Hx|]. split; [exact Hcons|]. split; [exact Hsole|].
  split; [exact Hlist|]. split; [exact Hget|]. exact (Hput eq_refl).
Defined.

(** How the raw merge of the PUT handler leaves the stores covered above. Once
    alice has rewritten the [id] of her own todo to the [id] of bob's todo,
    which lives in another tenant, bob's todo is no longer the sole bearer of
    its identifier: alice's GET on that identifier answers 200 with her own
    todo, and her PUT with [category_id: null] on that identifier answers 200
    and deletes the HAS_CATEGORY link of bob's todo. *)
Remark raw_update_defeats_scoping :
  status (TodoRoutes.update Demo.world Demo.later
            (Request (Demo.bearer "alice") "uuid-6" (Demo.obj [("id", VStr "uuid-7")]))
            Demo.with_todos).1 = 200
  ∧ ¬ sole_bearer Demo.after_id_rewrite 11 "uuid-7"
  ∧ status (TodoRoutes.get Demo.world (Request (Demo.bearer "alice") "uuid-7" ∅)
              Demo.after_id_rewrite).1 = 200
  ∧ sent (TodoRoutes.get Demo.world (Request (Demo.bearer "alice") "uuid-7" ∅)
            Demo.after_id_rewrite).1 = TodoBody (props_at 10 Demo.after_id_rewrite)
  ∧ Rel HAS_CATEGORY 11 9 ∈ rels Demo.after_id_rewrite
  ∧ status (TodoRoutes.update Demo.world Demo.later
              (Request (Demo.bearer "alice") "uuid-7" (Demo.obj [("category_id", VNull)]))
              Demo.after_id_rewrite).1 = 200
  ∧ Rel HAS_CATEGORY 11 9
      ∉ rels (TodoRoutes.update Demo.world Demo.later
                (Request (Demo.bearer "alice") "uuid-7" (Demo.obj [("category_id", VNull)]))
                Demo.after_id_rewrite).2.
Proof.
  split; [vm_compute; reflexivity|].
  split; [apply (bool_decide_unpack _); vm_compute; exact I|].
  split; [vm_compute; reflexivity|].
  split; [vm_compute; reflexivity|].
  split; [apply (bool_decide_unpack _); vm_compute; exact I|].
  split; [vm_compute; reflexivity|].
  apply (bool_decide_unpack _). vm_compute. exact I.
Qed.

(** The happy paths of the deployment: both tenants are provisioned with 201,
    carol is created by alice, and all three todos are listed only to their
    creators. *)
Example deployment_runs :
  status (TenantRoutes.create Demo.world Demo.clk Demo.acme_request Demo.seeded).1 = 201
  ∧ status (TenantRoutes.create Demo.world Demo.clk Demo.beta_request Demo.with_acme).1 = 201
  ∧ status (UserRoutes.create Demo.world Demo.clk Demo.carol_request Demo.with_beta).1 = 201
  ∧ (TodoRoutes.list_all Demo.world (Request (Demo.bearer "bob") "" ∅) Demo.with_todos).1
    = Response 200 (TodosBody [props Demo.bobs_todo])
  ∧ (TenantRoutes.lookup (Request None "" (Demo.obj [("tenantName", VStr "acme")]))
       Demo.with_todos).1
    = Response 200 (LookupBody (VStr "uuid-0") "/login?tenant=uuid-0").
Proof.
  split; [vm_compute; reflexivity|]. split; [vm_compute; reflexivity|].
  split; [vm_compute; reflexivity|]. split; vm_compute; reflexivity.
Qed.

(** * Further properties of the handlers *)

(** ** The middlewares *)

Section Bearer.

Lemma substring_all (t : string) : String.substring 0 (String.length t) t = t.
Proof. induction t as [|c t IH]; simpl; [done|by rewrite IH]. Qed.

Lemma until_space_app tok rest :
  no_space tok = true → until_space (tok +:+ String " " rest) = tok.
Proof.
  induction tok as [|c tok IH]; simpl; [done|].
  unfold no_space. simpl. intros [Hc Htok]%andb_prop.
  destruct (Ascii.eqb c " ") eqn:E; [done|].
  f_equal. by apply IH.
Qed.

Lemma until_space_id tok : no_space tok = true → until_space tok = tok.
Proof.
  induction tok as [|c tok IH]; simpl; [done|].
  unfold no_space. simpl. intros [Hc Htok]%andb_prop.
  destruct (Ascii.eqb c " ") eqn:E; [done|].
  f_equal. by apply IH.
Qed.

Lemma bearer_token_plain tok :
  no_space tok = true → bearer_token ("Bearer " +:+ tok) = tok.
Proof.
  intros H. unfold bearer_token. simpl. rewrite Nat.sub_0_r, substring_all.
  by apply until_space_id.
Qed.

Lemma bearer_token_first tok rest :
  no_space tok = true → bearer_token ("Bearer " +:+ tok +:+ " " +:+ rest) = tok.
Proof.
  intros H. unfold bearer_token. simpl. rewrite Nat.sub_0_r, substring_all.
  by apply until_space_app.
Qed.

Lemma prefix_bearer t : String.prefix "Bearer " ("Bearer " +:+ t) = true.
Proof. vm_compute. by destruct t. Qed.

Lemma or_tenantA_truthy v : truthy (Some (or_tenantA v)) = true.
Proof.
  unfold or_tenantA. destruct (truthy v) eqn:E; [|done].
  by destruct v.
Qed.

End Bearer.

(** X1. [requireAuth] hands to [jwt.verify] the first space-separated segment
    after ["Bearer "]: for a token without a space, the header
    ["Bearer <token>"] and the header ["Bearer <token> <anything>"] are both
    answered by the verdict on the token alone, the payload when it verifies
    and 401 "Unauthorized: Invalid token" when it does not. *)
Theorem requireAuth_reads_first_segment W tok rest pid b :
  no_space tok = true →
  let verdict :=
    match jwt_verify W tok with
    | Some c => inr c
    | None => inl (Response 401 (Message false "Unauthorized: Invalid token"))
    end in
  requireAuth W (Request (Some ("Bearer " +:+ tok)) pid b) = verdict
  ∧ requireAuth W (Request (Some ("Bearer " +:+ tok +:+ " " +:+ rest)) pid b) = verdict.
Proof.
  intros H verdict. unfold requireAuth. cbn [authorization].
  rewrite !prefix_bearer, (bearer_token_plain _ H), (bearer_token_first _ _ H).
  split; reflexivity.
Qed.

Lemma requireAuth_reads_first_segment_witness :
  no_space "carol" = true
  ∧ requireAuth Demo.world (Request (Some "Bearer carol trailing words") "" ∅)
    = inr (Claims "uuid-4" "uuid-0" "member").
Proof.
  split; [reflexivity|].
  exact (proj2 (requireAuth_reads_first_segment Demo.world "carol" "trailing words" "" ∅
                  eq_refl)).
Defined.

(** X2. A request that [requireAuth] turns away never reaches a handler: on
    every route other than tenant lookup, tenant creation and login the answer
    is the 401 of the middleware and the store is left as it was. *)
Theorem unauthenticated_request_changes_nothing W clk e req s r :
  e ∉ [POST_tenant_lookup; POST_tenant_create; POST_user_login] →
  requireAuth W req = inl r →
  api W clk e req s = (r, s) ∧ status r = 401.
Proof.
  intros He Hr. split; [|by eapply requireAuth_rejects].
  destruct e; try (exfalso; apply He; set_solver);
    unfold api, TodoRoutes.create, TodoRoutes.list_all, TodoRoutes.get, TodoRoutes.update,
      TodoRoutes.remove, CategoryRoutes.create, CategoryRoutes.list_all, CategoryRoutes.get,
      CategoryRoutes.update, CategoryRoutes.remove, UserRoutes.create;
    rewrite Hr; reflexivity.
Qed.

Lemma unauthenticated_request_changes_nothing_witness :
  requireAuth Demo.world (Request (Some "Basic alice") "uuid-6" ∅)
    = inl (Response 401 (Message false "Unauthorized: Missing token"))
  ∧ api Demo.world Demo.clk DELETE_todo (Request (Some "Basic alice") "uuid-6" ∅)
        Demo.with_todos
    = (Response 401 (Message false "Unauthorized: Missing token"), Demo.with_todos).
Proof.
  split; [reflexivity|].
  refine (proj1 (unauthenticated_request_changes_nothing Demo.world Demo.clk DELETE_todo
                   (Request (Some "Basic alice") "uuid-6" ∅) Demo.with_todos _ _ eq_refl)).
  apply (bool_decide_unpack _). vm_compute. exact I.
Defined.

(** X3. [tenantMiddleware] never leaves [req.tenantId] empty: it is the
    header [x-tenant-id] on the path [/login] and the [tenantId] of the
    unverified token payload elsewhere, and ["tenantA"] whenever that
    value is missing or falsy. Off [/login] the header [x-tenant-id] is not
    read, on [/login] the [Authorization] header is not read. *)
Theorem tenantMiddleware_sets_a_tenant decode req :
  truthy (Some (tenantMiddleware decode req)) = true
  ∧ (req_path req ≠ "/login" →
     ∀ h, tenantMiddleware decode (Incoming (req_path req) h (authorization_header req))
          = tenantMiddleware decode req)
  ∧ (req_path req = "/login" →
     ∀ a, tenantMiddleware decode (Incoming (req_path req) (x_tenant_id req) a)
          = tenantMiddleware decode req).
Proof.
  unfold tenantMiddleware. cbn [req_path x_tenant_id authorization_header].
  split; [|split].
  - destruct (String.eqb (req_path req) "/login"); [apply or_tenantA_truthy|].
    destruct (authorization_header req) as [h|]; [|done].
    destruct (String.prefix "Bearer " h); [apply or_tenantA_truthy|done].
  - intros Hp h. apply String.eqb_neq in Hp. by rewrite Hp.
  - intros Hp a. apply String.eqb_eq in Hp. by rewrite Hp.
Qed.

Lemma tenantMiddleware_sets_a_tenant_witness :
  "/api/user/login" ≠ "/login"
  ∧ tenantMiddleware (λ _, None) (Incoming "/api/user/login" (Some "acme") None)
    = VStr "tenantA".
Proof.
  split; [discriminate|].
  etrans; [|reflexivity].
  exact (proj1 (proj2 (tenantMiddleware_sets_a_tenant (λ _, None)
                         (Incoming "/api/user/login" None None)))
               ltac:(discriminate) (Some "acme")).
Defined.

(** ** Requests that write nothing *)

Section Quiet.

Implicit Types (s : store) (r : response * store).

(** An answer other than 200 and 201 comes with the store it started from. *)
Let quiet (r : response * store) (s : store) : Prop :=
  status r.1 ≠ 200 → status r.1 ≠ 201 → r.2 = s.

Lemma serve_quiet {A} (g : guard A) h s :
  (∀ a, quiet (h a s) s) → quiet (serve g h s) s.
Proof. intros H. destruct g as [r|a]; [by intros ??|apply H]. Qed.

Lemma length_zero_nil {A} (l : list A) : Nat.eqb (length l) 0 = true → l = [].
Proof. by destruct l. Qed.

Lemma create_owned_none W l mk rows s : (create_owned W l mk rows s).1 = [] → rows = [].
Proof. by destruct rows. Qed.

Lemma add_users_none W clk b hashed ts s :
  (UserRoutes.add_users W clk b hashed ts s).1 = [] → ts = [].
Proof. by destruct ts. Qed.

Lemma todo_create_quiet W clk req s : quiet (TodoRoutes.create W clk req s) s.
Proof.
  apply serve_quiet. intros c. unfold quiet, TodoRoutes.create_handler.
  case_bool_decide; [done|].
  destruct (create_owned W Todo _ _ s).1 eqn:E; simpl; [|done].
  apply create_owned_none in E. by rewrite E.
Qed.

Lemma todo_update_quiet W clk req s : quiet (TodoRoutes.update W clk req s) s.
Proof.
  apply serve_quiet. intros c. unfold quiet, TodoRoutes.update_handler.
  destruct (Cypher.owned _ _ _ s); [done|].
  by destruct (negb _).
Qed.

Lemma todo_remove_quiet W req s : quiet (TodoRoutes.remove W req s) s.
Proof.
  apply serve_quiet. intros c. unfold quiet, TodoRoutes.remove_handler.
  destruct (Nat.eqb _ 0) eqn:E; simpl; [|done].
  apply length_zero_nil in E. rewrite E. intros _ _. apply detach_delete_nil.
Qed.

Lemma category_create_quiet W clk req s : quiet (CategoryRoutes.create W clk req s) s.
Proof.
  apply serve_quiet. intros c. unfold quiet, CategoryRoutes.create_handler.
  case_bool_decide; [done|].
  destruct (create_owned W Category _ _ s).1 eqn:E; simpl; [|done].
  apply create_owned_none in E. by rewrite E.
Qed.

Lemma category_update_quiet W req s : quiet (CategoryRoutes.update W req s) s.
Proof.
  apply serve_quiet. intros c. unfold quiet, CategoryRoutes.update_handler.
  destruct (Cypher.owned _ _ _ s); [done|].
  by destruct (negb _).
Qed.

Lemma user_create_quiet W clk req s : quiet (UserRoutes.create W clk req s) s.
Proof.
  apply serve_quiet. intros c. unfold quiet, UserRoutes.create_handler.
  destruct (negb _); [done|].
  destruct (UserRoutes.add_users W clk _ _ _ s).1 eqn:E; simpl; [|done].
  apply add_users_none in E. by rewrite E.
Qed.

Lemma tenant_create_quiet W clk req s : quiet (TenantRoutes.create W clk req s) s.
Proof.
  intros H200 H201. destruct (create_cases W clk req s) as [[? _]|[? _]]; done.
Qed.

Lemma api_quiet W clk e req s : e ≠ DELETE_category → quiet (api W clk e req s) s.
Proof.
  intros He. destruct e; try done.
  - intros _ _. apply tenant_lookup_same.
  - apply tenant_create_quiet.
  - apply user_create_quiet.
  - intros _ _. apply user_login_same.
  - apply todo_create_quiet.
  - intros _ _. apply todo_list_same.
  - intros _ _. apply todo_get_same.
  - apply todo_update_quiet.
  - apply todo_remove_quiet.
  - apply category_create_quiet.
  - intros _ _. apply category_list_same.
  - intros _ _. apply category_get_same.
  - apply category_update_quiet.
Qed.

End Quiet.

(** X4. The six reading routes (tenant lookup, login, and the list and get
    routes of todos and categories) return the store they were given,
    whatever the request and whatever they answer. *)
Theorem reading_routes_write_nothing W clk e req s :
  e ∈ [POST_tenant_lookup; POST_user_login; GET_todos; GET_todo;
       GET_categories; GET_category] →
  (api W clk e req s).2 = s.
Proof.
  rewrite !elem_of_cons, elem_of_nil.
  intros [->|[->|[->|[->|[->|[->|[]]]]]]]; simpl.
  - apply tenant_lookup_same.
  - apply user_login_same.
  - apply todo_list_same.
  - apply todo_get_same.
  - apply category_list_same.
  - apply category_get_same.
Qed.

Lemma reading_routes_write_nothing_witness :
  (api Demo.world Demo.clk GET_todos (Request (Demo.bearer "bob") "" ∅) Demo.with_todos).2
  = Demo.with_todos.
Proof.
  apply (reading_routes_write_nothing Demo.world Demo.clk GET_todos).
  apply (bool_decide_unpack _). vm_compute. exact I.
Defined.

(** X5. Failure is clean on every route but one: whenever a route other than
    DELETE /api/categories/:id answers with a status other than 200 and 201
    (400, 401, 403, 404 or 500), the store is exactly what it was before the
    request. *)
Theorem refused_request_changes_nothing W clk e req s :
  e ≠ DELETE_category →
  status (api W clk e req s).1 ≠ 200 →
  status (api W clk e req s).1 ≠ 201 →
  (api W clk e req s).2 = s.
Proof. intros He. by apply api_quiet. Qed.

Lemma refused_request_changes_nothing_witness :
  status (api Demo.world Demo.clk DELETE_todo
            (Request (Demo.bearer "alice") "uuid-7" ∅) Demo.with_todos).1 = 404
  ∧ (api Demo.world Demo.clk DELETE_todo
       (Request (Demo.bearer "alice") "uuid-7" ∅) Demo.with_todos).2 = Demo.with_todos.
Proof.
  split; [vm_compute; reflexivity|].
  apply (refused_request_changes_nothing Demo.world Demo.clk DELETE_todo).
  - discriminate.
  - vm_compute. discriminate.
  - vm_compute. discriminate.
Defined.

(** ** Tenant lookup and provisioning *)

Section TenantFacts.

Implicit Types (s : store) (b : gmap string value) (x : nat).

Lemma required_str lo hi o :
  Zod.required (Zod.str lo hi) o = true →
  ∃ v, o = Some (VStr v) ∧ (lo ≤ String.length v)%nat
       ∧ from_option (λ h, (String.length v ≤ h)%nat) True hi.
Proof.
  destruct o as [[| | |v|]|]; try discriminate. simpl. intros [H1 H2]%andb_prop.
  exists v. split; [done|]. split; [by apply Nat.leb_le|].
  destruct hi as [h|]; [|done]. by apply Nat.leb_le.
Qed.

Lemma str_required lo hi v :
  (lo ≤ String.length v)%nat → from_option (λ h, (String.length v ≤ h)%nat) True hi →
  Zod.required (Zod.str lo hi) (Some (VStr v)) = true.
Proof.
  intros H1 H2. simpl. apply andb_true_intro. split; [by apply Nat.leb_le|].
  destruct hi as [h|]; [|done]. by apply Nat.leb_le.
Qed.

Lemma required_email W o :
  Zod.required (Zod.email W) o = true → ∃ e, o = Some (VStr e) ∧ zod_email W e = true.
Proof. destruct o as [[| | |v|]|]; try discriminate. simpl. eauto. Qed.

(** A scan of all nodes with a filter. *)
Lemma elem_of_scan (f : node → bool) s x :
  x ∈ List.filter (λ y, from_option f false (nodes s !! y)) (map_to_list (nodes s)).*1
  ↔ ∃ nd, nodes s !! x = Some nd ∧ f nd = true.
Proof.
  rewrite list_elem_of_In, filter_In, <- list_elem_of_In. split.
  - intros [_ H]. destruct (nodes s !! x) as [nd|]; [eauto|discriminate].
  - intros (nd & Hx & Hf). split; [|by rewrite Hx].
    apply list_elem_of_fmap. exists (x, nd). split; [done|]. by apply elem_of_map_to_list.
Qed.

(** What the lookup handler answers. *)
Lemma lookup_handler_cases req s :
  let v := field (body req) "tenantName" in
  (¬ active_tenant_named s v
   ∧ TenantRoutes.lookup_handler req s = (Response 404 (Message false "Tenant not found"), s))
  ∨ (∃ x nd, nodes s !! x = Some nd ∧ label_of nd = Tenant
       ∧ (props nd !! "name" = Some v ∨ props nd !! "slug" = Some v)
       ∧ props nd !! "isActive" = Some (VBool true)
       ∧ TenantRoutes.lookup_handler req s
         = (Response 200 (LookupBody (Cypher.prop "id" nd)
                            ("/login?tenant=" +:+ template (props nd !! "id"))), s)).
Proof.
  cbn zeta. unfold TenantRoutes.lookup_handler.
  set (f := λ nd : node,
         bool_decide (label_of nd = Tenant)
         && (bool_decide (props nd !! "name" = Some (field (body req) "tenantName"))
             || bool_decide (props nd !! "slug" = Some (field (body req) "tenantName")))
         && bool_decide (props nd !! "isActive" = Some (VBool true))).
  destruct (List.filter _ _) as [|x rows] eqn:Hrows.
  - left. split; [|done]. intros (x & nd & Hx & Hl & Hn & Ha).
    assert (x ∈ List.filter (λ y, from_option f false (nodes s !! y))
                            (map_to_list (nodes s)).*1) as Hin.
    { apply elem_of_scan. exists nd. split; [done|]. unfold f.
      rewrite !andb_true_iff, orb_true_iff, !bool_decide_eq_true. done. }
    rewrite Hrows in Hin. by apply elem_of_nil in Hin.
  - right.
    assert (x ∈ List.filter (λ y, from_option f false (nodes s !! y))
                            (map_to_list (nodes s)).*1) as Hin.
    { rewrite Hrows. by left. }
    apply elem_of_scan in Hin as (nd & Hx & Hf). unfold f in Hf.
    rewrite !andb_true_iff, orb_true_iff, !bool_decide_eq_true in Hf.
    destruct Hf as [[Hl Hn] Ha].
    exists x, nd. split; [done|]. split; [done|]. split; [done|]. split; [done|].
    unfold props_at. rewrite Hx. reflexivity.
Qed.

Lemma lookup_found req s :
  TenantRoutes.lookupSchema (body req) = true →
  active_tenant_named s (field (body req) "tenantName") →
  status (TenantRoutes.lookup req s).1 = 200.
Proof.
  intros Hs Ha. unfold TenantRoutes.lookup, serve, validate. rewrite Hs.
  destruct (lookup_handler_cases req s) as [[Hno _]|(x & nd & _ & _ & _ & _ & ->)]; done.
Qed.

End TenantFacts.

(** X6. Tenant lookup, for a body that passes the schema: when no active
    tenant has the given [tenantName] as its name or as its slug the answer is
    404 "Tenant not found"; otherwise it is 200 with the [id] of an active
    tenant of that name or slug, and the redirect is ["/login?tenant="]
    followed by that [id] as a template literal prints it: the string itself,
    the digits of a number, [undefined] when the tenant has no [id].
    Inactive tenants are never returned. *)
Theorem tenant_lookup_outcome req s :
  TenantRoutes.lookupSchema (body req) = true →
  let v := field (body req) "tenantName" in
  (¬ active_tenant_named s v →
   TenantRoutes.lookup req s = (Response 404 (Message false "Tenant not found"), s))
  ∧ (active_tenant_named s v →
     ∃ x nd, nodes s !! x = Some nd ∧ label_of nd = Tenant
       ∧ (props nd !! "name" = Some v ∨ props nd !! "slug" = Some v)
       ∧ props nd !! "isActive" = Some (VBool true)
       ∧ TenantRoutes.lookup req s
         = (Response 200 (LookupBody (Cypher.prop "id" nd)
                            ("/login?tenant=" +:+ template (props nd !! "id"))), s)).
Proof.
  intros Hs v. unfold TenantRoutes.lookup, serve, validate. rewrite Hs.
  destruct (lookup_handler_cases req s) as [[Hno ->]|(x & nd & Hx & Hl & Hn & Ha & ->)].
  - split; [done|]. intros H. by destruct Hno.
  - split; [intros Hno; destruct Hno; by exists x, nd|].
    intros _. exists x, nd. done.
Qed.

Lemma tenant_lookup_outcome_witness :
  let req := Request None "" (Demo.obj [("tenantName", VStr "Gamma")]) in
  TenantRoutes.lookupSchema (body req) = true
  ∧ ¬ active_tenant_named Demo.base (field (body req) "tenantName")
  ∧ TenantRoutes.lookup req Demo.base
    = (Response 404 (Message false "Tenant not found"), Demo.base).
Proof.
  intros req.
  assert (TenantRoutes.lookupSchema (body req) = true) as Hs by (vm_compute; reflexivity).
  assert (¬ active_tenant_named Demo.base (field (body req) "tenantName")) as Hno.
  { intros (x & nd & Hx & Hl & Hn & Ha).
    assert (map_Forall (λ _ n, ¬ (label_of n = Tenant
                                  ∧ (props n !! "name" = Some (field (body req) "tenantName")
                                     ∨ props n !! "slug"
                                       = Some (field (body req) "tenantName"))))
                       (nodes Demo.base)) as Hall.
    { apply (bool_decide_unpack _). vm_compute. exact I. }
    apply (Hall x nd Hx). split; assumption. }
  split; [exact Hs|]. split; [exact Hno|].
  exact (proj1 (tenant_lookup_outcome req Demo.base Hs) Hno).
Defined.

Section TenantCreated.

Context (W : World) (clk : clock).

Implicit Types (s : store) (req : request) (b p : gmap string value).

Lemma lookup_pick keys p k :
  pick keys p !! k = if bool_decide (k ∈ keys) then p !! k else None.
Proof.
  unfold pick. induction keys as [|a keys IH]; [done|]. cbn [omap list_omap].
  destruct (decide (k = a)) as [->|Hne].
  - rewrite bool_decide_true by left.
    destruct (p !! a) as [v|] eqn:Ha; cbn [fmap option_fmap option_map].
    + cbn [list_to_map foldr curry fst snd uncurry]. by rewrite lookup_insert_eq.
    + rewrite IH. by case_bool_decide.
  - assert (bool_decide (k ∈ a :: keys) = bool_decide (k ∈ keys)) as ->.
    { apply bool_decide_ext. rewrite elem_of_cons. split; [by intros [?|?]|by right]. }
    destruct (p !! a) as [v|] eqn:Ha; cbn [fmap option_fmap option_map]; [|done].
    cbn [list_to_map foldr curry fst snd uncurry]. by rewrite lookup_insert_ne.
Qed.

Lemma new_tenant_lookup b tid :
  let p := Cypher.plus_eq ∅ (TenantRoutes.new_tenant b tid) in
  p !! "id" = Some (VStr tid)
  ∧ p !! "isActive" = Some (VBool true)
  ∧ (∀ v, b !! "name" = Some (VStr v) → p !! "name" = Some (VStr v))
  ∧ (∀ v, b !! "slug" = Some (VStr v) → p !! "slug" = Some (VStr v)).
Proof.
  cbn zeta. rewrite !lookup_plus_eq. unfold TenantRoutes.new_tenant, field. simpl.
  split; [by rewrite lookup_insert_eq|].
  split; [rewrite !lookup_insert_ne by discriminate; by rewrite lookup_insert_eq|].
  split; intros v Hv; rewrite Hv; rewrite !lookup_insert_ne by discriminate;
    by rewrite lookup_insert_eq.
Qed.

Lemma new_admin_lookup b hashed tid uid :
  let p := Cypher.plus_eq ∅ (TenantRoutes.new_admin clk b hashed tid uid) in
  p !! "id" = Some (VStr uid)
  ∧ p !! "tenant_id" = Some (VStr tid)
  ∧ p !! "password" = Some (VStr hashed)
  ∧ p !! "role" = Some (VStr "admin")
  ∧ (∀ v, b !! "email" = Some (VStr v) → p !! "email" = Some (VStr v)).
Proof.
  cbn zeta. rewrite !lookup_plus_eq. unfold TenantRoutes.new_admin, field. simpl.
  split; [by rewrite lookup_insert_eq|].
  split; [rewrite !lookup_insert_ne by discriminate; by rewrite lookup_insert_eq|].
  split; [rewrite !lookup_insert_ne by discriminate; by rewrite lookup_insert_eq|].
  split; [rewrite !lookup_insert_ne by discriminate; by rewrite lookup_insert_eq|].
  intros v Hv. rewrite Hv. rewrite !lookup_insert_ne by discriminate.
  by rewrite lookup_insert_eq.
Qed.

(** A 201 of the creation handler: the checks passed, and the answer shows
    the tenant and the admin of one complete provisioning. *)
Lemma create_handler_created req s :
  let b := body req in
  let hashed := hashPassword W (as_string (field b "password")) in
  let r := TenantRoutes.create_handler W clk req s in
  status r.1 = 201 →
  ¬ slug_or_email_taken s b
  ∧ ∃ i t u, provisioned clk b hashed s r.2 i t u
      ∧ sent r.1 = TenantBody (pick ["id"; "name"; "slug"] (props_at t r.2))
                              (pick ["id"; "email"; "role"] (props_at u r.2)).
Proof.
  cbn zeta. unfold TenantRoutes.create_handler.
  destruct (negb _) eqn:Hdup; [discriminate|].
  destruct (Nat.eqb (length (Cypher.match_nodes InviteKey
                               [("key", field (body req) "inviteKey"); ("isUsed", VBool false)]
                               s)) 0) eqn:Hkey; [discriminate|].
  set (b := body req). set (hashed := hashPassword W _).
  set (keys := Cypher.match_nodes InviteKey [("key", field b "inviteKey")] s).
  pose proof (provision_spec W clk b hashed keys s (NoDup_match_nodes _ _ _)) as Hspec.
  cbn zeta in Hspec.
  destruct Hspec as (_ & _ & _ & Hall & _).
  { intros i Hi. apply elem_of_match_nodes in Hi as (nd & Hx & Hp).
    exists nd. split; [done|]. by eapply node_is_label. }
  set (res := TenantRoutes.provision W clk b hashed keys s) in *.
  destruct res.1 as [|[t u] l] eqn:Hres; [discriminate|]. intros _.
  split.
  - apply dup_check_nil. apply negb_false_iff in Hdup. by apply length_zero_nil in Hdup.
  - apply Forall2_cons_inv_r in Hall as (i & keys' & Hp & _ & _).
    exists i, t, u. done.
Qed.

Lemma tenant_created req s :
  let b := body req in
  let hashed := hashPassword W (as_string (field b "password")) in
  let r := TenantRoutes.create W clk req s in
  status r.1 = 201 →
  TenantRoutes.createSchema W b = true
  ∧ ¬ slug_or_email_taken s b
  ∧ all_committed clk b hashed s r.2
  ∧ ∃ i t u, provisioned clk b hashed s r.2 i t u
      ∧ sent r.1 = TenantBody (pick ["id"; "name"; "slug"] (props_at t r.2))
                              (pick ["id"; "email"; "role"] (props_at u r.2)).
Proof.
  cbn zeta. unfold TenantRoutes.create, serve, validate.
  destruct (TenantRoutes.createSchema W (body req)); [|discriminate].
  intros H201. split; [done|].
  destruct (create_handler_created req s H201) as [Hfree Hsent].
  split; [done|]. split; [|done].
  destruct (create_handler_cases W clk req s) as [[_ H400]|(_ & _ & Hall)]; [|done].
  congruence.
Qed.

End TenantCreated.

(** The three checks are all there is between a request and its 201. *)
Lemma tenant_create_accepts W clk req s :
  TenantRoutes.createSchema W (body req) = true →
  ¬ slug_or_email_taken s (body req) →
  unused_key s (field (body req) "inviteKey") →
  status (TenantRoutes.create W clk req s).1 = 201.
Proof.
  intros Hs Hfree Hkey.
  unfold TenantRoutes.create, serve, validate. rewrite Hs.
  unfold TenantRoutes.create_handler.
  apply dup_check_nil in Hfree. rewrite Hfree. cbn [length Nat.eqb negb].
  destruct (Cypher.match_nodes InviteKey
              [("key", field (body req) "inviteKey"); ("isUsed", VBool false)] s)
    as [|k ks] eqn:Hk.
  { apply key_check_nil in Hk. by destruct Hk. }
  cbn [length Nat.eqb].
  destruct Hkey as (x & nd & Hx & Hl & Hkey & _).
  assert (x ∈ Cypher.match_nodes InviteKey [("key", field (body req) "inviteKey")] s) as Hin.
  { apply elem_of_match_nodes. exists nd. split; [done|]. by apply node_is_prop. }
  destruct (Cypher.match_nodes InviteKey [("key", field (body req) "inviteKey")] s)
    as [|i rest]; [by apply elem_of_nil in Hin|].
  cbn [TenantRoutes.provision fst snd].
  by destruct (TenantRoutes.provision_row W clk (body req) _ s i).1.
Qed.

(** X7. Tenant creation succeeds whenever its three checks pass: a body that
    passes the schema, with a slug that no tenant has and an e-mail that no
    user has, and an invite key that names an unused InviteKey, is answered
    with 201. *)
Theorem tenant_create_succeeds W clk req s :
  TenantRoutes.createSchema W (body req) = true →
  ¬ slug_or_email_taken s (body req) →
  unused_key s (field (body req) "inviteKey") →
  status (TenantRoutes.create W clk req s).1 = 201.
Proof. intros Hs Hfree Hkey. by apply tenant_create_accepts. Qed.

Lemma tenant_create_succeeds_witness :
  TenantRoutes.createSchema Demo.world (body Demo.beta_request) = true
  ∧ ¬ slug_or_email_taken Demo.with_acme (body Demo.beta_request)
  ∧ unused_key Demo.with_acme (field (body Demo.beta_request) "inviteKey")
  ∧ status (TenantRoutes.create Demo.world Demo.clk Demo.beta_request Demo.with_acme).1 = 201.
Proof.
  assert (TenantRoutes.createSchema Demo.world (body Demo.beta_request) = true) as Hs
    by (vm_compute; reflexivity).
  assert (¬ slug_or_email_taken Demo.with_acme (body Demo.beta_request)) as Hfree.
  { apply dup_check_nil. vm_compute. reflexivity. }
  assert (unused_key Demo.with_acme (field (body Demo.beta_request) "inviteKey")) as Hkey.
  { destruct (decide (unused_key Demo.with_acme
                        (field (body Demo.beta_request) "inviteKey"))) as [H|H]; [done|].
    apply key_check_nil in H. vm_compute in H. discriminate. }
  split; [exact Hs|]. split; [exact Hfree|]. split; [exact Hkey|].
  exact (tenant_create_succeeds Demo.world Demo.clk Demo.beta_request Demo.with_acme
           Hs Hfree Hkey).
Defined.

(** X8. A tenant that was just provisioned can be looked up: after a 201 of
    tenant creation, a lookup whose [tenantName] is the slug or the name of
    the creation request answers 200. *)
Theorem created_tenant_is_found W clk req s lreq :
  status (TenantRoutes.create W clk req s).1 = 201 →
  body lreq !! "tenantName" = body req !! "slug"
  ∨ body lreq !! "tenantName" = body req !! "name" →
  status (TenantRoutes.lookup lreq (TenantRoutes.create W clk req s).2).1 = 200.
Proof.
  intros H201 Hname.
  destruct (tenant_created W clk req s H201) as (Hs & _ & _ & i & t & u & Hprov & _).
  set (s' := (TenantRoutes.create W clk req s).2) in *.
  unfold TenantRoutes.createSchema in Hs. rewrite !andb_true_iff in Hs.
  destruct Hs as [[[[[Hn Hslug] _] _] _] _].
  apply required_str in Hn as (name & Hn & Hn1 & Hn2).
  assert (∃ slug, body req !! "slug" = Some (VStr slug)
                  ∧ (1 ≤ String.length slug)%nat ∧ (String.length slug ≤ 100)%nat)
    as (slug & Hsl & Hsl1 & Hsl2).
  { destruct (body req !! "slug") as [v|]; [|discriminate]. simpl in Hslug.
    apply andb_prop in Hslug as [Hstr _].
    destruct (required_str 1 (Some 100) (Some v) Hstr) as (slug & Hv & ? & ?).
    exists slug. by simplify_eq. }
  destruct Hprov as (tid & uid & ki & _ & _ & _ & _ & Ht & _).
  destruct (new_tenant_lookup (body req) tid) as (_ & Hact & Hpn & Hps).
  assert (∃ v, body lreq !! "tenantName" = Some (VStr v)
               ∧ (1 ≤ String.length v)%nat ∧ (String.length v ≤ 100)%nat
               ∧ (Cypher.plus_eq ∅ (TenantRoutes.new_tenant (body req) tid) !! "name"
                    = Some (VStr v)
                  ∨ Cypher.plus_eq ∅ (TenantRoutes.new_tenant (body req) tid) !! "slug"
                    = Some (VStr v))) as (v & Hv & Hv1 & Hv2 & Hor).
  { destruct Hname as [E|E]; rewrite E.
    - exists slug. split; [done|]. split; [done|]. split; [done|]. right. by apply Hps.
    - exists name. split; [done|]. split; [done|]. split; [done|]. left. by apply Hpn. }
  apply lookup_found.
  - unfold TenantRoutes.lookupSchema. rewrite Hv. by apply str_required.
  - unfold field. rewrite Hv. cbn [default from_option].
    exists t, (Node Tenant (Cypher.plus_eq ∅ (TenantRoutes.new_tenant (body req) tid))).
    done.
Qed.

Lemma created_tenant_is_found_witness :
  let lreq := Request None "" (Demo.obj [("tenantName", VStr "acme")]) in
  status (TenantRoutes.create Demo.world Demo.clk Demo.acme_request Demo.seeded).1 = 201
  ∧ body lreq !! "tenantName" = body Demo.acme_request !! "slug"
  ∧ status (TenantRoutes.lookup lreq
              (TenantRoutes.create Demo.world Demo.clk Demo.acme_request Demo.seeded).2).1
    = 200.
Proof.
  intros lreq.
  assert (status (TenantRoutes.create Demo.world Demo.clk Demo.acme_request Demo.seeded).1
          = 201) as H201 by (vm_compute; reflexivity).
  assert (body lreq !! "tenantName" = body Demo.acme_request !! "slug") as Hn
    by (vm_compute; reflexivity).
  split; [exact H201|]. split; [exact Hn|].
  exact (created_tenant_is_found Demo.world Demo.clk Demo.acme_request Demo.seeded lreq
           H201 (or_introl Hn)).
Defined.

(** ** All or nothing *)

Section AllOrNothing.

Context (W : World) (clk : clock).

Implicit Types (s : store) (b p : gmap string value).





End AllOrNothing.



(** ** Login *)

Section Login.

Context (W : World).

Implicit Types (s : store) (req : request) (user : gmap string value).

(** The first row of the login query decides: a stored password that the
    request's password matches gives 200 and a token for that row's user. *)
Lemma login_handler_ok req s t u rows user h :
  Cypher.hop HAS_USER (Cypher.node_is Tenant [("id", field (body req) "tenantId")])
                      (Cypher.node_is User [("email", field (body req) "email")]) s
    = (t, u) :: rows →
  props_at u s = user →
  user !! "password" = Some (VStr h) → h ≠ "" →
  comparePassword W (as_string (field (body req) "password")) h = true →
  UserRoutes.login_handler W req s
  = (Response 200
       (LoginBody (jwt_sign W (Claims (as_string (field user "id"))
                                      (as_string (field user "tenant_id"))
                                      (as_string (field user "role"))))
                  (delete "password" user)), s).
Proof.
  intros Hhop Hu Hpw Hne Hcmp. unfold UserRoutes.login_handler.
  assert (field user "password" = VStr h) as Hf by (unfold field; by rewrite Hpw).
  rewrite Hhop, Hu, Hf, Hpw. cbn [truthy as_string].
  destruct (String.eqb_spec h ""); [done|]. cbn [negb]. by rewrite Hcmp.
Qed.

Lemma field_eq b1 b2 k1 k2 : b1 !! k1 = b2 !! k2 → field b1 k1 = field b2 k2.
Proof. unfold field. by intros ->. Qed.

End Login.

(** X9. The admin of a fresh tenant can log in. Let bcrypt behave (a hash is
    never empty and matches the password it was made from) and let every
    relationship of the store join existing nodes. After a 201 of tenant
    creation, a login request that passes the login schema and carries the
    tenant [id] of the creation answer with the e-mail and password of the
    creation request is answered 200, with a token whose payload names that
    tenant and the role admin, and with a user object that has the e-mail and
    no password. *)
Theorem provisioned_admin_can_login W clk req s lreq tenant user :
  (∀ p, hashPassword W p ≠ "" ∧ comparePassword W p (hashPassword W p) = true) →
  graph_closed s →
  status (TenantRoutes.create W clk req s).1 = 201 →
  sent (TenantRoutes.create W clk req s).1 = TenantBody tenant user →
  UserRoutes.loginSchema W (body lreq) = true →
  body lreq !! "tenantId" = tenant !! "id" →
  body lreq !! "email" = body req !! "email" →
  body lreq !! "password" = body req !! "password" →
  ∃ tid uid rest,
    tenant !! "id" = Some (VStr tid)
    ∧ UserRoutes.login W lreq (TenantRoutes.create W clk req s).2
      = (Response 200 (LoginBody (jwt_sign W (Claims uid tid "admin")) rest),
         (TenantRoutes.create W clk req s).2)
    ∧ rest !! "password" = None
    ∧ rest !! "email" = body req !! "email".
Proof.
  intros Hbcrypt Hclosed H201 Hsent Hls Htid Hemail Hpw.
  destruct (tenant_created W clk req s H201)
    as (Hs & Hfree & Hall & i & t & u & Hprov & Hsent').
  set (s' := (TenantRoutes.create W clk req s).2) in *.
  set (b := body req) in *.
  set (hashed := hashPassword W (as_string (field b "password"))) in *.
  rewrite Hsent in Hsent'. injection Hsent' as Htenant Huser. subst tenant user.
  unfold TenantRoutes.createSchema in Hs. rewrite !andb_true_iff in Hs.
  destruct Hs as [[[[[_ _] Hmail] _] _] _].
  apply required_email in Hmail as (e & He & _).
  destruct Hprov as (tid & uid & ki & Hnt & Hnu & Hki & Hkl & Ht & Hu & Hi & Hr1 & _).
  destruct (new_tenant_lookup b tid) as (Htid' & _).
  assert (pick ["id"; "name"; "slug"] (props_at t s') !! "id" = Some (VStr tid)) as Hid.
  { rewrite lookup_pick. rewrite bool_decide_true by left.
    unfold props_at. by rewrite Ht. }
  rewrite Hid in Htid.
  set (hops := Cypher.hop HAS_USER
                 (Cypher.node_is Tenant [("id", field (body lreq) "tenantId")])
                 (Cypher.node_is User [("email", field (body lreq) "email")]) s').
  assert (field (body lreq) "tenantId" = VStr tid) as Hft.
  { unfold field. by rewrite Htid. }
  assert (field (body lreq) "email" = VStr e) as Hfe.
  { unfold field. by rewrite Hemail, He. }
  assert ((t, u) ∈ hops) as Hin.
  { apply elem_of_hop. do 2 eexists. split; [exact Hr1|]. split; [exact Ht|].
    split; [exact Hu|]. rewrite Hft, Hfe. split; apply node_is_prop; split; try done.
    by apply (new_admin_lookup clk b hashed tid uid). }
  assert (∀ t' u', (t', u') ∈ hops →
            ∃ uid', nodes s' !! u'
                    = Some (Node User (Cypher.plus_eq ∅
                              (TenantRoutes.new_admin clk b hashed tid uid')))) as Hrow.
  { intros t' u' Hin'. apply elem_of_hop in Hin' as (nt & nb & Hrel & Hnt' & Hnb & Hpt & Hpu).
    rewrite Hft in Hpt. rewrite Hfe in Hpu.
    apply node_is_prop in Hpt as [Hlt Hpt]. apply node_is_prop in Hpu as [Hlu Hpu].
    destruct Hall as (_ & _ & Hchanged & Hnewrel & _).
    destruct (Hnewrel _ Hrel) as [Hold|(i3 & t3 & u3 & Hprov3 & Hin3)].
    - exfalso. unfold graph_closed in Hclosed. rewrite Forall_forall in Hclosed.
      destruct (Hclosed _ Hold) as [_ [nd0 Hnd0]]. cbn [rdst] in Hnd0.
      destruct (decide (nodes s' !! u' = Some nd0)) as [Hsame|Hdiff].
      + apply Hfree. exists u', nd0. split; [done|]. right.
        assert (nd0 = nb) as -> by congruence. split; [done|].
        unfold field. fold b. by rewrite He.
      + destruct (Hchanged u' nd0 Hnd0 Hdiff)
          as (t4 & u4 & tid4 & uid4 & ki4 & _ & _ & Hk4 & Hkl4 & _ & _ & Hi4 & _).
        rewrite Hnb in Hi4. injection Hi4 as ->. cbn [label_of] in Hlu. congruence.
    - destruct Hprov3 as (tid3 & uid3 & ki3 & _ & _ & _ & _ & Ht3 & Hu3 & _).
      rewrite !elem_of_cons, elem_of_nil in Hin3.
      destruct Hin3 as [E|[E|[E|[]]]]; try discriminate E.
      injection E as -> ->.
      rewrite Hnt' in Ht3. injection Ht3 as ->. cbn [props] in Hpt.
      destruct (new_tenant_lookup b tid3) as (Hid3 & _).
      rewrite Hid3 in Hpt. injection Hpt as ->.
      by exists uid3. }
  destruct hops as [|[t' u'] rows] eqn:Hhops; [by apply elem_of_nil in Hin|].
  destruct (Hrow t' u') as [uid' Hu']; [by left|].
  destruct (new_admin_lookup clk b hashed tid uid') as (Ha1 & Ha2 & Ha3 & Ha4 & Ha5).
  specialize (Ha5 e He).
  set (p := Cypher.plus_eq ∅ (TenantRoutes.new_admin clk b hashed tid uid')) in *.
  exists tid, uid', (delete "password" p).
  split; [done|]. split; [|split].
  - unfold UserRoutes.login, serve, validate. rewrite Hls.
    rewrite (login_handler_ok W lreq s' t' u' rows p hashed Hhops).
    + unfold field. by rewrite Ha1, Ha2, Ha4.
    + unfold props_at. by rewrite Hu'.
    + done.
    + apply Hbcrypt.
    + rewrite (field_eq _ b _ "password" Hpw). apply Hbcrypt.
  - apply lookup_delete_eq.
  - rewrite lookup_delete_ne by discriminate. fold b. by rewrite Ha5, He.
Qed.

Lemma provisioned_admin_can_login_witness :
  let lreq := Request None ""
                (Demo.obj [("tenantId", VStr "uuid-0"); ("email", VStr "a@acme.com");
                           ("password", VStr "password123")]) in
  let r := TenantRoutes.create Demo.world Demo.clk Demo.acme_request Demo.seeded in
  graph_closed Demo.seeded
  ∧ status r.1 = 201
  ∧ UserRoutes.loginSchema Demo.world (body lreq) = true
  ∧ status (UserRoutes.login Demo.world lreq r.2).1 = 200.
Proof.
  intros lreq r.
  assert (graph_closed Demo.seeded) as Hclosed.
  { apply (bool_decide_unpack _). vm_compute. exact I. }
  assert (status r.1 = 201) as H201 by (vm_compute; reflexivity).
  assert (UserRoutes.loginSchema Demo.world (body lreq) = true) as Hls
    by (vm_compute; reflexivity).
  assert (∃ tenant user, sent r.1 = TenantBody tenant user
                         ∧ body lreq !! "tenantId" = tenant !! "id")
    as (tenant & user & Hsent & Htid).
  { destruct (sent r.1) as [| | | | | | | |tenant user| |] eqn:E;
      try (vm_compute in E; discriminate E).
    exists tenant, user. split; [done|].
    vm_compute in E. injection E as <- _. vm_compute. reflexivity. }
  split; [exact Hclosed|]. split; [exact H201|]. split; [exact Hls|].
  destruct (provisioned_admin_can_login Demo.world Demo.clk Demo.acme_request Demo.seeded
              lreq tenant user) as (tid & uid & rest & _ & Hlogin & _).
  - intros p. split; [discriminate|]. apply String.eqb_refl.
  - exact Hclosed.
  - exact H201.
  - exact Hsent.
  - exact Hls.
  - exact Htid.
  - vm_compute. reflexivity.
  - vm_compute. reflexivity.
  - fold r in Hlogin. by rewrite Hlogin.
Defined.

(** ** User creation *)

Section UserCreate.

Context (W : World) (clk : clock) (b : gmap string value) (hashed : string).

Implicit Types (s : store) (x t u : nat).

Lemma add_user_row_spec s t :
  let r := UserRoutes.add_user_row W clk b hashed s t in
  nodes s !! r.1 = None
  ∧ nodes r.2 !! r.1
    = Some (Node User (Cypher.plus_eq ∅
              (new_user clk b hashed (Cypher.prop "id" (Node Tenant (props_at t s)))
                        (randomUUID W (drawn s)))))
  ∧ (∀ x, x ≠ r.1 → nodes r.2 !! x = nodes s !! x)
  ∧ rels r.2 = (rels s ++ [Rel HAS_USER t r.1])%list.
Proof.
  cbn zeta. unfold UserRoutes.add_user_row, new_user, Cypher.create_rel, Cypher.create_node.
  cbn [fst snd nodes rels drawn].
  split; [apply (new_node_fresh (Store (nodes s) (rels s) (S (drawn s))))|].
  split; [apply lookup_insert_eq|].
  split; [|done]. intros x Hx. by rewrite lookup_insert_ne.
Qed.

(** The rows of the user creation query: one new user per matched tenant,
    linked to it; nothing else changes. *)
Lemma add_users_spec ts s :
  (∀ t, t ∈ ts → is_Some (nodes s !! t)) →
  let res := UserRoutes.add_users W clk b hashed ts s in
  Forall2 (λ t u,
      nodes s !! u = None
      ∧ Rel HAS_USER t u ∈ rels res.2
      ∧ ∃ uid, nodes res.2 !! u
               = Some (Node User (Cypher.plus_eq ∅
                         (new_user clk b hashed
                            (Cypher.prop "id" (Node Tenant (props_at t s))) uid))))
    ts res.1
  ∧ (∀ x, is_Some (nodes res.2 !! x) → is_Some (nodes s !! x) ∨ x ∈ res.1)
  ∧ (∀ r, r ∈ rels res.2 →
          r ∈ rels s ∨ ∃ t u, r = Rel HAS_USER t u ∧ t ∈ ts ∧ u ∈ res.1)
  ∧ (∀ r, r ∈ rels s → r ∈ rels res.2).
Proof.
  revert s. induction ts as [|t ts IH]; intros s Hts; cbn zeta.
  { cbn [UserRoutes.add_users fst snd]. split; [constructor|].
    split; [by left|]. split; [by left|done]. }
  cbn [UserRoutes.add_users fst snd].
  destruct (add_user_row_spec s t) as (Hfresh & Hnew & Hframe & Hrels).
  set (one := UserRoutes.add_user_row W clk b hashed s t) in *.
  assert (∀ x nd, nodes s !! x = Some nd → nodes one.2 !! x = Some nd) as Hold.
  { intros x nd Hx. rewrite Hframe; [done|]. intros ->. congruence. }
  destruct (IH one.2) as (Hall & Hdom & Hnewrel & Hmono).
  { intros t' Ht'. destruct (Hts t') as [nd Hnd]; [by right|]. eexists. by apply Hold. }
  set (more := UserRoutes.add_users W clk b hashed ts one.2) in *.
  split; [|split; [|split]].
  - constructor.
    + split; [done|]. split.
      * apply Hmono. rewrite Hrels. apply elem_of_app. right. by left.
      * eexists. eapply add_users_old. exact Hnew.
    + eapply Forall2_impl_elem; [exact Hall|].
      intros t' u' Ht' (Hnone & Hrel & uid & Hu). split; [|split; [done|]].
      * destruct (nodes s !! u') as [nd|] eqn:Hx; [|done].
        apply Hold in Hx. congruence.
      * exists uid. rewrite Hu. do 5 f_equal. unfold props_at.
        destruct (Hts t') as [nd Hnd]; [by right|].
        by rewrite Hnd, (Hold _ _ Hnd).
  - intros x Hx. destruct (Hdom x Hx) as [Hone|Hin]; [|right; by right].
    destruct (decide (x = one.1)) as [->|Hne]; [right; by left|].
    left. by rewrite <- Hframe.
  - intros r Hr. destruct (Hnewrel r Hr) as [Hone|(t' & u' & -> & Ht' & Hin)].
    + rewrite Hrels in Hone. apply elem_of_app in Hone as [?|Hone]; [by left|].
      apply list_elem_of_singleton in Hone as ->. right. exists t, one.1.
      split; [done|]. split; by left.
    + right. exists t', u'. split; [done|]. split; by right.
  - intros r Hr. apply Hmono. rewrite Hrels. apply elem_of_app. by left.
Qed.

Lemma new_user_lookup tidv uid :
  let p := Cypher.plus_eq ∅ (new_user clk b hashed tidv uid) in
  p !! "id" = Some (VStr uid)
  ∧ p !! "password" = Some (VStr hashed)
  ∧ (∀ v, tidv = VStr v → p !! "tenant_id" = Some (VStr v))
  ∧ (∀ v, b !! "email" = Some (VStr v) → p !! "email" = Some (VStr v))
  ∧ (∀ v, b !! "role" = Some (VStr v) → p !! "role" = Some (VStr v)).
Proof.
  cbn zeta. rewrite !lookup_plus_eq. unfold new_user, field. simpl.
  split; [by rewrite lookup_insert_eq|].
  split; [rewrite !lookup_insert_ne by discriminate; by rewrite lookup_insert_eq|].
  split; [intros v ->; rewrite !lookup_insert_ne by discriminate;
          by rewrite lookup_insert_eq|].
  split; intros v Hv; rewrite Hv; rewrite !lookup_insert_ne by discriminate;
    by rewrite lookup_insert_eq.
Qed.

End UserCreate.

Section UserCreated.

Context (W : World) (clk : clock).

Implicit Types (s : store) (req : request) (c : claims).

Lemma email_check_nil s v :
  Cypher.match_nodes User [("email", v)] s = [] ↔ ¬ email_taken s v.
Proof.
  split.
  - intros Hnil (x & nd & Hx & Hl & Hp).
    assert (x ∈ Cypher.match_nodes User [("email", v)] s) as Hin.
    { apply elem_of_match_nodes. exists nd. split; [done|]. by apply node_is_prop. }
    rewrite Hnil in Hin. by apply elem_of_nil in Hin.
  - intros Hno. apply elem_of_nil_inv. intros x Hin. apply Hno.
    apply elem_of_match_nodes in Hin as (nd & Hx & Hp).
    apply node_is_prop in Hp. exists x, nd. tauto.
Qed.

Lemma tenant_check_nil s id :
  Cypher.match_nodes Tenant [("id", VStr id)] s = [] ↔ ¬ tenant_exists s id.
Proof.
  split.
  - intros Hnil (x & nd & Hx & Hl & Hp).
    assert (x ∈ Cypher.match_nodes Tenant [("id", VStr id)] s) as Hin.
    { apply elem_of_match_nodes. exists nd. split; [done|]. by apply node_is_prop. }
    rewrite Hnil in Hin. by apply elem_of_nil in Hin.
  - intros Hno. apply elem_of_nil_inv. intros x Hin. apply Hno.
    apply elem_of_match_nodes in Hin as (nd & Hx & Hp).
    apply node_is_prop in Hp. exists x, nd. tauto.
Qed.

(** The three outcomes of the user creation handler. *)
Lemma user_create_handler_cases req c s :
  let b := body req in
  let hashed := hashPassword W (as_string (field b "password")) in
  let ts := Cypher.match_nodes Tenant [("id", VStr (tenantId c))] s in
  let res := UserRoutes.add_users W clk b hashed ts s in
  let r := UserRoutes.create_handler W clk req c s in
  (email_taken s (field b "email")
   ∧ r = (Response 400 (Message false "Email already exists"), s))
  ∨ (¬ email_taken s (field b "email") ∧ ¬ tenant_exists s (tenantId c)
     ∧ r = (Response 404 (Message false "Tenant not found"), s))
  ∨ (¬ email_taken s (field b "email") ∧ tenant_exists s (tenantId c)
     ∧ ∃ t ts' u us, ts = t :: ts' ∧ res.1 = u :: us
         ∧ r = (Response 201 (UserBody (delete "password" (props_at u res.2))), res.2)).
Proof.
  cbn zeta. unfold UserRoutes.create_handler.
  destruct (Cypher.match_nodes User [("email", field (body req) "email")] s)
    as [|x0 xs] eqn:Hdup; cbn [length Nat.eqb negb].
  2:{ left. split; [|done].
      destruct (decide (email_taken s (field (body req) "email"))) as [?|Hno]; [done|].
      apply email_check_nil in Hno. congruence. }
  right. apply email_check_nil in Hdup.
  destruct (Cypher.match_nodes Tenant [("id", VStr (tenantId c))] s) as [|t ts'] eqn:Hts.
  - left. split; [done|]. split; [by apply tenant_check_nil|done].
  - right. split; [done|]. split.
    { destruct (decide (tenant_exists s (tenantId c))) as [?|Hno]; [done|].
      apply tenant_check_nil in Hno. congruence. }
    cbn [UserRoutes.add_users fst snd]. by eauto 8.
Qed.

End UserCreated.

(** X10. User creation by an authenticated admin whose body passes the schema
    has three outcomes. If some user already has the e-mail: 400 "Email
    already exists", store unchanged. Otherwise, if no tenant carries the
    token's tenantId: 404 "Tenant not found", store unchanged. Otherwise 201:
    a user node that did not exist before now carries the properties of the
    creation query (the tenant's id as [tenant_id], the body's e-mail, full
    name and role, the bcrypt hash as [password]), the answer is that property
    map without its [password], the new identifier is a member of the token's
    tenant, and every node that existed is unchanged. *)
Theorem user_create_outcome W clk req s c :
  requireAuth W req = inr c → role c = "admin" →
  UserRoutes.createUserSchema W (body req) = true →
  let b := body req in
  let hashed := hashPassword W (as_string (field b "password")) in
  let r := UserRoutes.create W clk req s in
  (email_taken s (field b "email") →
   r = (Response 400 (Message false "Email already exists"), s))
  ∧ (¬ email_taken s (field b "email") → ¬ tenant_exists s (tenantId c) →
     r = (Response 404 (Message false "Tenant not found"), s))
  ∧ (¬ email_taken s (field b "email") → tenant_exists s (tenantId c) →
     ∃ u uid,
       nodes s !! u = None
       ∧ nodes r.2 !! u
         = Some (Node User (Cypher.plus_eq ∅
                   (new_user clk b hashed (VStr (tenantId c)) uid)))
       ∧ r.1 = Response 201
                 (UserBody (delete "password"
                    (Cypher.plus_eq ∅ (new_user clk b hashed (VStr (tenantId c)) uid))))
       ∧ member r.2 (tenantId c) uid
       ∧ untouched (λ _, True) s r.2).
Proof.
  intros Hauth Hrole Hs. cbn zeta.
  unfold UserRoutes.create, serve, requireAdmin, validate.
  rewrite Hauth. cbn [and_then]. rewrite Hrole. cbn [String.eqb Ascii.eqb Bool.eqb negb].
  rewrite Hs. cbn [and_then].
  destruct (user_create_handler_cases W clk req c s)
    as [[Htaken ->]|[(Hfree & Hno & ->)|(Hfree & Hex & t & ts' & u & us & Hts & Hus & ->)]].
  - split; [done|]. split; intros Hfree; by destruct Hfree.
  - split; [by intros ?|]. split; [done|]. intros _ Hex. by destruct Hno.
  - split; [by intros ?|]. split; [intros _ Hno; by destruct Hno|]. intros _ _.
    set (b := body req) in *. set (hashed := hashPassword W _) in *.
    set (ts := Cypher.match_nodes Tenant [("id", VStr (tenantId c))] s) in *.
    destruct (add_users_spec W clk b hashed ts s) as (Hall & _ & _ & _).
    { intros t' Ht'. apply elem_of_match_nodes in Ht' as (nd & Hnd & _). by eexists. }
    set (res := UserRoutes.add_users W clk b hashed ts s) in *.
    rewrite Hts, Hus in Hall. apply Forall2_cons_1 in Hall as [(Hnone & Hrel & uid & Hu) _].
    assert (t ∈ ts) as Ht by (rewrite Hts; by left).
    apply elem_of_match_nodes in Ht as (nt & Hnt & Hpt).
    assert (Cypher.prop "id" (Node Tenant (props_at t s)) = VStr (tenantId c)) as Hid.
    { unfold props_at, Cypher.prop. rewrite Hnt. cbn [from_option props].
      apply node_is_prop in Hpt as [_ ->]. done. }
    rewrite Hid in Hu. cbn [fst snd].
    exists u, uid. split; [done|]. split; [done|].
    split; [unfold props_at; by rewrite Hu|]. split.
    + exists t, u, nt. eexists. split; [done|].
      split; [by apply add_users_old|]. split; [exact Hu|]. split; [done|].
      apply node_is_prop. split; [done|].
      by apply (new_user_lookup clk b hashed (VStr (tenantId c)) uid).
    + intros x nd Hx _. by apply add_users_old.
Qed.

Lemma user_create_outcome_witness :
  let r := UserRoutes.create Demo.world Demo.clk Demo.carol_request Demo.with_beta in
  requireAuth Demo.world Demo.carol_request = inr (Claims "uuid-1" "uuid-0" "admin")
  ∧ UserRoutes.createUserSchema Demo.world (body Demo.carol_request) = true
  ∧ ¬ email_taken Demo.with_beta (field (body Demo.carol_request) "email")
  ∧ tenant_exists Demo.with_beta "uuid-0"
  ∧ status r.1 = 201
  ∧ ∃ uid, member r.2 "uuid-0" uid.
Proof.
  intros r.
  assert (requireAuth Demo.world Demo.carol_request = inr (Claims "uuid-1" "uuid-0" "admin"))
    as Hauth by (vm_compute; reflexivity).
  assert (UserRoutes.createUserSchema Demo.world (body Demo.carol_request) = true) as Hs
    by (vm_compute; reflexivity).
  assert (¬ email_taken Demo.with_beta (field (body Demo.carol_request) "email")) as Hfree.
  { apply email_check_nil. vm_compute. reflexivity. }
  assert (tenant_exists Demo.with_beta "uuid-0") as Hex.
  { apply (bool_decide_unpack _). vm_compute. exact I. }
  split; [exact Hauth|]. split; [exact Hs|]. split; [exact Hfree|]. split; [exact Hex|].
  destruct (user_create_outcome Demo.world Demo.clk Demo.carol_request Demo.with_beta
              (Claims "uuid-1" "uuid-0" "admin") Hauth eq_refl Hs) as (_ & _ & Hok).
  destruct (Hok Hfree Hex) as (u & uid & _ & _ & Hr & Hm & _).
  fold r in Hr, Hm. split; [by rewrite Hr|]. by exists uid.
Defined.

(** X11. A user that an admin just created can log in. Let bcrypt behave (a
    hash is never empty and matches the password it was made from). After a
    201 of user creation under a token of tenant T, a login request that
    passes the login schema and carries T with the e-mail and password of the
    creation request is answered 200, with a token whose payload names tenant
    T and the role given at creation, and with a user object without
    password. *)
Theorem created_user_can_login W clk req s c lreq :
  (∀ p, hashPassword W p ≠ "" ∧ comparePassword W p (hashPassword W p) = true) →
  requireAuth W req = inr c →
  status (UserRoutes.create W clk req s).1 = 201 →
  UserRoutes.loginSchema W (body lreq) = true →
  body lreq !! "tenantId" = Some (VStr (tenantId c)) →
  body lreq !! "email" = body req !! "email" →
  body lreq !! "password" = body req !! "password" →
  ∃ uid rest,
    UserRoutes.login W lreq (UserRoutes.create W clk req s).2
    = (Response 200
         (LoginBody (jwt_sign W (Claims uid (tenantId c)
                                        (as_string (field (body req) "role")))) rest),
       (UserRoutes.create W clk req s).2)
    ∧ rest !! "password" = None.
Proof.
  intros Hbcrypt Hauth H201 Hls Htid Hemail Hpw. revert H201.
  unfold UserRoutes.create, serve, validate. rewrite Hauth. cbn [and_then].
  destruct (requireAdmin c) as [?|[]] eqn:Hadm.
  { unfold requireAdmin in Hadm. destruct (negb _); [|discriminate].
    injection Hadm as <-. discriminate. }
  cbn [and_then].
  destruct (UserRoutes.createUserSchema W (body req)) eqn:Hs; [|discriminate].
  cbn [and_then].
  destruct (user_create_handler_cases W clk req c s)
    as [[Htaken ->]|[(Hfree & Hno & ->)|(Hfree & Hex & t & ts' & u & us & Hts & Hus & ->)]];
    [discriminate|discriminate|]. intros _. cbn [fst snd].
  set (b := body req) in *. set (hashed := hashPassword W _) in *.
  set (ts := Cypher.match_nodes Tenant [("id", VStr (tenantId c))] s) in *.
  destruct (add_users_spec W clk b hashed ts s) as (Hall & Hdom & _ & _).
  { intros t' Ht'. apply elem_of_match_nodes in Ht' as (nd & Hnd & _). by eexists. }
  set (res := UserRoutes.add_users W clk b hashed ts s) in *.
  unfold UserRoutes.createUserSchema in Hs. rewrite !andb_true_iff in Hs.
  destruct Hs as [[[Hmail _] _] Hrole].
  apply required_email in Hmail as (e & He & _).
  assert (∃ ro, b !! "role" = Some (VStr ro)) as [ro Hro].
  { destruct (b !! "role") as [[| | |ro|]|]; try discriminate. by exists ro. }
  assert (field (body lreq) "tenantId" = VStr (tenantId c)) as Hft.
  { unfold field. by rewrite Htid. }
  assert (field (body lreq) "email" = VStr e) as Hfe.
  { unfold field. by rewrite Hemail, He. }
  assert (∀ t', t' ∈ ts →
            Cypher.prop "id" (Node Tenant (props_at t' s)) = VStr (tenantId c)) as Hids.
  { intros t' Ht'. apply elem_of_match_nodes in Ht' as (nt & Hnt & Hpt).
    unfold props_at, Cypher.prop. rewrite Hnt. cbn [from_option props].
    apply node_is_prop in Hpt as [_ ->]. done. }
  assert (∀ u', u' ∈ res.1 →
            ∃ uid', nodes res.2 !! u'
                    = Some (Node User (Cypher.plus_eq ∅
                              (new_user clk b hashed (VStr (tenantId c)) uid')))) as Hnew.
  { intros u' Hu'. apply list_elem_of_lookup in Hu' as [k Hk].
    destruct (Forall2_lookup_r _ _ _ _ _ Hall Hk) as (t' & Ht' & _ & _ & uid' & Hu').
    exists uid'. rewrite Hu', Hids; [done|]. by eapply list_elem_of_lookup_2. }
  set (hops := Cypher.hop HAS_USER
                 (Cypher.node_is Tenant [("id", field (body lreq) "tenantId")])
                 (Cypher.node_is User [("email", field (body lreq) "email")]) res.2).
  assert ((t, u) ∈ hops) as Hin.
  { assert (t ∈ ts) as Ht by (rewrite Hts; by left).
    apply elem_of_match_nodes in Ht as (nt & Hnt & Hpt).
    destruct (Hnew u) as [uid Hu]; [rewrite Hus; by left|].
    rewrite Hts, Hus in Hall. apply Forall2_cons_1 in Hall as [(_ & Hrel & _) _].
    apply elem_of_hop. exists nt. eexists. split; [done|].
    split; [by apply add_users_old|]. split; [exact Hu|]. rewrite Hft, Hfe.
    split; [done|]. apply node_is_prop. split; [done|].
    by apply (new_user_lookup clk b hashed (VStr (tenantId c)) uid). }
  assert (∀ t' u', (t', u') ∈ hops → u' ∈ res.1) as Hrow.
  { intros t' u' Hin'.
    apply elem_of_hop in Hin' as (nt & nb & Hrel & Hnt' & Hnb & Hpt & Hpu).
    rewrite Hfe in Hpu. apply node_is_prop in Hpu as [Hlu Hpu].
    destruct (Hdom u') as [[nd Hnd]|?]; [by eexists| |done].
    exfalso. apply Hfree. exists u', nd. split; [done|].
    assert (nd = nb) as ->.
    { apply (add_users_old W clk b hashed ts) in Hnd. fold res in Hnd. congruence. }
    split; [done|]. unfold field. fold b. by rewrite He. }
  destruct hops as [|[t' u'] rows] eqn:Hhops; [by apply elem_of_nil in Hin|].
  destruct (Hnew u') as [uid' Hu']; [apply (Hrow t'); by left|].
  destruct (new_user_lookup clk b hashed (VStr (tenantId c)) uid')
    as (Ha1 & Ha2 & Ha3 & _ & Ha5).
  specialize (Ha3 _ eq_refl). specialize (Ha5 _ Hro).
  set (p := Cypher.plus_eq ∅ (new_user clk b hashed (VStr (tenantId c)) uid')) in *.
  exists uid', (delete "password" p). split; [|apply lookup_delete_eq].
  unfold UserRoutes.login, serve, validate. rewrite Hls.
  rewrite (login_handler_ok W lreq res.2 t' u' rows p hashed Hhops).
  - unfold field. fold b. by rewrite Ha1, Ha3, Ha5, Hro.
  - unfold props_at. by rewrite Hu'.
  - done.
  - apply Hbcrypt.
  - rewrite (field_eq _ b _ "password" Hpw). apply Hbcrypt.
Qed.

Lemma created_user_can_login_witness :
  let lreq := Request None ""
                (Demo.obj [("tenantId", VStr "uuid-0"); ("email", VStr "carol@acme.com");
                           ("password", VStr "password123")]) in
  let r := UserRoutes.create Demo.world Demo.clk Demo.carol_request Demo.with_beta in
  status r.1 = 201
  ∧ UserRoutes.loginSchema Demo.world (body lreq) = true
  ∧ status (UserRoutes.login Demo.world lreq r.2).1 = 200.
Proof.
  intros lreq r.
  assert (status r.1 = 201) as H201 by (vm_compute; reflexivity).
  assert (UserRoutes.loginSchema Demo.world (body lreq) = true) as Hls
    by (vm_compute; reflexivity).
  split; [exact H201|]. split; [exact Hls|].
  destruct (created_user_can_login Demo.world Demo.clk Demo.carol_request Demo.with_beta
              (Claims "uuid-1" "uuid-0" "admin") lreq) as (uid & rest & Hlogin & _).
  - intros p. split; [discriminate|]. apply String.eqb_refl.
  - vm_compute. reflexivity.
  - exact H201.
  - exact Hls.
  - vm_compute. reflexivity.
  - vm_compute. reflexivity.
  - vm_compute. reflexivity.
  - fold r in Hlogin. by rewrite Hlogin.
Defined.

(** X12. Login, for a body that passes the schema. The answer is 404 exactly
    when no HAS_USER link joins a tenant carrying the body's [tenantId] to a
    user carrying the body's e-mail. A 200 is only given for such a linked
    user whose stored password is non-empty and matches the body's password;
    the token is signed over that user's [id], [tenant_id] and [role], and the
    user object of the answer is the user's property map without
    [password]. Every other answer is 401. *)
Theorem login_outcome W req s :
  UserRoutes.loginSchema W (body req) = true →
  let b := body req in
  let r := UserRoutes.login W req s in
  let linked t u nt nu :=
    Rel HAS_USER t u ∈ rels s ∧ nodes s !! t = Some nt ∧ nodes s !! u = Some nu
    ∧ label_of nt = Tenant ∧ props nt !! "id" = Some (field b "tenantId")
    ∧ label_of nu = User ∧ props nu !! "email" = Some (field b "email") in
  (status r.1 = 404 ↔ ¬ ∃ t u nt nu, linked t u nt nu)
  ∧ (status r.1 = 200 →
     ∃ t u nt nu,
       linked t u nt nu
       ∧ truthy (props nu !! "password") = true
       ∧ comparePassword W (as_string (field b "password"))
                           (as_string (Cypher.prop "password" nu)) = true
       ∧ sent r.1
         = LoginBody (jwt_sign W (Claims (as_string (Cypher.prop "id" nu))
                                         (as_string (Cypher.prop "tenant_id" nu))
                                         (as_string (Cypher.prop "role" nu))))
                     (delete "password" (props nu)))
  ∧ (status r.1 = 200 ∨ status r.1 = 401 ∨ status r.1 = 404).
Proof.
  intros Hs. cbn zeta. unfold UserRoutes.login, serve, validate. rewrite Hs.
  unfold UserRoutes.login_handler.
  destruct (Cypher.hop HAS_USER _ _ s) as [|[t u] rows] eqn:Hhop.
  - cbn [fst snd status]. split; [|split; [discriminate|by auto]].
    split; [|done]. intros _ (t & u & nt & nu & Hrel & Ht & Hu & Hlt & Hpt & Hlu & Hpu).
    assert ((t, u) ∈ Cypher.hop HAS_USER
              (Cypher.node_is Tenant [("id", field (body req) "tenantId")])
              (Cypher.node_is User [("email", field (body req) "email")]) s) as Hin.
    { apply elem_of_hop. exists nt, nu. split; [done|]. split; [done|]. split; [done|].
      split; by apply node_is_prop. }
    rewrite Hhop in Hin. by apply elem_of_nil in Hin.
  - assert ((t, u) ∈ Cypher.hop HAS_USER
              (Cypher.node_is Tenant [("id", field (body req) "tenantId")])
              (Cypher.node_is User [("email", field (body req) "email")]) s) as Hin.
    { rewrite Hhop. by left. }
    apply elem_of_hop in Hin as (nt & nu & Hrel & Ht & Hu & Hpt & Hpu).
    apply node_is_prop in Hpt as [Hlt Hpt]. apply node_is_prop in Hpu as [Hlu Hpu].
    assert (props_at u s = props nu) as Hprops by (unfold props_at; by rewrite Hu).
    rewrite Hprops.
    assert (∃ t u nt nu,
              Rel HAS_USER t u ∈ rels s ∧ nodes s !! t = Some nt ∧ nodes s !! u = Some nu
              ∧ label_of nt = Tenant ∧ props nt !! "id" = Some (field (body req) "tenantId")
              ∧ label_of nu = User ∧ props nu !! "email" = Some (field (body req) "email"))
      as Hex by (exists t, u, nt, nu; done).
    destruct (truthy (props nu !! "password")) eqn:Hpw; cbn [negb fst snd status].
    2:{ split; [split; [discriminate|by intros []]|]. split; [discriminate|by auto]. }
    destruct (comparePassword W _ _) eqn:Hcmp; cbn [negb fst snd status sent].
    2:{ split; [split; [discriminate|by intros []]|]. split; [discriminate|by auto]. }
    split; [split; [discriminate|by intros []]|]. split; [|by auto].
    intros _. exists t, u, nt, nu. done.
Qed.

Lemma login_outcome_witness :
  let elsewhere := Request None ""
               (Demo.obj [("tenantId", VStr "uuid-2"); ("email", VStr "carol@acme.com");
                          ("password", VStr "password123")]) in
  let at_home := Request None ""
               (Demo.obj [("tenantId", VStr "uuid-0"); ("email", VStr "carol@acme.com");
                          ("password", VStr "password123")]) in
  UserRoutes.loginSchema Demo.world (body elsewhere) = true
  ∧ status (UserRoutes.login Demo.world elsewhere Demo.base).1 = 404
  ∧ UserRoutes.loginSchema Demo.world (body at_home) = true
  ∧ status (UserRoutes.login Demo.world at_home Demo.base).1 = 200
  ∧ ∃ token user, sent (UserRoutes.login Demo.world at_home Demo.base).1
                  = LoginBody token user
                  ∧ user !! "password" = None.
Proof.
  intros elsewhere at_home.
  assert (UserRoutes.loginSchema Demo.world (body elsewhere) = true) as Hs
    by (vm_compute; reflexivity).
  assert (UserRoutes.loginSchema Demo.world (body at_home) = true) as Hs'
    by (vm_compute; reflexivity).
  assert (status (UserRoutes.login Demo.world at_home Demo.base).1 = 200) as H200
    by (vm_compute; reflexivity).
  split; [exact Hs|]. split; [|split; [exact Hs'|split; [exact H200|]]].
  - destruct (login_outcome Demo.world elsewhere Demo.base Hs) as (_ & _ & [H|[H|H]]).
    + vm_compute in H. discriminate H.
    + vm_compute in H. discriminate H.
    + exact H.
  - destruct (login_outcome Demo.world at_home Demo.base Hs') as (_ & Hok & _).
    destruct (Hok H200) as (t & u & nt & nu & _ & _ & _ & Hsent).
    eexists _, _. split; [exact Hsent|]. apply lookup_delete_eq.
Defined.

(** ** Creating todos and categories *)

Section Owned.

Context (W : World) (l : label) (mk : string → gmap string value).

Implicit Types (s : store) (x : nat) (row : nat * nat).

Lemma create_owned_row_rels s row :
  rels (create_owned_row W l mk s row).2
  = (rels s ++ [Rel BELONGS_TO (create_owned_row W l mk s row).1 row.2;
                Rel CREATED_BY (create_owned_row W l mk s row).1 row.1])%list.
Proof.
  unfold create_owned_row, Cypher.create_rel, Cypher.create_node.
  cbn [fst snd nodes rels drawn]. by rewrite <- app_assoc.
Qed.

Lemma create_owned_rels_mono rows s r :
  r ∈ rels s → r ∈ rels (create_owned W l mk rows s).2.
Proof.
  revert s. induction rows as [|row rows IH]; intros s Hr; [done|].
  cbn [create_owned fst snd]. apply IH. rewrite create_owned_row_rels.
  apply elem_of_app. by left.
Qed.

Lemma create_owned_links rows s x :
  x ∈ (create_owned W l mk rows s).1 →
  ∃ row, row ∈ rows
         ∧ Rel BELONGS_TO x row.2 ∈ rels (create_owned W l mk rows s).2
         ∧ Rel CREATED_BY x row.1 ∈ rels (create_owned W l mk rows s).2.
Proof.
  revert s. induction rows as [|row rows IH]; intros s Hin.
  { by apply elem_of_nil in Hin. }
  cbn [create_owned fst snd] in *.
  apply elem_of_cons in Hin as [->|Hin].
  - exists row. split; [by left|].
    split; apply create_owned_rels_mono; rewrite create_owned_row_rels;
      apply elem_of_app; right; [by left|right; by left].
  - destruct (IH _ Hin) as (row' & Hrow & H1 & H2). exists row'. split; [by right|done].
Qed.

Lemma create_owned_rels_inv rows s r :
  r ∈ rels (create_owned W l mk rows s).2 →
  r ∈ rels s
  ∨ ∃ x row, x ∈ (create_owned W l mk rows s).1 ∧ row ∈ rows
             ∧ (r = Rel BELONGS_TO x row.2 ∨ r = Rel CREATED_BY x row.1).
Proof.
  revert s. induction rows as [|row rows IH]; intros s Hr; [by left|].
  cbn [create_owned fst snd] in *.
  destruct (IH _ Hr) as [Hone|(x & row' & Hx & Hrow & Hor)].
  - rewrite create_owned_row_rels in Hone. apply elem_of_app in Hone as [?|Hone]; [by left|].
    right. exists (create_owned_row W l mk s row).1, row.
    split; [by left|]. split; [by left|].
    rewrite !elem_of_cons, elem_of_nil in Hone. tauto.
  - right. exists x, row'. split; [by right|]. split; [by right|done].
Qed.

Lemma create_owned_dom rows s x :
  is_Some (nodes (create_owned W l mk rows s).2 !! x) →
  is_Some (nodes s !! x) ∨ x ∈ (create_owned W l mk rows s).1.
Proof.
  revert s. induction rows as [|row rows IH]; intros s Hx; [by left|].
  cbn [create_owned fst snd] in *.
  destruct (IH _ Hx) as [Hone|Hin]; [|right; by right].
  destruct (decide (x = (create_owned_row W l mk s row).1)) as [->|Hne]; [right; by left|].
  left. revert Hone. unfold create_owned_row, Cypher.create_rel, Cypher.create_node.
  cbn [fst snd nodes]. by rewrite lookup_insert_ne.
Qed.

(** The first row created for the token's user and tenant: a new node with
    the properties of the CREATE clause, owned by rows of that user and that
    tenant. *)
Lemma create_owned_head c s x xs :
  (create_owned W l mk (user_tenant_rows c s) s).1 = x :: xs →
  let s1 := (create_owned W l mk (user_tenant_rows c s) s).2 in
  ∃ uuid t u nt nu,
    nodes s !! x = None
    ∧ nodes s1 !! x = Some (Node l (Cypher.plus_eq ∅ (mk uuid)))
    ∧ Rel BELONGS_TO x t ∈ rels s1 ∧ nodes s1 !! t = Some nt
    ∧ Cypher.node_is Tenant [("id", VStr (tenantId c))] nt = true
    ∧ Rel CREATED_BY x u ∈ rels s1 ∧ nodes s1 !! u = Some nu
    ∧ Cypher.node_is User [("id", VStr (userId c))] nu = true.
Proof.
  intros Hc. cbn zeta.
  assert (x ∈ (create_owned W l mk (user_tenant_rows c s) s).1) as Hin
    by (rewrite Hc; by left).
  destruct (create_owned_new W l mk _ s x Hin) as [Hnone [uuid Hsome]].
  destruct (create_owned_links _ s x Hin) as ([u t] & Hrow & Hb & Hcr).
  unfold user_tenant_rows in Hrow. apply list_elem_of_In, in_prod_iff in Hrow as [Hu Ht].
  apply list_elem_of_In, elem_of_match_nodes in Hu as (nu & Hnu & Hpu).
  apply list_elem_of_In, elem_of_match_nodes in Ht as (nt & Hnt & Hpt).
  exists uuid, t, u, nt, nu. split; [done|]. split; [done|].
  split; [done|]. split; [by apply create_owned_old|]. split; [done|].
  split; [done|]. split; [by apply create_owned_old|done].
Qed.

End Owned.

Section Reading.

Implicit Types (s : store) (x : nat).

Lemma elem_of_order_by_desc k s xs x : x ∈ Cypher.order_by_desc k s xs ↔ x ∈ xs.
Proof. unfold Cypher.order_by_desc. by rewrite merge_sort_Permutation. Qed.

Lemma get_found_todo req c s x :
  x ∈ Cypher.owned (Cypher.node_is Todo [("id", VStr (param_id req))])
                   (tenantId c) (userId c) s →
  ∃ q, TodoRoutes.get_handler req c s = (Response 200 (TodoBody q), s)
       ∧ q !! "id" = Some (VStr (param_id req)).
Proof.
  intros Hin. unfold TodoRoutes.get_handler.
  destruct (Cypher.owned _ _ _ s) as [|y ys] eqn:Hrows; [by apply elem_of_nil in Hin|].
  assert (y ∈ Cypher.owned (Cypher.node_is Todo [("id", VStr (param_id req))])
                           (tenantId c) (userId c) s) as Hy by (rewrite Hrows; by left).
  apply elem_of_owned in Hy as (t & u & ny & _ & _ & Hny & Hpy & _).
  apply node_is_prop in Hpy as [_ Hpy].
  eexists. split; [done|]. unfold props_at. by rewrite Hny.
Qed.

Lemma get_found_category req c s x :
  x ∈ Cypher.owned (Cypher.node_is Category [("id", VStr (param_id req))])
                   (tenantId c) (userId c) s →
  ∃ q, CategoryRoutes.get_handler req c s = (Response 200 (CategoryBody q), s)
       ∧ q !! "id" = Some (VStr (param_id req)).
Proof.
  intros Hin. unfold CategoryRoutes.get_handler.
  destruct (Cypher.owned _ _ _ s) as [|y ys] eqn:Hrows; [by apply elem_of_nil in Hin|].
  assert (y ∈ Cypher.owned (Cypher.node_is Category [("id", VStr (param_id req))])
                           (tenantId c) (userId c) s) as Hy by (rewrite Hrows; by left).
  apply elem_of_owned in Hy as (t & u & ny & _ & _ & Hny & Hpy & _).
  apply node_is_prop in Hpy as [_ Hpy].
  eexists. split; [done|]. unfold props_at. by rewrite Hny.
Qed.

End Reading.

Section Created.

Context (W : World) (clk : clock).

Implicit Types (s : store) (req : request) (c : claims).

Lemma new_todo_lookup c b uuid :
  let p := Cypher.plus_eq ∅ (TodoRoutes.new_todo clk c b uuid) in
  p !! "id" = Some (VStr uuid)
  ∧ p !! "user_id" = Some (VStr (userId c))
  ∧ p !! "tenant_id" = Some (VStr (tenantId c))
  ∧ p !! "created_at" = Some (VStr (now clk))
  ∧ p !! "updated_at" = Some (VStr (now clk)).
Proof.
  cbn zeta. rewrite !lookup_plus_eq. unfold TodoRoutes.new_todo. simpl.
  split; [by rewrite lookup_insert_eq|].
  repeat (split; [rewrite !lookup_insert_ne by discriminate; by rewrite lookup_insert_eq|]).
  rewrite !lookup_insert_ne by discriminate. by rewrite lookup_insert_eq.
Qed.

Lemma new_category_lookup c b uuid :
  let p := Cypher.plus_eq ∅ (CategoryRoutes.new_category clk c b uuid) in
  p !! "id" = Some (VStr uuid)
  ∧ p !! "user_id" = Some (VStr (userId c))
  ∧ p !! "tenant_id" = Some (VStr (tenantId c))
  ∧ p !! "created_at" = Some (VStr (now clk)).
Proof.
  cbn zeta. rewrite !lookup_plus_eq. unfold CategoryRoutes.new_category. simpl.
  split; [by rewrite lookup_insert_eq|].
  repeat (split; [rewrite !lookup_insert_ne by discriminate; by rewrite lookup_insert_eq|]).
  rewrite !lookup_insert_ne by discriminate. by rewrite lookup_insert_eq.
Qed.

(** A 201 of the todo creation handler: the new todo, its two owning links,
    and the store afterwards. *)
Lemma todo_created req c s :
  let r := TodoRoutes.create_handler W clk req c s in
  status r.1 = 201 →
  ∃ x uuid t u nt nu,
    let p := Cypher.plus_eq ∅ (TodoRoutes.new_todo clk c (body req) uuid) in
    r.1 = Response 201 (TodoBody p)
    ∧ nodes s !! x = None
    ∧ nodes r.2 !! x = Some (Node Todo p)
    ∧ Rel BELONGS_TO x t ∈ rels r.2 ∧ nodes r.2 !! t = Some nt
    ∧ Cypher.node_is Tenant [("id", VStr (tenantId c))] nt = true
    ∧ Rel CREATED_BY x u ∈ rels r.2 ∧ nodes r.2 !! u = Some nu
    ∧ Cypher.node_is User [("id", VStr (userId c))] nu = true.
Proof.
  cbn zeta. unfold TodoRoutes.create_handler. case_bool_decide; [discriminate|].
  destruct (create_owned W Todo _ _ s).1 as [|x xs] eqn:Hc; [discriminate|]. intros _.
  destruct (create_owned_head W Todo _ c s x xs Hc)
    as (uuid & t & u & nt & nu & Hnone & Hx & Hb & Ht & Hpt & Hcr & Hu & Hpu).
  set (created := create_owned W Todo _ _ s) in *.
  cbn [fst snd].
  assert (props_at x created.2
          = Cypher.plus_eq ∅ (TodoRoutes.new_todo clk c (body req) uuid)) as ->.
  { unfold props_at. by rewrite Hx. }
  exists x, uuid, t, u, nt, nu. split; [done|]. split; [done|].
  destruct (truthy _); [|done].
  rewrite nodes_link_category. split; [done|].
  split; [apply elem_of_rels_link; by left|]. split; [done|]. split; [done|].
  split; [apply elem_of_rels_link; by left|done].
Qed.

Lemma category_created req c s :
  let r := CategoryRoutes.create_handler W clk req c s in
  status r.1 = 201 →
  ∃ x uuid t u nt nu,
    let p := Cypher.plus_eq ∅ (CategoryRoutes.new_category clk c (body req) uuid) in
    r.1 = Response 201 (CategoryBody p)
    ∧ nodes s !! x = None
    ∧ nodes r.2 !! x = Some (Node Category p)
    ∧ Rel BELONGS_TO x t ∈ rels r.2 ∧ nodes r.2 !! t = Some nt
    ∧ Cypher.node_is Tenant [("id", VStr (tenantId c))] nt = true
    ∧ Rel CREATED_BY x u ∈ rels r.2 ∧ nodes r.2 !! u = Some nu
    ∧ Cypher.node_is User [("id", VStr (userId c))] nu = true.
Proof.
  cbn zeta. unfold CategoryRoutes.create_handler. case_bool_decide; [discriminate|].
  destruct (create_owned W Category _ _ s).1 as [|x xs] eqn:Hc; [discriminate|]. intros _.
  destruct (create_owned_head W Category _ c s x xs Hc)
    as (uuid & t & u & nt & nu & Hnone & Hx & Hb & Ht & Hpt & Hcr & Hu & Hpu).
  set (created := create_owned W Category _ _ s) in *.
  cbn [fst snd].
  assert (props_at x created.2
          = Cypher.plus_eq ∅ (CategoryRoutes.new_category clk c (body req) uuid)) as ->.
  { unfold props_at. by rewrite Hx. }
  exists x, uuid, t, u, nt, nu. done.
Qed.

End Created.

(** X13. A todo that was just created can be read back by its creator: after
    a 201 of POST /api/todos, the todo of the answer is an element of the
    creator's GET /api/todos list, and GET /api/todos/:id with the [id] of the
    answer gives 200 with a todo of that [id]. *)
Theorem created_todo_is_readable W clk req s c req' :
  requireAuth W req = inr c → requireAuth W req' = inr c →
  status (TodoRoutes.create W clk req s).1 = 201 →
  let s' := (TodoRoutes.create W clk req s).2 in
  ∃ p id,
    sent (TodoRoutes.create W clk req s).1 = TodoBody p
    ∧ p !! "id" = Some (VStr id)
    ∧ (∃ todos, (TodoRoutes.list_all W req' s').1 = Response 200 (TodosBody todos)
                ∧ p ∈ todos)
    ∧ (param_id req' = id →
       ∃ q, (TodoRoutes.get W req' s').1 = Response 200 (TodoBody q)
            ∧ q !! "id" = Some (VStr id)).
Proof.
  intros Hauth Hauth'. unfold TodoRoutes.create, serve, validate.
  rewrite Hauth. cbn [and_then].
  destruct (TodoRoutes.createTodoSchema (body req)); [|discriminate]. cbn [and_then].
  intros H201.
  destruct (todo_created W clk req c s H201)
    as (x & uuid & t & u & nt & nu & Hr & Hnone & Hx & Hb & Ht & Hpt & Hcr & Hu & Hpu).
  cbn zeta in *.
  set (r := TodoRoutes.create_handler W clk req c s) in *.
  set (p := Cypher.plus_eq ∅ (TodoRoutes.new_todo clk c (body req) uuid)) in *.
  destruct (new_todo_lookup clk c (body req) uuid) as (Hid & _). fold p in Hid.
  exists p, uuid. split; [by rewrite Hr|]. split; [done|]. split.
  - unfold TodoRoutes.list_all, serve, TodoRoutes.list_handler. rewrite Hauth'.
    eexists. split; [reflexivity|].
    apply (list_elem_of_fmap_2' (λ y, props_at y r.2) _ x).
    + apply elem_of_order_by_desc, elem_of_owned.
      exists t, u, (Node Todo p), nt, nu. done.
    + unfold props_at. by rewrite Hx.
  - intros Hparam. unfold TodoRoutes.get, serve. rewrite Hauth'.
    destruct (get_found_todo req' c r.2 x) as (q & -> & Hq).
    + apply elem_of_owned. exists t, u, (Node Todo p), nt, nu.
      split; [done|]. split; [|done]. apply node_is_prop. split; [done|].
      by rewrite Hparam.
    + exists q. split; [done|]. by rewrite <- Hparam.
Qed.

Lemma created_todo_is_readable_witness :
  let req := Demo.todo_request "carol" "groceries" [] in
  let req' := Request (Demo.bearer "carol") "uuid-5" ∅ in
  requireAuth Demo.world req = inr (Claims "uuid-4" "uuid-0" "member")
  ∧ requireAuth Demo.world req' = inr (Claims "uuid-4" "uuid-0" "member")
  ∧ status (TodoRoutes.create Demo.world Demo.clk req Demo.base).1 = 201
  ∧ status (TodoRoutes.get Demo.world req'
              (TodoRoutes.create Demo.world Demo.clk req Demo.base).2).1 = 200.
Proof.
  intros req req'.
  assert (status (TodoRoutes.create Demo.world Demo.clk req Demo.base).1 = 201) as H201
    by (vm_compute; reflexivity).
  split; [vm_compute; reflexivity|]. split; [vm_compute; reflexivity|].
  split; [exact H201|].
  destruct (created_todo_is_readable Demo.world Demo.clk req Demo.base
              (Claims "uuid-4" "uuid-0" "member") req')
    as (p & id & Hsent & Hid & _ & Hget); [vm_compute; reflexivity..|exact H201|].
  destruct Hget as (q & Hq & _); [|by rewrite Hq].
  vm_compute in Hsent. injection Hsent as <-. vm_compute in Hid. by injection Hid as <-.
Defined.

(** X14. The POST routes take ownership from the token and nothing else from
    outside the schema: the todo answered with 201 carries the token's
    [user_id] and [tenant_id] and the handling time as [created_at] and
    [updated_at], and has no property outside the twelve keys of the create
    query, whatever further keys the body carries; likewise for a category
    and its seven keys. *)
Theorem create_takes_ownership_from_token W clk req s c :
  requireAuth W req = inr c →
  (status (TodoRoutes.create W clk req s).1 = 201 →
   ∃ p, sent (TodoRoutes.create W clk req s).1 = TodoBody p
        ∧ p !! "user_id" = Some (VStr (userId c))
        ∧ p !! "tenant_id" = Some (VStr (tenantId c))
        ∧ p !! "created_at" = Some (VStr (now clk))
        ∧ p !! "updated_at" = Some (VStr (now clk))
        ∧ ∀ k, k ∉ ["id"; "title"; "description"; "is_completed"; "due_date"; "priority";
                    "completed_at"; "created_at"; "updated_at"; "user_id"; "tenant_id";
                    "category_id"] → p !! k = None)
  ∧ (status (CategoryRoutes.create W clk req s).1 = 201 →
     ∃ p, sent (CategoryRoutes.create W clk req s).1 = CategoryBody p
          ∧ p !! "user_id" = Some (VStr (userId c))
          ∧ p !! "tenant_id" = Some (VStr (tenantId c))
          ∧ p !! "created_at" = Some (VStr (now clk))
          ∧ ∀ k, k ∉ ["id"; "name"; "color"; "icon"; "created_at"; "user_id"; "tenant_id"]
                 → p !! k = None).
Proof.
  intros Hauth. split.
  - unfold TodoRoutes.create, serve, validate. rewrite Hauth. cbn [and_then].
    destruct (TodoRoutes.createTodoSchema (body req)); [|discriminate]. cbn [and_then].
    intros H201.
    destruct (todo_created W clk req c s H201) as (x & uuid & t & u & nt & nu & Hr & _).
    cbn zeta in Hr. rewrite Hr. cbn [sent].
    destruct (new_todo_lookup clk c (body req) uuid) as (_ & H1 & H2 & H3 & H4).
    eexists. split; [reflexivity|]. split; [done|]. split; [done|]. split; [done|].
    split; [done|]. intros k Hk. rewrite lookup_plus_eq. unfold TodoRoutes.new_todo.
    rewrite not_elem_of_list_to_map_1 by exact Hk. apply lookup_empty.
  - unfold CategoryRoutes.create, serve, validate. rewrite Hauth. cbn [and_then].
    destruct (CategoryRoutes.createCategorySchema (body req)); [|discriminate].
    cbn [and_then]. intros H201.
    destruct (category_created W clk req c s H201) as (x & uuid & t & u & nt & nu & Hr & _).
    cbn zeta in Hr. rewrite Hr. cbn [sent].
    destruct (new_category_lookup clk c (body req) uuid) as (_ & H1 & H2 & H3).
    eexists. split; [reflexivity|]. split; [done|]. split; [done|]. split; [done|].
    intros k Hk. rewrite lookup_plus_eq. unfold CategoryRoutes.new_category.
    rewrite not_elem_of_list_to_map_1 by exact Hk. apply lookup_empty.
Qed.

Lemma create_takes_ownership_from_token_witness :
  let req := Demo.todo_request "carol" "groceries"
               [("tenant_id", VStr "uuid-2"); ("user_id", VStr "uuid-3");
                ("owner", VStr "bob")] in
  requireAuth Demo.world req = inr (Claims "uuid-4" "uuid-0" "member")
  ∧ status (TodoRoutes.create Demo.world Demo.clk req Demo.base).1 = 201
  ∧ ∃ p, sent (TodoRoutes.create Demo.world Demo.clk req Demo.base).1 = TodoBody p
         ∧ p !! "tenant_id" = Some (VStr "uuid-0")
         ∧ p !! "user_id" = Some (VStr "uuid-4")
         ∧ p !! "owner" = None.
Proof.
  intros req.
  assert (requireAuth Demo.world req = inr (Claims "uuid-4" "uuid-0" "member")) as Hauth
    by (vm_compute; reflexivity).
  assert (status (TodoRoutes.create Demo.world Demo.clk req Demo.base).1 = 201) as H201
    by (vm_compute; reflexivity).
  split; [exact Hauth|]. split; [exact H201|].
  destruct (proj1 (create_takes_ownership_from_token Demo.world Demo.clk req Demo.base
                     _ Hauth) H201) as (p & Hsent & Hu & Ht & _ & _ & Hk).
  exists p. split; [done|]. split; [done|]. split; [done|]. apply Hk.
  apply (bool_decide_unpack _). vm_compute. exact I.
Defined.

(** X15. A category that was just created can be read back by its creator:
    after a 201 of POST /api/categories, the category of the answer is an
    element of the creator's GET /api/categories list, and
    GET /api/categories/:id with the [id] of the answer gives 200 with a
    category of that [id]. *)
Theorem created_category_is_readable W clk req s c req' :
  requireAuth W req = inr c → requireAuth W req' = inr c →
  status (CategoryRoutes.create W clk req s).1 = 201 →
  let s' := (CategoryRoutes.create W clk req s).2 in
  ∃ p id,
    sent (CategoryRoutes.create W clk req s).1 = CategoryBody p
    ∧ p !! "id" = Some (VStr id)
    ∧ (∃ cats, (CategoryRoutes.list_all W req' s').1 = Response 200 (CategoriesBody cats)
               ∧ p ∈ cats)
    ∧ (param_id req' = id →
       ∃ q, (CategoryRoutes.get W req' s').1 = Response 200 (CategoryBody q)
            ∧ q !! "id" = Some (VStr id)).
Proof.
  intros Hauth Hauth'. unfold CategoryRoutes.create, serve, validate.
  rewrite Hauth. cbn [and_then].
  destruct (CategoryRoutes.createCategorySchema (body req)); [|discriminate].
  cbn [and_then]. intros H201.
  destruct (category_created W clk req c s H201)
    as (x & uuid & t & u & nt & nu & Hr & Hnone & Hx & Hb & Ht & Hpt & Hcr & Hu & Hpu).
  cbn zeta in *.
  set (r := CategoryRoutes.create_handler W clk req c s) in *.
  set (p := Cypher.plus_eq ∅ (CategoryRoutes.new_category clk c (body req) uuid)) in *.
  destruct (new_category_lookup clk c (body req) uuid) as (Hid & _). fold p in Hid.
  exists p, uuid. split; [by rewrite Hr|]. split; [done|]. split.
  - unfold CategoryRoutes.list_all, serve, CategoryRoutes.list_handler. rewrite Hauth'.
    eexists. split; [reflexivity|].
    apply (list_elem_of_fmap_2' (λ y, props_at y r.2) _ x).
    + apply elem_of_order_by_desc, elem_of_owned.
      exists t, u, (Node Category p), nt, nu. done.
    + unfold props_at. by rewrite Hx.
  - intros Hparam. unfold CategoryRoutes.get, serve. rewrite Hauth'.
    destruct (get_found_category req' c r.2 x) as (q & -> & Hq).
    + apply elem_of_owned. exists t, u, (Node Category p), nt, nu.
      split; [done|]. split; [|done]. apply node_is_prop. split; [done|].
      by rewrite Hparam.
    + exists q. split; [done|]. by rewrite <- Hparam.
Qed.

Lemma created_category_is_readable_witness :
  let req := Demo.category_request "carol" "Home" in
  let req' := Request (Demo.bearer "carol") "uuid-5" ∅ in
  requireAuth Demo.world req = inr (Claims "uuid-4" "uuid-0" "member")
  ∧ requireAuth Demo.world req' = inr (Claims "uuid-4" "uuid-0" "member")
  ∧ status (CategoryRoutes.create Demo.world Demo.clk req Demo.base).1 = 201
  ∧ status (CategoryRoutes.get Demo.world req'
              (CategoryRoutes.create Demo.world Demo.clk req Demo.base).2).1 = 200.
Proof.
  intros req req'.
  assert (status (CategoryRoutes.create Demo.world Demo.clk req Demo.base).1 = 201) as H201
    by (vm_compute; reflexivity).
  split; [vm_compute; reflexivity|]. split; [vm_compute; reflexivity|].
  split; [exact H201|].
  destruct (created_category_is_readable Demo.world Demo.clk req Demo.base
              (Claims "uuid-4" "uuid-0" "member") req')
    as (p & id & Hsent & Hid & _ & Hget); [vm_compute; reflexivity..|exact H201|].
  destruct Hget as (q & Hq & _); [|by rewrite Hq].
  vm_compute in Hsent. injection Hsent as <-. vm_compute in Hid. by injection Hid as <-.
Defined.

(** ** The order of the lists *)

Section Ordering.

Implicit Types (s : store) (x : nat).

Lemma value_leb_total a b : Cypher.value_leb a b = true ∨ Cypher.value_leb b a = true.
Proof.
  destruct a as [|x|x|x|], b as [|y|y|y|]; simpl; try (by left); try (by right).
  - destruct x, y; simpl; auto.
  - destruct (Z.leb_spec x y); [by left|right]. apply Z.leb_le. lia.
  - apply String.leb_total.
Qed.

Global Instance desc_by_total k s : Total (Cypher.desc_by k s).
Proof.
  intros x y. unfold Cypher.desc_by.
  destruct (value_leb_total (from_option (Cypher.prop k) VNull (nodes s !! y))
                            (from_option (Cypher.prop k) VNull (nodes s !! x))) as [H|H];
    rewrite H; [by left|by right].
Qed.

Lemma sort_key k s x :
  from_option (Cypher.prop k) VNull (nodes s !! x) = default VNull (props_at x s !! k).
Proof. unfold props_at, Cypher.prop. by destruct (nodes s !! x). Qed.

(** [ORDER BY n.k DESC], read on the property maps that are sent. *)
Lemma ordered_rows k s xs :
  let newer_first (p q : gmap string value) :=
    Is_true (Cypher.value_leb (default VNull (q !! k)) (default VNull (p !! k))) in
  Sorted newer_first (map (λ x, props_at x s) (Cypher.order_by_desc k s xs))
  ∧ map (λ x, props_at x s) (Cypher.order_by_desc k s xs) ≡ₚ map (λ x, props_at x s) xs.
Proof.
  cbn zeta. split.
  - apply (Sorted_fmap _ (Cypher.desc_by k s)).
    + intros x y. unfold Cypher.desc_by. by rewrite !sort_key.
    + apply Sorted_merge_sort. apply _.
  - apply Permutation_map. apply merge_sort_Permutation.
Qed.

End Ordering.

(** X16. The lists come newest first: the answer of GET /api/todos holds
    exactly the property maps of the todos matched in the caller's tenant and
    owner scope, each as often as it is matched, in an order in which every
    todo's [created_at] is at least that of the todo after it; likewise for
    GET /api/categories. *)
Theorem lists_are_newest_first W req s c :
  requireAuth W req = inr c →
  let newer_first (p q : gmap string value) :=
    Is_true (Cypher.value_leb (default VNull (q !! "created_at"))
                              (default VNull (p !! "created_at"))) in
  (∃ todos,
     (TodoRoutes.list_all W req s).1 = Response 200 (TodosBody todos)
     ∧ Sorted newer_first todos
     ∧ todos ≡ₚ map (λ x, props_at x s)
                    (Cypher.owned (Cypher.node_is Todo []) (tenantId c) (userId c) s))
  ∧ (∃ cats,
       (CategoryRoutes.list_all W req s).1 = Response 200 (CategoriesBody cats)
       ∧ Sorted newer_first cats
       ∧ cats ≡ₚ map (λ x, props_at x s)
                     (Cypher.owned (Cypher.node_is Category []) (tenantId c) (userId c) s)).
Proof.
  intros Hauth. cbn zeta.
  unfold TodoRoutes.list_all, CategoryRoutes.list_all, serve,
    TodoRoutes.list_handler, CategoryRoutes.list_handler.
  rewrite Hauth. cbn [fst].
  split; (eexists; split; [reflexivity|]); apply ordered_rows.
Qed.

Lemma lists_are_newest_first_witness :
  let req := Request (Demo.bearer "alice") "" ∅ in
  let s := (TodoRoutes.create Demo.world Demo.later
              (Demo.todo_request "alice" "a2" []) Demo.with_todos).2 in
  let newer_first (p q : gmap string value) :=
    Is_true (Cypher.value_leb (default VNull (q !! "created_at"))
                              (default VNull (p !! "created_at"))) in
  requireAuth Demo.world req = inr (Claims "uuid-1" "uuid-0" "admin")
  ∧ ∃ todos, (TodoRoutes.list_all Demo.world req s).1 = Response 200 (TodosBody todos)
             ∧ Sorted newer_first todos
             ∧ (λ p, default VNull (p !! "title")) <$> todos = [VStr "a2"; VStr "a1"].
Proof.
  intros req s newer_first.
  assert (requireAuth Demo.world req = inr (Claims "uuid-1" "uuid-0" "admin")) as Hauth
    by (vm_compute; reflexivity).
  split; [exact Hauth|].
  destruct (proj1 (lists_are_newest_first Demo.world req s _ Hauth))
    as (todos & Hlist & Hsorted & _).
  exists todos. split; [exact Hlist|]. split; [exact Hsorted|].
  assert (sent (TodoRoutes.list_all Demo.world req s).1 = TodosBody todos) as E
    by (by rewrite Hlist).
  vm_compute in E. injection E as <-. vm_compute. reflexivity.
Defined.

(** ** Updates *)

Section Updates.

Implicit Types (s : store) (x y : nat) (b p : gmap string value).

Lemma lookup_set_props_label xs f s y :
  label_of <$> nodes (Cypher.set_props xs f s) !! y = label_of <$> nodes s !! y.
Proof.
  unfold Cypher.set_props. cbn [nodes]. induction xs as [|a xs IH]; [done|].
  cbn [foldr]. destruct (decide (a = y)) as [->|Hne].
  - rewrite lookup_alter_eq, <- IH. by destruct (foldr _ _ _ !! y).
  - by rewrite lookup_alter_ne.
Qed.

Lemma nodes_unlink_category id s : nodes (unlink_category id s) = nodes s.
Proof. done. Qed.

Lemma updateMap_other clk b k :
  k ∉ ["updated_at"; "completed_at"] → TodoRoutes.updateMap clk b !! k = b !! k.
Proof.
  intros Hk. rewrite !elem_of_cons, elem_of_nil in Hk. unfold TodoRoutes.updateMap.
  repeat case_bool_decide; rewrite ?lookup_insert_ne by (intros <-; tauto); done.
Qed.

Lemma updateMap_updated_at clk b :
  TodoRoutes.updateMap clk b !! "updated_at" = Some (VStr (now clk)).
Proof.
  unfold TodoRoutes.updateMap.
  repeat case_bool_decide; rewrite ?lookup_insert_ne by discriminate;
    by rewrite lookup_insert_eq.
Qed.

(** The nodes and the answer after a successful todo update. *)
Lemma todo_update_handler_frame clk req c s :
  let r := TodoRoutes.update_handler clk req c s in
  let rows := Cypher.owned (Cypher.node_is Todo [("id", VStr (param_id req))])
                           (tenantId c) (userId c) s in
  let s1 := Cypher.set_props rows
              (λ p, Cypher.plus_eq p (TodoRoutes.updateMap clk (body req))) s in
  status r.1 = 200 →
  nodes r.2 = nodes s1
  ∧ ∃ x xs, rows = x :: xs ∧ r.1 = Response 200 (TodoBody (props_at x s1)).
Proof.
  cbn zeta. unfold TodoRoutes.update_handler.
  destruct (Cypher.owned _ _ _ s) as [|x xs] eqn:Hrows; [discriminate|].
  destruct (negb _); [discriminate|]. intros _. cbn [fst snd]. split; [|by eauto].
  case_bool_decide; [|done]. destruct (truthy _); [|done].
  by rewrite nodes_link_category.
Qed.

Lemma todo_update_handler_rels clk req c s rl :
  rtype rl ≠ HAS_CATEGORY →
  rl ∈ rels (TodoRoutes.update_handler clk req c s).2 ↔ rl ∈ rels s.
Proof.
  intros Hty. unfold TodoRoutes.update_handler.
  destruct (Cypher.owned _ _ _ s) as [|x xs] eqn:Hrows; [done|].
  destruct (negb _); [done|]. cbn [snd].
  case_bool_decide; [|done].
  assert (rl ∈ rels (unlink_category (param_id req)
                       (Cypher.set_props (x :: xs)
                          (λ p, Cypher.plus_eq p (TodoRoutes.updateMap clk (body req))) s))
          ↔ rl ∈ rels s) as Hun.
  { rewrite elem_of_rels_unlink. cbn [Cypher.set_props rels]. split; [by intros [? _]|].
    intros Hin. split; [done|]. by intros [? _]. }
  destruct (truthy _); [|done].
  rewrite elem_of_rels_link, Hun. split; [|by left].
  intros [?|(a & d & -> & _)]; [done|]. by destruct Hty.
Qed.

End Updates.

(** X17. PUT /api/todos/:id is a partial update. A 200 means that some todo
    with the requested [id] was matched in the caller's tenant and owner
    scope, and the todo of the answer is that todo's property map changed as
    follows: [updated_at] is the handling time; every other key except
    [completed_at] takes the body's value when the body has the key (a null
    removes it) and keeps its stored value otherwise. Nodes that the scoped
    match does not return are left as they were. *)
Theorem todo_update_is_partial W clk req s c :
  requireAuth W req = inr c →
  status (TodoRoutes.update W clk req s).1 = 200 →
  let rows := Cypher.owned (Cypher.node_is Todo [("id", VStr (param_id req))])
                           (tenantId c) (userId c) s in
  ∃ x nd p',
    x ∈ rows ∧ nodes s !! x = Some nd
    ∧ sent (TodoRoutes.update W clk req s).1 = TodoBody p'
    ∧ nodes (TodoRoutes.update W clk req s).2 !! x = Some (Node Todo p')
    ∧ p' !! "updated_at" = Some (VStr (now clk))
    ∧ (∀ k, k ∉ ["updated_at"; "completed_at"] →
            p' !! k = match body req !! k with
                      | Some VNull => None
                      | Some v => Some v
                      | None => props nd !! k
                      end)
    ∧ (∀ y, y ∉ rows →
            nodes (TodoRoutes.update W clk req s).2 !! y = nodes s !! y).
Proof.
  intros Hauth. unfold TodoRoutes.update, serve, validate. rewrite Hauth. cbn [and_then].
  destruct (TodoRoutes.updateTodoSchema (body req)); [|discriminate]. cbn [and_then].
  intros H200. cbn zeta.
  destruct (todo_update_handler_frame clk req c s H200) as (Hnodes & x & xs & Hrows & Hr).
  set (rows := Cypher.owned _ _ _ s) in *.
  set (f := λ p : gmap string value,
              Cypher.plus_eq p (TodoRoutes.updateMap clk (body req))) in *.
  assert (x ∈ rows) as Hx by (rewrite Hrows; by left).
  pose proof Hx as Hx'. apply elem_of_owned in Hx' as (t & u & nd & _ & _ & Hnd & Hpx & _).
  assert (nodes (Cypher.set_props rows f s) !! x = Some (Node Todo (f (props nd)))) as Hnew.
  { rewrite lookup_set_props_in; [|intros p; apply plus_eq_idemp|done].
    rewrite Hnd. cbn [fmap option_fmap option_map]. do 2 f_equal.
    by eapply node_is_label. }
  exists x, nd, (f (props nd)). split; [done|]. split; [done|].
  split; [rewrite Hr; cbn [sent]; unfold props_at; by rewrite Hnew|].
  split; [by rewrite Hnodes|].
  split; [unfold f; rewrite lookup_plus_eq; by rewrite updateMap_updated_at|].
  split.
  - intros k Hk. unfold f. rewrite lookup_plus_eq. by rewrite updateMap_other.
  - intros y Hy. rewrite Hnodes. by apply lookup_set_props_notin.
Qed.

Lemma todo_update_is_partial_witness :
  let req := Request (Demo.bearer "alice") "uuid-6" (Demo.obj [("title", VStr "renamed")]) in
  requireAuth Demo.world req = inr (Claims "uuid-1" "uuid-0" "admin")
  ∧ status (TodoRoutes.update Demo.world Demo.later req Demo.with_todos).1 = 200
  ∧ ∃ p', sent (TodoRoutes.update Demo.world Demo.later req Demo.with_todos).1 = TodoBody p'
          ∧ p' !! "title" = Some (VStr "renamed")
          ∧ p' !! "updated_at" = Some (VStr (now Demo.later)).
Proof.
  intros req.
  assert (requireAuth Demo.world req = inr (Claims "uuid-1" "uuid-0" "admin")) as Hauth
    by (vm_compute; reflexivity).
  assert (status (TodoRoutes.update Demo.world Demo.later req Demo.with_todos).1 = 200)
    as H200 by (vm_compute; reflexivity).
  split; [exact Hauth|]. split; [exact H200|].
  destruct (todo_update_is_partial Demo.world Demo.later req Demo.with_todos _ Hauth H200)
    as (x & nd & p' & _ & _ & Hsent & _ & Hup & Hk & _).
  exists p'. split; [exact Hsent|]. split; [|exact Hup].
  rewrite Hk; [vm_compute; reflexivity|].
  apply (bool_decide_unpack _). vm_compute. exact I.
Defined.

Section Ownership.

Implicit Types (s : store) (x y : nat).

(** The scoped reading pattern sees the same nodes in two stores that agree
    on labels, on tenant and user nodes, and on the owning links. *)
Lemma owned_frame l T U s s' y :
  (∀ z, label_of <$> nodes s' !! z = label_of <$> nodes s !! z) →
  (∀ z nd, nodes s !! z = Some nd → label_of nd = Tenant ∨ label_of nd = User →
           nodes s' !! z = Some nd) →
  (∀ r, rtype r = BELONGS_TO ∨ rtype r = CREATED_BY → (r ∈ rels s' ↔ r ∈ rels s)) →
  y ∈ Cypher.owned (Cypher.node_is l []) T U s' ↔ y ∈ Cypher.owned (Cypher.node_is l []) T U s.
Proof.
  intros Hlab Hkeep Hrels.
  assert (∀ z nd', nodes s' !! z = Some nd' →
            label_of nd' = Tenant ∨ label_of nd' = User → nodes s !! z = Some nd') as Hback.
  { intros z nd' Hz Hl. pose proof (Hlab z) as E. rewrite Hz in E.
    destruct (nodes s !! z) as [nd|] eqn:Hz0; [|discriminate]. cbn in E.
    injection E as E. rewrite (Hkeep z nd Hz0) in Hz by (by rewrite <- E).
    done. }
  rewrite !elem_of_owned. split.
  - intros (t & u & nx & nt & nu & Hx & Hpx & Hb & Ht & Hpt & Hc & Hu & Hpu).
    pose proof (Hlab y) as E. rewrite Hx in E.
    destruct (nodes s !! y) as [nx0|] eqn:Hx0; [|discriminate]. cbn in E. injection E as E.
    exists t, u, nx0, nt, nu. split; [done|].
    split; [unfold Cypher.node_is in *; cbn [forallb] in *; by rewrite <- E|].
    split; [apply Hrels; [by left|done]|].
    split; [apply Hback; [done|left; by eapply node_is_label]|]. split; [done|].
    split; [apply Hrels; [by right|done]|].
    split; [apply Hback; [done|right; by eapply node_is_label]|done].
  - intros (t & u & nx & nt & nu & Hx & Hpx & Hb & Ht & Hpt & Hc & Hu & Hpu).
    pose proof (Hlab y) as E. rewrite Hx in E.
    destruct (nodes s' !! y) as [nx'|] eqn:Hx'; [|discriminate]. cbn in E. injection E as E.
    exists t, u, nx', nt, nu. split; [done|].
    split; [unfold Cypher.node_is in *; cbn [forallb] in *; by rewrite E|].
    split; [apply Hrels; [by left|done]|].
    split; [apply Hkeep; [done|left; by eapply node_is_label]|]. split; [done|].
    split; [apply Hrels; [by right|done]|].
    split; [apply Hkeep; [done|right; by eapply node_is_label]|done].
Qed.

Lemma set_props_keeps l kvs T U xs f s z nd :
  (∀ x, x ∈ xs → x ∈ Cypher.owned (Cypher.node_is l kvs) T U s) →
  l ≠ Tenant → l ≠ User →
  nodes s !! z = Some nd → label_of nd = Tenant ∨ label_of nd = User →
  nodes (Cypher.set_props xs f s) !! z = Some nd.
Proof.
  intros Hxs Hl1 Hl2 Hz Hlab. rewrite lookup_set_props_notin; [done|].
  intros Hin. apply Hxs in Hin.
  pose proof (owned_rows_label l kvs T U s z nd Hin Hz) as E.
  destruct Hlab; congruence.
Qed.

Lemma todo_update_handler_ownership clk req c s l T U y :
  y ∈ Cypher.owned (Cypher.node_is l []) T U (TodoRoutes.update_handler clk req c s).2
  ↔ y ∈ Cypher.owned (Cypher.node_is l []) T U s.
Proof.
  apply owned_frame.
  - intros z. unfold TodoRoutes.update_handler.
    destruct (Cypher.owned _ _ _ s) as [|x xs] eqn:Hrows; [done|].
    destruct (negb _); [done|]. cbn [snd].
    case_bool_decide; [destruct (truthy _)|];
      rewrite ?nodes_link_category, ?nodes_unlink_category; apply lookup_set_props_label.
  - intros z nd Hz Hlab. unfold TodoRoutes.update_handler.
    destruct (Cypher.owned _ _ _ s) as [|x xs] eqn:Hrows; [done|].
    destruct (negb _); [done|]. cbn [snd].
    assert (nodes (Cypher.set_props (x :: xs)
                     (λ p, Cypher.plus_eq p (TodoRoutes.updateMap clk (body req))) s) !! z
            = Some nd) as Hkeep.
    { eapply (set_props_keeps Todo); [|done|done|done|done].
      intros x' Hx'. rewrite <- Hrows in Hx'. exact Hx'. }
    case_bool_decide; [destruct (truthy _)|];
      rewrite ?nodes_link_category, ?nodes_unlink_category; exact Hkeep.
  - intros r Hr. apply todo_update_handler_rels. destruct Hr as [-> | ->]; discriminate.
Qed.

Lemma category_update_handler_ownership req c s l T U y :
  y ∈ Cypher.owned (Cypher.node_is l []) T U (CategoryRoutes.update_handler req c s).2
  ↔ y ∈ Cypher.owned (Cypher.node_is l []) T U s.
Proof.
  apply owned_frame.
  - intros z. unfold CategoryRoutes.update_handler.
    destruct (Cypher.owned _ _ _ s) as [|x xs] eqn:Hrows; [done|].
    destruct (negb _); [done|]. cbn [snd]. apply lookup_set_props_label.
  - intros z nd Hz Hlab. unfold CategoryRoutes.update_handler.
    destruct (Cypher.owned _ _ _ s) as [|x xs] eqn:Hrows; [done|].
    destruct (negb _); [done|]. cbn [snd].
    eapply (set_props_keeps Category); [|done|done|done|done].
    intros x' Hx'. rewrite <- Hrows in Hx'. exact Hx'.
  - intros r _. unfold CategoryRoutes.update_handler.
    destruct (Cypher.owned _ _ _ s) as [|x xs] eqn:Hrows; [done|].
    by destruct (negb _).
Qed.

End Ownership.

(** X18. An update never moves a node between owners. Whatever the request
    and its body, the todos (or categories) matched in the scope of any
    tenant and user are the same nodes after PUT /api/todos/:id and after
    PUT /api/categories/:id as before: the scope follows the BELONGS_TO and
    CREATED_BY links, which no update touches, and not the [tenant_id] and
    [user_id] properties, which a body can overwrite. *)
Theorem update_keeps_ownership W clk req s l T U y :
  (y ∈ Cypher.owned (Cypher.node_is l []) T U (TodoRoutes.update W clk req s).2
   ↔ y ∈ Cypher.owned (Cypher.node_is l []) T U s)
  ∧ (y ∈ Cypher.owned (Cypher.node_is l []) T U (CategoryRoutes.update W req s).2
     ↔ y ∈ Cypher.owned (Cypher.node_is l []) T U s).
Proof.
  split.
  - unfold TodoRoutes.update, serve.
    destruct (_ <- requireAuth W req;; _) as [r|c]; [done|].
    apply todo_update_handler_ownership.
  - unfold CategoryRoutes.update, serve.
    destruct (_ <- requireAuth W req;; _) as [r|c]; [done|].
    apply category_update_handler_ownership.
Qed.

(** X19. PUT /api/categories/:id merges the body as it came. A 200 means
    that some category with the requested [id] was matched in the caller's
    tenant and owner scope, and the category of the answer is that category's
    property map in which every key of the body, inside the schema or not,
    has the body's value (a null removes the key) and every other key its
    stored value. Nodes that the scoped match does not return and all
    relationships are left as they were. *)
Theorem category_update_merges_body W req s c :
  requireAuth W req = inr c →
  status (CategoryRoutes.update W req s).1 = 200 →
  let rows := Cypher.owned (Cypher.node_is Category [("id", VStr (param_id req))])
                           (tenantId c) (userId c) s in
  ∃ x nd p',
    x ∈ rows ∧ nodes s !! x = Some nd
    ∧ sent (CategoryRoutes.update W req s).1 = CategoryBody p'
    ∧ nodes (CategoryRoutes.update W req s).2 !! x = Some (Node Category p')
    ∧ (∀ k, p' !! k = match body req !! k with
                      | Some VNull => None
                      | Some v => Some v
                      | None => props nd !! k
                      end)
    ∧ (∀ y, y ∉ rows → nodes (CategoryRoutes.update W req s).2 !! y = nodes s !! y)
    ∧ rels (CategoryRoutes.update W req s).2 = rels s.
Proof.
  intros Hauth. unfold CategoryRoutes.update, serve, validate. rewrite Hauth. cbn [and_then].
  destruct (CategoryRoutes.updateCategorySchema (body req)); [|discriminate].
  cbn [and_then]. cbn zeta. unfold CategoryRoutes.update_handler.
  destruct (Cypher.owned _ _ _ s) as [|x xs] eqn:Hrows; [discriminate|].
  destruct (negb _); [discriminate|]. intros _. cbn [fst snd sent].
  set (f := λ p : gmap string value, Cypher.plus_eq p (body req)).
  assert (x ∈ Cypher.owned (Cypher.node_is Category [("id", VStr (param_id req))])
                           (tenantId c) (userId c) s) as Hx by (rewrite Hrows; by left).
  pose proof Hx as Hx'. apply elem_of_owned in Hx' as (t & u & nd & _ & _ & Hnd & Hpx & _).
  rewrite Hrows in Hx.
  assert (nodes (Cypher.set_props (x :: xs) f s) !! x
          = Some (Node Category (f (props nd)))) as Hnew.
  { rewrite lookup_set_props_in; [|intros p; apply plus_eq_idemp|done].
    rewrite Hnd. cbn [fmap option_fmap option_map]. do 2 f_equal.
    by eapply node_is_label. }
  exists x, nd, (f (props nd)). split; [done|]. split; [done|].
  split; [unfold props_at; by rewrite Hnew|]. split; [done|].
  split; [intros k; apply lookup_plus_eq|]. split; [|done].
  intros y Hy. by apply lookup_set_props_notin.
Qed.

Lemma category_update_merges_body_witness :
  let req := Request (Demo.bearer "alice") "uuid-5"
               (Demo.obj [("color", VStr "#000000"); ("tenant_id", VStr "uuid-2")]) in
  requireAuth Demo.world req = inr (Claims "uuid-1" "uuid-0" "admin")
  ∧ status (CategoryRoutes.update Demo.world req Demo.with_category).1 = 200
  ∧ ∃ p', sent (CategoryRoutes.update Demo.world req Demo.with_category).1 = CategoryBody p'
          ∧ p' !! "color" = Some (VStr "#000000")
          ∧ p' !! "tenant_id" = Some (VStr "uuid-2").
Proof.
  intros req.
  assert (requireAuth Demo.world req = inr (Claims "uuid-1" "uuid-0" "admin")) as Hauth
    by (vm_compute; reflexivity).
  assert (status (CategoryRoutes.update Demo.world req Demo.with_category).1 = 200)
    as H200 by (vm_compute; reflexivity).
  split; [exact Hauth|]. split; [exact H200|].
  destruct (category_update_merges_body Demo.world req Demo.with_category _ Hauth H200)
    as (x & nd & p' & _ & _ & Hsent & _ & Hk & _).
  exists p'. split; [exact Hsent|].
  split; rewrite Hk; vm_compute; reflexivity.
Defined.

(** ** Deletions *)

Section Deletions.

Implicit Types (s : store) (x y : nat).

Lemma lookup_detach_delete_in xs s x :
  x ∈ xs → nodes (Cypher.detach_delete xs s) !! x = None.
Proof.
  unfold Cypher.detach_delete. cbn [nodes]. induction xs as [|a xs IH]; intros Hx.
  { by apply elem_of_nil in Hx. }
  cbn [foldr]. destruct (decide (a = x)) as [->|Hne]; [apply lookup_delete_eq|].
  rewrite lookup_delete_ne by done. apply IH.
  apply elem_of_cons in Hx as [->|Hx]; done.
Qed.

Lemma lookup_detach_delete_Some xs s y nd :
  nodes (Cypher.detach_delete xs s) !! y = Some nd ↔ nodes s !! y = Some nd ∧ y ∉ xs.
Proof.
  destruct (decide (y ∈ xs)) as [Hin|Hout].
  - rewrite lookup_detach_delete_in by done. split; [discriminate|tauto].
  - rewrite lookup_detach_delete_notin by done. tauto.
Qed.

Lemma elem_of_rels_detach_delete xs s r :
  r ∈ rels (Cypher.detach_delete xs s) ↔ r ∈ rels s ∧ (rsrc r ∉ xs) ∧ (rdst r ∉ xs).
Proof.
  unfold Cypher.detach_delete. cbn [rels].
  rewrite list_elem_of_In, filter_In, <- list_elem_of_In.
  rewrite negb_true_iff, orb_false_iff, !bool_decide_eq_false. tauto.
Qed.

(** Once the rows of a scoped pattern are deleted, the pattern finds
    nothing. *)
Lemma owned_after_delete px T U s :
  Cypher.owned px T U (Cypher.detach_delete (Cypher.owned px T U s) s) = [].
Proof.
  apply elem_of_nil_inv. intros x Hx.
  apply elem_of_owned in Hx as (t & u & nx & nt & nu & Hx & Hpx & Hb & Ht & Hpt & Hc & Hu & Hpu).
  apply lookup_detach_delete_Some in Hx as [Hx Hout]. apply Hout.
  apply lookup_detach_delete_Some in Ht as [Ht _].
  apply lookup_detach_delete_Some in Hu as [Hu _].
  apply elem_of_rels_detach_delete in Hb as [Hb _].
  apply elem_of_rels_detach_delete in Hc as [Hc _].
  apply elem_of_owned. exists t, u, nx, nt, nu. done.
Qed.

Lemma in_tenant_after_delete px T s :
  Cypher.in_tenant px T (Cypher.detach_delete (Cypher.in_tenant px T s) s) = [].
Proof.
  apply elem_of_nil_inv. intros x Hx.
  apply elem_of_in_tenant in Hx as (t & nx & nt & Hx & Hpx & Hb & Ht & Hpt).
  apply lookup_detach_delete_Some in Hx as [Hx Hout]. apply Hout.
  apply lookup_detach_delete_Some in Ht as [Ht _].
  apply elem_of_rels_detach_delete in Hb as [Hb _].
  apply elem_of_in_tenant. exists t, nx, nt. done.
Qed.

Lemma owned_in_tenant px T U s x :
  x ∈ Cypher.owned px T U s → x ∈ Cypher.in_tenant px T s.
Proof.
  intros Hx.
  apply elem_of_owned in Hx as (t & u & nx & nt & nu & Hx & Hpx & Hb & Ht & Hpt & _).
  apply elem_of_in_tenant. exists t, nx, nt. done.
Qed.

End Deletions.

(** X20. A deleted todo is gone for the whole tenant: after an admin's
    DELETE /api/todos/:id, whatever it answered, GET /api/todos/:id on the
    same [id] is answered 404 "Todo not found" for every caller whose token
    names the admin's tenant. *)
Theorem deleted_todo_is_gone W req s c req' c' :
  requireAuth W req = inr c → role c = "admin" →
  requireAuth W req' = inr c' → tenantId c' = tenantId c →
  param_id req' = param_id req →
  (TodoRoutes.get W req' (TodoRoutes.remove W req s).2).1
  = Response 404 (Message false "Todo not found").
Proof.
  intros Hauth Hrole Hauth' HT Hid.
  unfold TodoRoutes.remove, serve, requireAdmin. rewrite Hauth. cbn [and_then].
  rewrite Hrole. cbn [String.eqb Ascii.eqb Bool.eqb negb and_then].
  unfold TodoRoutes.get, serve. rewrite Hauth'.
  assert ((TodoRoutes.remove_handler req c s).2
          = Cypher.detach_delete
              (Cypher.in_tenant (Cypher.node_is Todo [("id", VStr (param_id req))])
                                (tenantId c) s) s) as ->.
  { unfold TodoRoutes.remove_handler. by destruct (Nat.eqb _ 0). }
  unfold TodoRoutes.get_handler. rewrite Hid, HT.
  destruct (Cypher.owned _ _ _ _) as [|x xs] eqn:Hrows; [done|].
  assert (x ∈ x :: xs) as Hx by (by left). rewrite <- Hrows in Hx.
  apply owned_in_tenant in Hx. rewrite in_tenant_after_delete in Hx.
  by apply elem_of_nil in Hx.
Qed.

Lemma deleted_todo_is_gone_witness :
  let req := Request (Demo.bearer "alice") "uuid-8" ∅ in
  let req' := Request (Demo.bearer "carol") "uuid-8" ∅ in
  requireAuth Demo.world req = inr (Claims "uuid-1" "uuid-0" "admin")
  ∧ requireAuth Demo.world req' = inr (Claims "uuid-4" "uuid-0" "member")
  ∧ status (TodoRoutes.get Demo.world req' Demo.with_todos).1 = 200
  ∧ status (TodoRoutes.remove Demo.world req Demo.with_todos).1 = 200
  ∧ (TodoRoutes.get Demo.world req' (TodoRoutes.remove Demo.world req Demo.with_todos).2).1
    = Response 404 (Message false "Todo not found").
Proof.
  intros req req'.
  split; [vm_compute; reflexivity|]. split; [vm_compute; reflexivity|].
  split; [vm_compute; reflexivity|]. split; [vm_compute; reflexivity|].
  apply (deleted_todo_is_gone Demo.world req Demo.with_todos
           (Claims "uuid-1" "uuid-0" "admin") req' (Claims "uuid-4" "uuid-0" "member"));
    vm_compute; reflexivity.
Defined.

(** X21. What an admin's DELETE /api/todos/:id removes. The todos with the
    requested [id] that have a BELONGS_TO link to a tenant carrying the
    token's tenantId are deleted, whoever created them; when there is one the
    answer is 200 "Todo deleted", when there is none it is 404 "Todo not
    found". Every other node stays as it was, and the relationships that
    remain are exactly those that touch no deleted node. *)
Theorem admin_delete_covers_the_tenant W req s c :
  requireAuth W req = inr c → role c = "admin" →
  let matched x :=
    ∃ nd t nt, nodes s !! x = Some nd ∧ label_of nd = Todo
               ∧ props nd !! "id" = Some (VStr (param_id req))
               ∧ Rel BELONGS_TO x t ∈ rels s ∧ nodes s !! t = Some nt
               ∧ label_of nt = Tenant ∧ props nt !! "id" = Some (VStr (tenantId c)) in
  let r := TodoRoutes.remove W req s in
  ((∃ x, matched x) → r.1 = Response 200 (Message true "Todo deleted"))
  ∧ ((¬ ∃ x, matched x) → r.1 = Response 404 (Message false "Todo not found"))
  ∧ (∀ x, matched x → nodes r.2 !! x = None)
  ∧ (∀ y, ¬ matched y → nodes r.2 !! y = nodes s !! y)
  ∧ (∀ rl, rl ∈ rels r.2 ↔ rl ∈ rels s ∧ ¬ matched (rsrc rl) ∧ ¬ matched (rdst rl)).
Proof.
  intros Hauth Hrole. cbn zeta.
  unfold TodoRoutes.remove, serve, requireAdmin. rewrite Hauth. cbn [and_then].
  rewrite Hrole. cbn [String.eqb Ascii.eqb Bool.eqb negb and_then].
  set (rows := Cypher.in_tenant (Cypher.node_is Todo [("id", VStr (param_id req))])
                                (tenantId c) s).
  assert (∀ x, x ∈ rows
            ↔ ∃ nd t nt, nodes s !! x = Some nd ∧ label_of nd = Todo
                 ∧ props nd !! "id" = Some (VStr (param_id req))
                 ∧ Rel BELONGS_TO x t ∈ rels s ∧ nodes s !! t = Some nt
                 ∧ label_of nt = Tenant ∧ props nt !! "id" = Some (VStr (tenantId c)))
    as Hrows.
  { intros x. unfold rows. rewrite elem_of_in_tenant. split.
    - intros (t & nx & nt & Hx & Hpx & Hb & Ht & Hpt).
      apply node_is_prop in Hpx as [? ?]. apply node_is_prop in Hpt as [? ?].
      exists nx, t, nt. done.
    - intros (nx & t & nt & Hx & Hl & Hp & Hb & Ht & Hlt & Hpt).
      exists t, nx, nt. split; [done|]. split; [by apply node_is_prop|].
      split; [done|]. split; [done|]. by apply node_is_prop. }
  assert ((TodoRoutes.remove_handler req c s).2 = Cypher.detach_delete rows s) as ->.
  { unfold TodoRoutes.remove_handler. fold rows. by destruct (Nat.eqb _ 0). }
  split; [|split; [|split; [|split]]].
  - intros [x Hx]. apply Hrows in Hx. unfold TodoRoutes.remove_handler. fold rows.
    by destruct rows; [apply elem_of_nil in Hx|].
  - intros Hno. unfold TodoRoutes.remove_handler. fold rows.
    destruct rows as [|x xs] eqn:E; [done|]. destruct Hno. exists x. apply Hrows. by left.
  - intros x Hx. apply lookup_detach_delete_in. by apply Hrows.
  - intros y Hy. apply lookup_detach_delete_notin. by rewrite Hrows.
  - intros rl. rewrite elem_of_rels_detach_delete, !Hrows. done.
Qed.

Lemma admin_delete_covers_the_tenant_witness :
  let req := Request (Demo.bearer "alice") "uuid-8" ∅ in
  requireAuth Demo.world req = inr (Claims "uuid-1" "uuid-0" "admin")
  ∧ props_at 12 Demo.with_todos !! "user_id" = Some (VStr "uuid-4")
  ∧ (TodoRoutes.remove Demo.world req Demo.with_todos).1
    = Response 200 (Message true "Todo deleted")
  ∧ nodes (TodoRoutes.remove Demo.world req Demo.with_todos).2 !! 12 = None.
Proof.
  intros req.
  assert (requireAuth Demo.world req = inr (Claims "uuid-1" "uuid-0" "admin")) as Hauth
    by (vm_compute; reflexivity).
  split; [exact Hauth|]. split; [vm_compute; reflexivity|].
  destruct (admin_delete_covers_the_tenant Demo.world req Demo.with_todos _ Hauth eq_refl)
    as (Hok & _ & Hgone & _).
  assert (∃ nd t nt, nodes Demo.with_todos !! 12 = Some nd ∧ label_of nd = Todo
            ∧ props nd !! "id" = Some (VStr (param_id req))
            ∧ Rel BELONGS_TO 12 t ∈ rels Demo.with_todos
            ∧ nodes Demo.with_todos !! t = Some nt
            ∧ label_of nt = Tenant
            ∧ props nt !! "id" = Some (VStr (tenantId (Claims "uuid-1" "uuid-0" "admin"))))
    as Hm.
  { eexists _, 4, _. split; [vm_compute; reflexivity|]. split; [reflexivity|].
    split; [vm_compute; reflexivity|].
    split; [apply (bool_decide_unpack _); vm_compute; exact I|].
    split; [vm_compute; reflexivity|]. split; [reflexivity|]. vm_compute. reflexivity. }
  split; [apply Hok; by exists 12|]. by apply Hgone.
Defined.

(** X22. A deleted category is gone for its owner: after
    DELETE /api/categories/:id, whatever it answered, the same caller's
    GET /api/categories/:id on the same [id] is answered 404 "Category not
    found". *)
Theorem deleted_category_is_gone W req s c req' :
  requireAuth W req = inr c → requireAuth W req' = inr c →
  param_id req' = param_id req →
  (CategoryRoutes.get W req' (CategoryRoutes.remove W req s).2).1
  = Response 404 (Message false "Category not found").
Proof.
  intros Hauth Hauth' Hid.
  unfold CategoryRoutes.remove, CategoryRoutes.get, serve. rewrite Hauth, Hauth'.
  set (s1 := CategoryRoutes.clear_references (param_id req) s).
  assert ((CategoryRoutes.remove_handler req c s).2
          = Cypher.detach_delete
              (Cypher.owned (Cypher.node_is Category [("id", VStr (param_id req))])
                            (tenantId c) (userId c) s1) s1) as ->.
  { unfold CategoryRoutes.remove_handler. fold s1. by destruct (Nat.eqb _ 0). }
  unfold CategoryRoutes.get_handler. rewrite Hid.
  by rewrite owned_after_delete.
Qed.

Lemma deleted_category_is_gone_witness :
  let req := Request (Demo.bearer "alice") "uuid-5" ∅ in
  requireAuth Demo.world req = inr (Claims "uuid-1" "uuid-0" "admin")
  ∧ status (CategoryRoutes.get Demo.world req Demo.with_todos).1 = 200
  ∧ (CategoryRoutes.get Demo.world req
       (CategoryRoutes.remove Demo.world req Demo.with_todos).2).1
    = Response 404 (Message false "Category not found").
Proof.
  intros req.
  split; [vm_compute; reflexivity|]. split; [vm_compute; reflexivity|].
  apply (deleted_category_is_gone Demo.world req Demo.with_todos
           (Claims "uuid-1" "uuid-0" "admin") req); vm_compute; reflexivity.
Defined.

(** ** The seed script *)

Section Seeding.

Implicit Types (s : store) (x : nat) (key : string).

Let reset (p : gmap string value) : gmap string value := <["isUsed" := VBool false]> p.

Lemma merge_key_found key s x nd :
  nodes s !! x = Some nd → label_of nd = InviteKey → props nd !! "key" = Some (VStr key) →
  Seed.merge_key key s
  = Cypher.set_props (Cypher.match_nodes InviteKey [("key", VStr key)] s) reset s.
Proof.
  intros Hx Hl Hk. unfold Seed.merge_key.
  destruct (Cypher.match_nodes InviteKey [("key", VStr key)] s) as [|y ys] eqn:Hm; [|done].
  assert (x ∈ Cypher.match_nodes InviteKey [("key", VStr key)] s) as Hin.
  { apply elem_of_match_nodes. exists nd. split; [done|]. by apply node_is_prop. }
  rewrite Hm in Hin. by apply elem_of_nil in Hin.
Qed.

Lemma merge_key_fresh key s :
  (∀ x nd, nodes s !! x = Some nd → label_of nd = InviteKey →
           props nd !! "key" ≠ Some (VStr key)) →
  Seed.merge_key key s
  = (Cypher.create_node InviteKey
       (list_to_map [("key", VStr key); ("isUsed", VBool false)]) s).2.
Proof.
  intros Hno. unfold Seed.merge_key.
  destruct (Cypher.match_nodes InviteKey [("key", VStr key)] s) as [|y ys] eqn:Hm; [done|].
  assert (y ∈ Cypher.match_nodes InviteKey [("key", VStr key)] s) as Hin
    by (rewrite Hm; by left).
  apply elem_of_match_nodes in Hin as (nd & Hy & Hp). apply node_is_prop in Hp as [Hl Hk].
  by destruct (Hno y nd Hy Hl).
Qed.

(** What one MERGE does to each node. *)
Lemma merge_key_nodes key s x nd :
  nodes s !! x = Some nd →
  nodes (Seed.merge_key key s) !! x
  = Some (if bool_decide (label_of nd = InviteKey ∧ props nd !! "key" = Some (VStr key))
          then Node InviteKey (reset (props nd)) else nd).
Proof.
  intros Hx. case_bool_decide as Hd.
  - destruct Hd as [Hl Hk]. rewrite (merge_key_found key s x nd Hx Hl Hk).
    rewrite lookup_set_props_in.
    + rewrite Hx. cbn [fmap option_fmap option_map]. by rewrite Hl.
    + intros p. unfold reset. apply insert_insert_eq.
    + apply elem_of_match_nodes. exists nd. split; [done|]. by apply node_is_prop.
  - unfold Seed.merge_key.
    destruct (Cypher.match_nodes InviteKey [("key", VStr key)] s) as [|y ys] eqn:Hm.
    + by apply lookup_create_node_old.
    + rewrite lookup_set_props_notin; [done|]. rewrite <- Hm. intros Hin.
      apply elem_of_match_nodes in Hin as (nd' & Hx' & Hp). apply node_is_prop in Hp.
      apply Hd. congruence.
Qed.

Lemma merge_key_rels key s : rels (Seed.merge_key key s) = rels s.
Proof.
  unfold Seed.merge_key. by destruct (Cypher.match_nodes InviteKey _ s).
Qed.

Lemma merge_key_unused key s : unused_key (Seed.merge_key key s) (VStr key).
Proof.
  destruct (decide (∃ x nd, nodes s !! x = Some nd
                            ∧ label_of nd = InviteKey ∧ props nd !! "key" = Some (VStr key)))
    as [(x & nd & Hx & Hl & Hk)|Hno].
  - exists x, (Node InviteKey (reset (props nd))).
    rewrite (merge_key_nodes key s x nd Hx). rewrite bool_decide_true by done.
    split; [done|]. split; [done|]. unfold reset. cbn [props].
    rewrite lookup_insert_ne by discriminate. split; [done|]. apply lookup_insert_eq.
  - rewrite merge_key_fresh.
    + eexists _, _. split; [apply lookup_create_node_new|]. split; [done|].
      cbn [props]. rewrite !lookup_plus_eq. simpl. split; [by rewrite lookup_insert_eq|].
      rewrite lookup_insert_ne by discriminate. by rewrite lookup_insert_eq.
    + intros x nd Hx Hl Hk. apply Hno. by exists x, nd.
Qed.

Lemma merge_key_keeps_unused key s v :
  unused_key s v → unused_key (Seed.merge_key key s) v.
Proof.
  intros (x & nd & Hx & Hl & Hk & Hu).
  eexists x, _. split; [by apply merge_key_nodes|].
  case_bool_decide; [|done]. cbn [label_of props]. split; [done|]. unfold reset.
  rewrite lookup_insert_ne by discriminate. split; [done|]. apply lookup_insert_eq.
Qed.

Lemma merge_key_untouched key s :
  untouched (λ nd, label_of nd ≠ InviteKey) s (Seed.merge_key key s).
Proof.
  intros x nd Hx Hl. rewrite (merge_key_nodes key s x nd Hx).
  rewrite bool_decide_false; [done|]. by intros [? _].
Qed.

Lemma seed_steps (keys : list string) s :
  let s' := foldl (λ acc key, Seed.merge_key key acc) s keys in
  (∀ key, key ∈ keys → unused_key s' (VStr key))
  ∧ (∀ v, unused_key s v → unused_key s' v)
  ∧ untouched (λ nd, label_of nd ≠ InviteKey) s s'
  ∧ rels s' = rels s.
Proof.
  revert s. induction keys as [|k keys IH]; intros s; cbn zeta.
  { cbn [foldl]. split; [by intros ? ?%elem_of_nil|]. split; [done|].
    split; [apply untouched_refl|done]. }
  cbn [foldl]. destruct (IH (Seed.merge_key k s)) as (Hkeys & Hkeep & Hun & Hrels).
  split; [|split; [|split]].
  - intros key [->|Hin]%elem_of_cons; [|by apply Hkeys].
    apply Hkeep, merge_key_unused.
  - intros v Hv. by apply Hkeep, merge_key_keeps_unused.
  - eapply untouched_trans; [apply merge_key_untouched|exact Hun].
  - by rewrite Hrels, merge_key_rels.
Qed.

(** Every invite key node that carries [key] is unused, and there is one. *)
Let settled (key : string) (s : store) : Prop :=
  unused_key s (VStr key)
  ∧ ∀ x nd, nodes s !! x = Some nd → label_of nd = InviteKey →
            props nd !! "key" = Some (VStr key) →
            props nd !! "isUsed" = Some (VBool false).

Lemma merge_key_new_node key s x nd' :
  nodes s !! x = None → nodes (Seed.merge_key key s) !! x = Some nd' →
  nd' = Node InviteKey (Cypher.plus_eq ∅
          (list_to_map [("key", VStr key); ("isUsed", VBool false)])).
Proof.
  intros Hnone Hx. unfold Seed.merge_key in Hx.
  destruct (Cypher.match_nodes InviteKey [("key", VStr key)] s) as [|y ys] eqn:Hm.
  - unfold Cypher.create_node in Hx. cbn [snd nodes] in Hx.
    destruct (decide (x = Cypher.new_node s)) as [->|Hne].
    + rewrite lookup_insert_eq in Hx. by injection Hx as <-.
    + rewrite lookup_insert_ne in Hx by done. congruence.
  - pose proof (lookup_set_props_label (y :: ys) reset s x) as E. unfold reset in E.
    rewrite Hx, Hnone in E. discriminate E.
Qed.

Lemma merge_key_settles key s : settled key (Seed.merge_key key s).
Proof.
  split; [apply merge_key_unused|]. intros x nd' Hx Hl Hk.
  destruct (nodes s !! x) as [nd|] eqn:Hx0.
  - rewrite (merge_key_nodes key s x nd Hx0) in Hx. injection Hx as <-.
    case_bool_decide as Hd.
    + unfold reset. cbn [props]. apply lookup_insert_eq.
    + exfalso. apply Hd. done.
  - rewrite (merge_key_new_node key s x nd' Hx0 Hx). cbn [props].
    rewrite lookup_plus_eq. simpl.
    rewrite lookup_insert_ne by discriminate. by rewrite lookup_insert_eq.
Qed.

Lemma merge_key_keeps_settled key k s : settled k s → settled k (Seed.merge_key key s).
Proof.
  intros [Hex Hall]. split; [by apply merge_key_keeps_unused|]. intros x nd' Hx Hl Hk.
  destruct (nodes s !! x) as [nd|] eqn:Hx0.
  - rewrite (merge_key_nodes key s x nd Hx0) in Hx. injection Hx as <-.
    case_bool_decide as Hd.
    + unfold reset. cbn [props]. apply lookup_insert_eq.
    + by eapply Hall.
  - rewrite (merge_key_new_node key s x nd' Hx0 Hx). cbn [props].
    rewrite lookup_plus_eq. simpl.
    rewrite lookup_insert_ne by discriminate. by rewrite lookup_insert_eq.
Qed.

(** MERGE on a settled key changes nothing. *)
Lemma merge_key_settled key s : settled key s → Seed.merge_key key s = s.
Proof.
  intros [(x0 & nd0 & Hx0 & Hl0 & Hk0 & _) Hall].
  rewrite (merge_key_found key s x0 nd0 Hx0 Hl0 Hk0).
  destruct s as [ns rs d]. unfold Cypher.set_props. cbn [nodes rels drawn] in *. f_equal.
  apply map_eq. intros x.
  pose proof (lookup_set_props_label
                (Cypher.match_nodes InviteKey [("key", VStr key)] (Store ns rs d))
                reset (Store ns rs d) x) as Hlab.
  unfold Cypher.set_props in Hlab. cbn [nodes] in Hlab.
  destruct (ns !! x) as [nd|] eqn:Hx.
  2:{ by destruct (foldr _ _ _ !! x). }
  pose proof (merge_key_nodes key (Store ns rs d) x nd Hx) as Hn.
  rewrite (merge_key_found key (Store ns rs d) x0 nd0 Hx0 Hl0 Hk0) in Hn.
  unfold Cypher.set_props in Hn. cbn [nodes] in Hn. rewrite Hn. f_equal.
  case_bool_decide as Hd; [|done]. destruct Hd as [Hl Hk].
  destruct nd as [l p]. cbn [label_of props] in *. subst l. f_equal.
  unfold reset. apply insert_id. by eapply (Hall x (Node InviteKey p)).
Qed.

Lemma seed_settles (keys : list string) s key :
  key ∈ keys → settled key (foldl (λ acc key, Seed.merge_key key acc) s keys).
Proof.
  revert s. induction keys as [|k keys IH]; intros s Hin.
  { by apply elem_of_nil in Hin. }
  cbn [foldl].
  assert (∀ s0, settled key s0 →
            settled key (foldl (λ acc key, Seed.merge_key key acc) s0 keys)) as Hkeep.
  { clear IH Hin. induction keys as [|k' keys IH']; intros s0 Hs0; [done|].
    cbn [foldl]. by apply IH', merge_key_keeps_settled. }
  apply elem_of_cons in Hin as [->|Hin]; [|by apply IH].
  apply Hkeep, merge_key_settles.
Qed.

Lemma seed_fixed (keys : list string) s :
  (∀ key, key ∈ keys → settled key s) →
  foldl (λ acc key, Seed.merge_key key acc) s keys = s.
Proof.
  induction keys as [|k keys IH]; intros Hs; [done|].
  cbn [foldl]. rewrite merge_key_settled by (apply Hs; by left).
  apply IH. intros key Hin. apply Hs. by right.
Qed.

Lemma key_is_unique_alt s : Seed.key_is_unique s ↔ ¬ duplicate_key s.
Proof.
  split.
  - intros Hu (x & y & nx & ny & Hne & Hx & Hy & Hlx & Hly & Hk & Heq).
    apply Hne. exact (Hu x nx Hx y ny Hy Hlx Hly Hk Heq).
  - intros Hno x nx Hx y ny Hy Hlx Hly Hk Heq.
    destruct (decide (x = y)) as [?|Hne]; [done|].
    destruct Hno. exists x, y, nx, ny. done.
Qed.

Lemma seed_runs s :
  ¬ duplicate_key s →
  Seed.seed s = foldl (λ acc key, Seed.merge_key key acc) s Seed.inviteKeys.
Proof.
  intros Hno. unfold Seed.seed.
  destruct (decide (Seed.key_is_unique s)) as [?|Hdup]; [done|].
  destruct Hdup. by apply key_is_unique_alt.
Qed.

Lemma seed_fails s : duplicate_key s → Seed.seed s = s.
Proof.
  intros Hdup. unfold Seed.seed.
  destruct (decide (Seed.key_is_unique s)) as [Hu|?]; [|done].
  by apply key_is_unique_alt in Hu.
Qed.

Lemma seed_cases s :
  Seed.seed s = s
  ∨ Seed.seed s = foldl (λ acc key, Seed.merge_key key acc) s Seed.inviteKeys.
Proof. unfold Seed.seed. destruct (decide (Seed.key_is_unique s)); auto. Qed.

End Seeding.

(** X23. What the seed script leaves behind. On a database in which no two
    invite key nodes carry the same key, the uniqueness constraint is put in
    place and afterwards each of the four seeded keys names an unused
    InviteKey. On a database with a duplicated key the constraint query
    fails, the error is caught, and the script changes nothing. In both cases
    every node that is not an invite key, and every relationship, is as it
    was. *)
Theorem seed_provides_unused_keys s :
  (¬ duplicate_key s →
   ∀ key, key ∈ Seed.inviteKeys → unused_key (Seed.seed s) (VStr key))
  ∧ (duplicate_key s → Seed.seed s = s)
  ∧ untouched (λ nd, label_of nd ≠ InviteKey) s (Seed.seed s)
  ∧ rels (Seed.seed s) = rels s.
Proof.
  destruct (seed_steps Seed.inviteKeys s) as (Hkeys & _ & Hun & Hrels). cbn zeta in *.
  split; [|split; [apply seed_fails|]].
  - intros Hno key Hkey. rewrite seed_runs by done. by apply Hkeys.
  - destruct (seed_cases s) as [-> | ->]; [|done]. split; [apply untouched_refl|done].
Qed.

Lemma seed_provides_unused_keys_witness :
  (¬ duplicate_key Demo.base)
  ∧ used Demo.base 0
  ∧ unused_key (Seed.seed Demo.base) (VStr "chronos-beta")
  ∧ duplicate_key Demo.duplicated
  ∧ Seed.seed Demo.duplicated = Demo.duplicated.
Proof.
  assert (¬ duplicate_key Demo.base) as Hno.
  { apply key_is_unique_alt. apply (bool_decide_unpack _). vm_compute. exact I. }
  assert (duplicate_key Demo.duplicated) as Hdup.
  { exists 0, 1. eexists _, _. split; [discriminate|].
    split; [vm_compute; reflexivity|]. split; [vm_compute; reflexivity|].
    split; [reflexivity|]. split; [reflexivity|].
    split; [vm_compute; by eexists|]. vm_compute. reflexivity. }
  split; [exact Hno|].
  split.
  { eexists. split; [vm_compute; reflexivity|].
    split; [reflexivity|vm_compute; reflexivity]. }
  split; [|split; [exact Hdup|]].
  - apply (proj1 (seed_provides_unused_keys Demo.base) Hno).
    apply (bool_decide_unpack _). vm_compute. exact I.
  - exact (proj1 (proj2 (seed_provides_unused_keys Demo.duplicated)) Hdup).
Defined.

(** X24. The seed script is idempotent: running it a second time changes
    nothing. *)
Theorem seed_is_idempotent s : Seed.seed (Seed.seed s) = Seed.seed s.
Proof.
  destruct (seed_cases s) as [E|E]; [by rewrite !E|]. rewrite E.
  destruct (seed_cases (foldl (λ acc key, Seed.merge_key key acc) s Seed.inviteKeys))
    as [E1|E1]; [done|].
  rewrite E1. apply seed_fixed. intros key Hin. by apply seed_settles.
Qed.

(** ** Well-formed graphs *)

Section Closed.

Implicit Types (s : store) (x y : nat).

Lemma graph_closed_alt s :
  graph_closed s
  ↔ ∀ r, r ∈ rels s → is_Some (nodes s !! rsrc r) ∧ is_Some (nodes s !! rdst r).
Proof. unfold graph_closed. by rewrite Forall_forall. Qed.

(** Relationships are kept closed by a step that keeps every node in place
    and only adds relationships between nodes that exist afterwards. *)
Lemma graph_closed_grow s s' :
  graph_closed s →
  (∀ x, is_Some (nodes s !! x) → is_Some (nodes s' !! x)) →
  (∀ r, r ∈ rels s' →
        r ∈ rels s ∨ (is_Some (nodes s' !! rsrc r) ∧ is_Some (nodes s' !! rdst r))) →
  graph_closed s'.
Proof.
  rewrite !graph_closed_alt. intros Hc Hdom Hrels r Hr.
  destruct (Hrels r Hr) as [Hold|?]; [|done].
  destruct (Hc r Hold). split; by apply Hdom.
Qed.

Lemma set_props_dom xs f s x :
  is_Some (nodes (Cypher.set_props xs f s) !! x) ↔ is_Some (nodes s !! x).
Proof.
  pose proof (lookup_set_props_label xs f s x) as E.
  rewrite <- !not_eq_None_Some.
  destruct (nodes (Cypher.set_props xs f s) !! x), (nodes s !! x); try discriminate; done.
Qed.

Lemma graph_closed_set_props xs f s : graph_closed s → graph_closed (Cypher.set_props xs f s).
Proof.
  intros Hc. apply (graph_closed_grow s); [done| |by left].
  intros x. by rewrite set_props_dom.
Qed.

Lemma graph_closed_detach_delete xs s :
  graph_closed s → graph_closed (Cypher.detach_delete xs s).
Proof.
  rewrite !graph_closed_alt. intros Hc r Hr.
  apply elem_of_rels_detach_delete in Hr as (Hr & Hsrc & Hdst).
  rewrite !lookup_detach_delete_notin by done. by apply Hc.
Qed.

Lemma graph_closed_unlink id s : graph_closed s → graph_closed (unlink_category id s).
Proof.
  rewrite !graph_closed_alt. intros Hc r Hr.
  apply elem_of_rels_unlink in Hr as [Hr _]. by apply Hc.
Qed.

Lemma graph_closed_link a b s : graph_closed s → graph_closed (link_category a b s).
Proof.
  intros Hc. apply (graph_closed_grow s); [done|by rewrite nodes_link_category|].
  intros r Hr. apply elem_of_rels_link in Hr as [?|(x & y & -> & Hx & Hy)]; [by left|].
  right. rewrite nodes_link_category. cbn [rsrc rdst].
  apply elem_of_match_nodes in Hx as (nx & Hx & _).
  apply elem_of_match_nodes in Hy as (ny & Hy & _). by rewrite Hx, Hy.
Qed.

Lemma graph_closed_create_owned W l mk c s :
  graph_closed s → graph_closed (create_owned W l mk (user_tenant_rows c s) s).2.
Proof.
  intros Hc. apply (graph_closed_grow s); [done| |].
  - intros x [nd Hx]. exists nd. by apply create_owned_old.
  - intros r Hr. apply create_owned_rels_inv in Hr as [?|(x & [u t] & Hx & Hrow & Hor)];
      [by left|]. right.
    apply create_owned_new in Hx as [_ [uuid Hx]].
    unfold user_tenant_rows in Hrow. apply list_elem_of_In, in_prod_iff in Hrow as [Hu Ht].
    apply list_elem_of_In, elem_of_match_nodes in Hu as (nu & Hu & _).
    apply list_elem_of_In, elem_of_match_nodes in Ht as (nt & Ht & _).
    apply (create_owned_old W l mk (user_tenant_rows c s)) in Hu, Ht.
    destruct Hor as [-> | ->]; cbn [rsrc rdst fst snd]; split; by eexists.
Qed.

Lemma graph_closed_committed clk b hashed s s' :
  graph_closed s → all_committed clk b hashed s s' → graph_closed s'.
Proof.
  intros Hc (_ & _ & Hchanged & Hnew & _). apply (graph_closed_grow s); [done| |].
  - intros x [nd Hx]. destruct (decide (nodes s' !! x = Some nd)) as [E|Hdiff]; [by eexists|].
    destruct (Hchanged x nd Hx Hdiff)
      as (t & u & tid & uid & ki & _ & _ & _ & _ & _ & _ & Hi & _).
    by eexists.
  - intros r Hr. destruct (Hnew r Hr) as [?|(i & t & u & Hp & Hin)]; [by left|]. right.
    destruct Hp as (tid & uid & ki & _ & _ & _ & _ & Ht & Hu & Hi & _).
    rewrite !elem_of_cons, elem_of_nil in Hin.
    destruct Hin as [-> |[-> |[-> |[]]]]; cbn [rsrc rdst]; split; by eexists.
Qed.

Lemma graph_closed_add_users W clk b hashed s l kvs :
  graph_closed s →
  graph_closed (UserRoutes.add_users W clk b hashed (Cypher.match_nodes l kvs s) s).2.
Proof.
  intros Hc.
  destruct (add_users_spec W clk b hashed (Cypher.match_nodes l kvs s) s)
    as (Hall & _ & Hnew & _).
  { intros t Ht. apply elem_of_match_nodes in Ht as (nd & Hnd & _). by eexists. }
  apply (graph_closed_grow s); [done| |].
  - intros x [nd Hx]. exists nd. by apply add_users_old.
  - intros r Hr. destruct (Hnew r Hr) as [?|(t & u & -> & Ht & Hu)]; [by left|].
    apply list_elem_of_lookup in Hu as [k Hk].
    destruct (Forall2_lookup_r _ _ _ _ _ Hall Hk) as (t' & Ht' & _ & _ & uid & Hu).
    apply elem_of_match_nodes in Ht as (nt & Hnt & _).
    right. cbn [rsrc rdst]. split; [|by eexists].
    exists nt. by apply add_users_old.
Qed.

End Closed.

Section Invariants.

Implicit Types (s : store) (x : nat).

Lemma serve_closed {A} (g : guard A) h s :
  graph_closed s → (∀ a, graph_closed (h a s).2) → graph_closed (serve g h s).2.
Proof. intros Hc Hh. destruct g as [r|a]; [done|apply Hh]. Qed.

Lemma seed_dom s x : is_Some (nodes s !! x) → is_Some (nodes (Seed.seed s) !! x).
Proof.
  destruct (seed_cases s) as [-> | ->]; [done|].
  generalize Seed.inviteKeys. intros keys. revert s.
  induction keys as [|k keys IH]; intros s Hx; [done|].
  cbn [foldl]. apply IH. destruct Hx as [nd Hx].
  eexists. by apply merge_key_nodes.
Qed.

Lemma api_closed W clk e req s : graph_closed s → graph_closed (api W clk e req s).2.
Proof.
  intros Hc. destruct e; cbn [api].
  - by rewrite tenant_lookup_same.
  - destruct (create_cases W clk req s) as [[-> _]|(_ & _ & Hall)]; [done|].
    by eapply graph_closed_committed.
  - apply serve_closed; [done|]. intros c. unfold UserRoutes.create_handler.
    destruct (negb _); [done|].
    pose proof (graph_closed_add_users W clk (body req)
                  (hashPassword W (as_string (field (body req) "password")))
                  s Tenant [("id", VStr (tenantId c))] Hc) as Hadd.
    by destruct (UserRoutes.add_users _ _ _ _ _ s).1.
  - by rewrite user_login_same.
  - apply serve_closed; [done|]. intros c. unfold TodoRoutes.create_handler.
    case_bool_decide; [done|].
    pose proof (graph_closed_create_owned W Todo
                  (TodoRoutes.new_todo clk c (body req)) c s Hc) as Hcr.
    destruct (create_owned _ _ _ _ s).1; cbn [snd]; [done|].
    destruct (truthy _); [by apply graph_closed_link|done].
  - by rewrite todo_list_same.
  - by rewrite todo_get_same.
  - apply serve_closed; [done|]. intros c. unfold TodoRoutes.update_handler.
    destruct (Cypher.owned _ _ _ s) as [|x xs]; [done|].
    destruct (negb _); [done|]. cbn [snd].
    pose proof (graph_closed_set_props (x :: xs)
                  (λ p, Cypher.plus_eq p (TodoRoutes.updateMap clk (body req))) s Hc) as H1.
    case_bool_decide; [|done].
    destruct (truthy _); [apply graph_closed_link|]; by apply graph_closed_unlink.
  - apply serve_closed; [done|]. intros c. unfold TodoRoutes.remove_handler.
    destruct (Nat.eqb _ 0); by apply graph_closed_detach_delete.
  - apply serve_closed; [done|]. intros c. unfold CategoryRoutes.create_handler.
    case_bool_decide; [done|].
    pose proof (graph_closed_create_owned W Category
                  (CategoryRoutes.new_category clk c (body req)) c s Hc) as Hcr.
    by destruct (create_owned _ _ _ _ s).1.
  - by rewrite category_list_same.
  - by rewrite category_get_same.
  - apply serve_closed; [done|]. intros c. unfold CategoryRoutes.update_handler.
    destruct (Cypher.owned _ _ _ s) as [|x xs]; [done|].
    destruct (negb _); [done|]. by apply graph_closed_set_props.
  - apply serve_closed; [done|]. intros c. unfold CategoryRoutes.remove_handler.
    destruct (Nat.eqb _ 0); by apply graph_closed_detach_delete, graph_closed_set_props.
Qed.

Let is_account (nd : node) : Prop := label_of nd = User ∨ label_of nd = Tenant.

Lemma owned_rows_not_account l kvs T U s x nd :
  l ≠ User → l ≠ Tenant →
  x ∈ Cypher.owned (Cypher.node_is l kvs) T U s → nodes s !! x = Some nd → ¬ is_account nd.
Proof.
  intros H1 H2 Hin Hx Ha. pose proof (owned_rows_label _ _ _ _ _ _ _ Hin Hx).
  destruct Ha; congruence.
Qed.

Lemma api_accounts W clk e req s : untouched is_account s (api W clk e req s).2.
Proof.
  destruct e; cbn [api].
  - rewrite tenant_lookup_same. apply untouched_refl.
  - destruct (create_cases W clk req s) as [[-> _]|(_ & _ & Hall)]; [apply untouched_refl|].
    destruct Hall as (_ & _ & Hchanged & _). intros x nd Hx Ha.
    destruct (decide (nodes (TenantRoutes.create W clk req s).2 !! x = Some nd))
      as [E|Hdiff]; [done|].
    destruct (Hchanged x nd Hx Hdiff)
      as (t & u & tid & uid & ki & _ & _ & Hki & Hl & _).
    rewrite Hx in Hki. injection Hki as <-. destruct Ha; congruence.
  - apply serve_untouched. intros c. unfold UserRoutes.create_handler.
    destruct (negb _); [apply untouched_refl|].
    assert (untouched is_account s
              (UserRoutes.add_users W clk (body req)
                 (hashPassword W (as_string (field (body req) "password")))
                 (Cypher.match_nodes Tenant [("id", VStr (tenantId c))] s) s).2) as Hc.
    { intros x nd Hx _. by apply add_users_old. }
    by destruct (UserRoutes.add_users _ _ _ _ _ s).1.
  - rewrite user_login_same. apply untouched_refl.
  - apply serve_untouched. intros c. unfold TodoRoutes.create_handler.
    case_bool_decide; [apply untouched_refl|].
    set (created := create_owned _ _ _ _ s).
    assert (untouched is_account s created.2) as Hc.
    { intros x nd Hx _. by apply create_owned_old. }
    destruct created.1 as [|y ys]; cbn [snd]; [exact Hc|].
    destruct (truthy _); [|exact Hc].
    eapply untouched_trans; [exact Hc|]. apply untouched_same_nodes, nodes_link_category.
  - rewrite todo_list_same. apply untouched_refl.
  - rewrite todo_get_same. apply untouched_refl.
  - apply serve_untouched. intros c. unfold TodoRoutes.update_handler.
    set (rows := Cypher.owned _ _ _ s).
    assert (∀ x nd, x ∈ rows → nodes s !! x = Some nd → ¬ is_account nd) as Hrows.
    { intros x nd. by apply owned_rows_not_account. }
    destruct rows as [|y ys] eqn:Hr; [apply untouched_refl|].
    destruct (negb _); [apply untouched_refl|]. cbn [snd].
    eapply untouched_trans; [by apply set_props_untouched|].
    case_bool_decide; [|apply untouched_refl].
    destruct (truthy _).
    + apply untouched_same_nodes. by rewrite nodes_link_category.
    + by apply untouched_same_nodes.
  - apply serve_untouched. intros c. unfold TodoRoutes.remove_handler.
    set (rows := Cypher.in_tenant _ _ s).
    assert (untouched is_account s (Cypher.detach_delete rows s)) as Hd.
    { apply detach_delete_untouched. intros x nd Hin Hx Ha.
      pose proof (in_tenant_rows_label _ _ _ _ _ _ Hin Hx). destruct Ha; congruence. }
    by destruct (Nat.eqb _ _).
  - apply serve_untouched. intros c. unfold CategoryRoutes.create_handler.
    case_bool_decide; [apply untouched_refl|].
    set (created := create_owned _ _ _ _ s).
    assert (untouched is_account s created.2) as Hc.
    { intros x nd Hx _. by apply create_owned_old. }
    by destruct created.1.
  - rewrite category_list_same. apply untouched_refl.
  - rewrite category_get_same. apply untouched_refl.
  - apply serve_untouched. intros c. unfold CategoryRoutes.update_handler.
    set (rows := Cypher.owned _ _ _ s).
    assert (∀ x nd, x ∈ rows → nodes s !! x = Some nd → ¬ is_account nd) as Hrows.
    { intros x nd. by apply owned_rows_not_account. }
    destruct rows as [|y ys] eqn:Hr; [apply untouched_refl|].
    destruct (negb _); [apply untouched_refl|]. cbn [snd].
    by apply set_props_untouched.
  - apply serve_untouched. intros c. unfold CategoryRoutes.remove_handler.
    set (s1 := CategoryRoutes.clear_references _ s).
    assert (untouched is_account s s1) as H1.
    { apply set_props_untouched. intros x nd Hin Hx Ha.
      pose proof (match_nodes_label _ _ _ _ _ Hin Hx). destruct Ha; congruence. }
    set (rows := Cypher.owned _ _ _ s1).
    assert (untouched is_account s1 (Cypher.detach_delete rows s1)) as Hd.
    { apply detach_delete_untouched. intros x nd. by apply owned_rows_not_account. }
    destruct (Nat.eqb _ _); cbn [snd]; by eapply untouched_trans.
Qed.

End Invariants.

(** X25. Relationships never dangle: if every relationship of the store
    joins two existing nodes, the same holds after the seed script and after
    any request to any route, whatever it answers. The empty database is such
    a store. *)
Theorem graph_stays_closed s :
  graph_closed s →
  graph_closed (Seed.seed s) ∧ ∀ W clk e req, graph_closed (api W clk e req s).2.
Proof.
  intros Hc. split; [|intros W clk e req; by apply api_closed].
  destruct (seed_steps Seed.inviteKeys s) as (_ & _ & _ & Hrels). cbn zeta in Hrels.
  apply (graph_closed_grow s); [done|apply seed_dom|]. intros r Hr. left.
  destruct (seed_cases s) as [E|E]; rewrite E in Hr; [done|]. by rewrite Hrels in Hr.
Qed.

Lemma graph_stays_closed_witness :
  graph_closed Demo.with_todos
  ∧ graph_closed (api Demo.world Demo.later DELETE_category
                    (Request (Demo.bearer "alice") "uuid-5" ∅) Demo.with_todos).2.
Proof.
  assert (graph_closed Demo.with_todos) as Hc.
  { apply (bool_decide_unpack _). vm_compute. exact I. }
  split; [exact Hc|]. apply (proj2 (graph_stays_closed Demo.with_todos Hc)).
Defined.

(** X26. Accounts are immutable through the API: no request to any route
    changes or deletes a User node or a Tenant node that exists. In
    particular no route changes a password, a role, an e-mail, or the
    [isActive] flag of a tenant. *)
Theorem accounts_are_immutable W clk e req s :
  untouched (λ nd, label_of nd = User ∨ label_of nd = Tenant) s (api W clk e req s).2.
Proof. apply api_accounts. Qed.

Section Setup.

Implicit Types (s : store) (x : nat).

Lemma detach_delete_all_nodes s :
  nodes (Cypher.detach_delete (map_to_list (nodes s)).*1 s) = ∅.
Proof.
  apply map_eq. intros x. rewrite lookup_empty.
  destruct (decide (x ∈ (map_to_list (nodes s)).*1)) as [Hin|Hout].
  - by apply lookup_detach_delete_in.
  - rewrite lookup_detach_delete_notin by done.
    destruct (nodes s !! x) as [nd|] eqn:Hx; [|done].
    destruct Hout. apply list_elem_of_fmap. exists (x, nd). split; [done|].
    by apply elem_of_map_to_list.
Qed.

Lemma detach_delete_all_rels s :
  graph_closed s → rels (Cypher.detach_delete (map_to_list (nodes s)).*1 s) = [].
Proof.
  intros Hc. apply elem_of_nil_inv. intros r Hr.
  apply elem_of_rels_detach_delete in Hr as (Hr & Hsrc & _).
  destruct (proj1 (graph_closed_alt s) Hc r Hr) as [[nd Hnd] _].
  apply Hsrc. apply list_elem_of_fmap. exists (rsrc r, nd). split; [done|].
  by apply elem_of_map_to_list.
Qed.

End Setup.

(** X27. The global test setup resets any database: whatever the store was,
    afterwards its nodes are exactly the four unused invite keys that the
    seed script creates on an empty database, and, when no relationship of
    the store was dangling, no relationship is left. *)
Theorem global_setup_resets s :
  nodes (globalSetup s) = nodes (Seed.seed empty_store)
  ∧ (∀ key, key ∈ Seed.inviteKeys → unused_key (globalSetup s) (VStr key))
  ∧ (graph_closed s → rels (globalSetup s) = []).
Proof.
  unfold globalSetup.
  pose proof (detach_delete_all_nodes s) as Hn.
  pose proof (detach_delete_all_rels s) as Hr.
  destruct (Cypher.detach_delete (map_to_list (nodes s)).*1 s) as [n r d].
  cbn [nodes rels] in Hn, Hr. subst n.
  assert (Seed.seed (Store ∅ r d)
          = foldl (λ acc key, Seed.merge_key key acc) (Store ∅ r d) Seed.inviteKeys) as E.
  { apply seed_runs. intros (x & y & nx & ny & _ & Hx & _). cbn [nodes] in Hx.
    by rewrite lookup_empty in Hx. }
  split; [vm_compute; reflexivity|]. rewrite E. split.
  - intros key Hkey.
    destruct (seed_steps Seed.inviteKeys (Store ∅ r d)) as (Hkeys & _). by apply Hkeys.
  - intros Hc. destruct (seed_steps Seed.inviteKeys (Store ∅ r d)) as (_ & _ & _ & Hrels).
    cbn zeta in Hrels. rewrite Hrels. by apply Hr.
Qed.

Lemma global_setup_resets_witness :
  graph_closed Demo.with_todos
  ∧ globalSetup Demo.with_todos = Store (nodes Demo.seeded) [] (drawn Demo.with_todos).
Proof.
  assert (graph_closed Demo.with_todos) as Hc.
  { apply (bool_decide_unpack _). vm_compute. exact I. }
  split; [exact Hc|].
  destruct (global_setup_resets Demo.with_todos) as (Hn & _ & Hr).
  specialize (Hr Hc).
  assert (drawn (globalSetup Demo.with_todos) = drawn Demo.with_todos) as Hd
    by (vm_compute; reflexivity).
  destruct (globalSetup Demo.with_todos) as [n r d]. cbn [nodes rels drawn] in *.
  by subst.
Defined.


(** ** Conditions under which the create routes succeed *)

Section Success.

Context (W : World) (clk : clock).

Implicit Types (s : store) (req : request) (c : claims).

Lemma member_rows c s :
  member s (tenantId c) (userId c) → user_tenant_rows c s ≠ [].
Proof.
  intros (t & u & nt & nu & _ & Ht & Hu & Hpt & Hpu) Hnil.
  assert ((u, t) ∈ user_tenant_rows c s) as Hin.
  { unfold user_tenant_rows. apply list_elem_of_In, in_prod_iff.
    split; apply list_elem_of_In, elem_of_match_nodes; by eexists. }
  rewrite Hnil in Hin. by apply elem_of_nil in Hin.
Qed.

(** Every invite key node that carried the request's key is marked by a 201
    of the creation handler. *)
Lemma create_handler_marks req s x nd :
  status (TenantRoutes.create_handler W clk req s).1 = 201 →
  nodes s !! x = Some nd → label_of nd = InviteKey →
  props nd !! "key" = Some (field (body req) "inviteKey") →
  ∃ nd', nodes (TenantRoutes.create_handler W clk req s).2 !! x = Some nd'
         ∧ label_of nd' = InviteKey ∧ props nd' !! "isUsed" = Some (VBool true).
Proof.
  unfold TenantRoutes.create_handler.
  destruct (negb _) eqn:Hdup; [discriminate|].
  destruct (Nat.eqb (length (Cypher.match_nodes InviteKey
                               [("key", field (body req) "inviteKey"); ("isUsed", VBool false)]
                               s)) 0) eqn:Hkey; [discriminate|].
  set (b := body req). set (hashed := hashPassword W _).
  set (keys := Cypher.match_nodes InviteKey [("key", field b "inviteKey")] s).
  pose proof (provision_spec W clk b hashed keys s (NoDup_match_nodes _ _ _)) as Hspec.
  cbn zeta in Hspec.
  destruct Hspec as (_ & _ & _ & Hall & _).
  { intros i Hi. apply elem_of_match_nodes in Hi as (ni & Hx & Hp).
    exists ni. split; [done|]. by eapply node_is_label. }
  set (res := TenantRoutes.provision W clk b hashed keys s) in *.
  intros H201 Hx Hl Hk.
  assert ((match res.1 with
           | [] => (Response 500 (Failure "Cannot read properties of undefined"), res.2)
           | (t, u) :: _ =>
               (Response 201
                  (TenantBody (pick ["id"; "name"; "slug"] (props_at t res.2))
                              (pick ["id"; "email"; "role"] (props_at u res.2))), res.2)
           end).2 = res.2) as -> by (by destruct res.1 as [|[t u] l]).
  assert (x ∈ keys) as Hin.
  { apply elem_of_match_nodes. exists nd. split; [done|]. by apply node_is_prop. }
  apply list_elem_of_lookup in Hin as [k Hkx].
  destruct (Forall2_lookup_l _ _ _ _ _ Hall Hkx)
    as (tu & _ & tid & uid & ki & _ & _ & Hki & Hkl & _ & _ & Hi & _).
  eexists. split; [exact Hi|]. split; [done|]. apply mark_used_isUsed.
Qed.

End Success.

(** X28. An invite key is consumed by the creation it pays for: after a 201
    of tenant creation no InviteKey with the request's key is unused any
    more, so every later creation request with the same key is refused with
    400 and changes nothing. *)
Theorem invite_key_is_consumed W clk req s :
  status (TenantRoutes.create W clk req s).1 = 201 →
  let s' := (TenantRoutes.create W clk req s).2 in
  ¬ unused_key s' (field (body req) "inviteKey")
  ∧ ∀ clk' req',
      field (body req') "inviteKey" = field (body req) "inviteKey" →
      status (TenantRoutes.create W clk' req' s').1 = 400
      ∧ (TenantRoutes.create W clk' req' s').2 = s'.
Proof.
  intros H201. cbn zeta.
  assert (¬ unused_key (TenantRoutes.create W clk req s).2 (field (body req) "inviteKey"))
    as Hused.
  { destruct (tenant_created W clk req s H201) as (_ & _ & Hall & _).
    revert H201 Hall. unfold TenantRoutes.create, serve, validate.
    destruct (TenantRoutes.createSchema W (body req)); [|discriminate].
    intros H201 (_ & Hnew & Hchanged & _) (x & nd' & Hx' & Hl' & Hk' & Hu').
    set (s' := (TenantRoutes.create_handler W clk req s).2) in *.
    destruct (nodes s !! x) as [nd|] eqn:Hx.
    - destruct (decide (nodes s' !! x = Some nd)) as [Hsame|Hdiff].
      + assert (nd' = nd) as -> by congruence.
        destruct (create_handler_marks W clk req s x nd H201 Hx Hl' Hk')
          as (nd2 & Hx2 & _ & Hu2).
        fold s' in Hx2. congruence.
      + destruct (Hchanged x nd Hx Hdiff)
          as (t & u & tid & uid & ki & _ & _ & _ & _ & _ & _ & Hi & _).
        rewrite Hx' in Hi. injection Hi as ->. cbn [props] in Hu'.
        rewrite mark_used_isUsed in Hu'. discriminate Hu'.
    - destruct (Hnew x nd' Hx' Hx)
        as (i & t & u & (tid & uid & ki & _ & _ & _ & _ & Ht & Hu & _) & [-> | ->]).
      + rewrite Hx' in Ht. injection Ht as ->. discriminate Hl'.
      + rewrite Hx' in Hu. injection Hu as ->. discriminate Hl'. }
  split; [exact Hused|]. intros clk' req' Hsame.
  destruct (create_cases W clk' req' (TenantRoutes.create W clk req s).2)
    as [[-> ->]|(_ & Hun & _)]; [done|].
  rewrite Hsame in Hun. by destruct Hused.
Qed.

Lemma invite_key_is_consumed_witness :
  status (TenantRoutes.create Demo.world Demo.clk Demo.acme_request Demo.seeded).1 = 201
  ∧ field (body Demo.reuse_request) "inviteKey" = field (body Demo.acme_request) "inviteKey"
  ∧ status (TenantRoutes.create Demo.world Demo.later Demo.reuse_request Demo.with_acme).1
    = 400.
Proof.
  assert (status (TenantRoutes.create Demo.world Demo.clk Demo.acme_request Demo.seeded).1
          = 201) as H201 by (vm_compute; reflexivity).
  assert (field (body Demo.reuse_request) "inviteKey"
          = field (body Demo.acme_request) "inviteKey") as Hk by (vm_compute; reflexivity).
  split; [exact H201|]. split; [exact Hk|].
  exact (proj1 (proj2 (invite_key_is_consumed Demo.world Demo.clk Demo.acme_request
                         Demo.seeded H201) Demo.later Demo.reuse_request Hk)).
Defined.

(** X29. A member with a valid body is served: an authenticated request
    whose token's user is joined to the token's tenant by a HAS_USER link
    and whose body passes the schema is answered 201 by POST /api/todos and
    by POST /api/categories. *)
Theorem member_can_create W clk req s c :
  requireAuth W req = inr c →
  member s (tenantId c) (userId c) →
  (TodoRoutes.createTodoSchema (body req) = true →
   status (TodoRoutes.create W clk req s).1 = 201)
  ∧ (CategoryRoutes.createCategorySchema (body req) = true →
     status (CategoryRoutes.create W clk req s).1 = 201).
Proof.
  intros Hauth Hm.
  assert (Cypher.membership (tenantId c) (userId c) s ≠ []) as Hne.
  { intros Hnil. by apply membership_nil in Hnil. }
  pose proof (member_rows c s Hm) as Hrows.
  split; intros Hs.
  - unfold TodoRoutes.create, serve, validate. rewrite Hauth, Hs. cbn [and_then].
    unfold TodoRoutes.create_handler. rewrite bool_decide_false by done.
    destruct (user_tenant_rows c s) as [|row rows]; [done|].
    cbn [create_owned fst snd]. done.
  - unfold CategoryRoutes.create, serve, validate. rewrite Hauth, Hs. cbn [and_then].
    unfold CategoryRoutes.create_handler. rewrite bool_decide_false by done.
    destruct (user_tenant_rows c s) as [|row rows]; [done|].
    cbn [create_owned fst snd]. done.
Qed.

Lemma member_can_create_witness :
  let req := Demo.todo_request "carol" "groceries" [] in
  requireAuth Demo.world req = inr (Claims "uuid-4" "uuid-0" "member")
  ∧ member Demo.base "uuid-0" "uuid-4"
  ∧ TodoRoutes.createTodoSchema (body req) = true
  ∧ status (TodoRoutes.create Demo.world Demo.clk req Demo.base).1 = 201.
Proof.
  intros req.
  assert (requireAuth Demo.world req = inr (Claims "uuid-4" "uuid-0" "member")) as Hauth
    by (vm_compute; reflexivity).
  assert (member Demo.base "uuid-0" "uuid-4") as Hm.
  { apply membership_member. vm_compute. discriminate. }
  assert (TodoRoutes.createTodoSchema (body req) = true) as Hs by (vm_compute; reflexivity).
  split; [exact Hauth|]. split; [exact Hm|]. split; [exact Hs|].
  exact (proj1 (member_can_create Demo.world Demo.clk req Demo.base _ Hauth Hm) Hs).
Defined.
